(** * PPO loss graph and reward-signal factory of ml-agents

    A model of
      - [mlagents/trainers/ppo/models.py] ([PPOModel]) and
      - [mlagents/trainers/components/reward_signals/reward_signal_factory.py]
        ([create_reward_signal]).

    [PPOModel.create_losses] does not compute numbers: it builds a TensorFlow
    graph, which a session evaluates later on a feed dictionary.  The model
    keeps the two phases apart: [tensor] is the type of graph nodes,
    [create_losses] builds nodes exactly as the Python code does (and fails
    with the Python exception the code would raise), and [eval] runs a node
    on a feed dictionary.

    Building the graph raises when a list index or a dictionary key is
    missing and when TensorFlow rejects the name asked for a placeholder.
    Shapes are checked when a node is evaluated: the tensors of the model
    carry no static shape, so the shape checks TensorFlow makes while a
    graph is built are outside the model.

    Numbers: float32 values are idealised as real numbers ([R]).  Results
    that IEEE arithmetic represents as NaN or as an infinity (the mean of an
    empty tensor, a division by zero) have no real value; evaluation stops
    there with the outcome [NonReal]. *)

From Stdlib Require Import Reals Lra Lia ZArith Ascii.
From stdpp Require Import base option list strings gmap.

(** ** Outcomes: Python exceptions and run-time failures *)

Inductive exn : Type :=
| IndexError                              (* list index out of range *)
| KeyError (key : string)                 (* missing dictionary key *)
| TypeError                               (* constructor arguments do not match *)
| ValueError                              (* TensorFlow: a node name it rejects *)
| UnityTrainerException (msg : string)    (* mlagents.trainers.trainer *)
| InvalidArgumentError                    (* TensorFlow: shapes, dtypes, feeds *)
| NonReal                                 (* NaN or infinity: outside the real model *)
| OtherException (msg : string).          (* anything else a callee may raise *)

Inductive result (A : Type) : Type :=
| Ok (a : A)
| Err (e : exn).
Arguments Ok {A} a.
Arguments Err {A} e.

#[global] Instance result_ret : MRet result := fun A a => Ok a.
#[global] Instance result_bind : MBind result := fun A B f m =>
  match m with
  | Ok a => f a
  | Err e => Err e
  end.
#[global] Instance result_fmap : FMap result := fun A B f m =>
  match m with
  | Ok a => Ok (f a)
  | Err e => Err e
  end.

(** [mapM f l] runs [f] on the elements of [l] from left to right and stops
    at the first failure. *)
Definition mapM {A B : Type} (f : A -> result B) : list A -> result (list B) :=
  fix go (l : list A) : result (list B) :=
    match l with
    | [] => Ok []
    | a :: l' => b ← f a; bs ← go l'; Ok (b :: bs)
    end.

(** [foldM f s l]: a Python [for] loop over [l] whose body [f] updates the
    loop state [s] and may raise. *)
Fixpoint foldM {A S : Type} (f : S -> A -> result S) (s : S) (l : list A)
  : result S :=
  match l with
  | [] => Ok s
  | a :: l' => s' ← f s a; foldM f s' l'
  end.

(** Python [l[i]] for a list and a non-negative index. *)
Definition getitem {A : Type} (l : list A) (i : nat) : result A :=
  match l !! i with
  | Some a => Ok a
  | None => Err IndexError
  end.

(** Python [d[k]] for a dictionary with string keys. *)
Definition dict_getitem {A : Type} (d : gmap string A) (k : string) : result A :=
  match d !! k with
  | Some a => Ok a
  | None => Err (KeyError k)
  end.

(** ** Tensor values *)

#[local] Set Warnings "-register-all".

Inductive dtype : Type := float32 | int32.

(** A run-time tensor of rank 0, 1 or 2.  A matrix is the list of its rows,
    all of one length; a tensor of shape [[n,1]] is a matrix of [n] rows of
    one entry each. *)
Inductive ndarray : Type :=
| Scalar (x : R)
| Vector (v : list R)
| Matrix (m : list (list R))
| IntScalar (z : Z)
| IntVector (v : list Z).

(** The column [[n,1]] holding the entries [xs]. *)
Definition column (xs : list R) : list (list R) := map (fun x => [x]) xs.

Definition sum_list (xs : list R) : R := foldr Rplus 0%R xs.

(** ** The TensorFlow operations the program uses *)

Module tf.

(** NumPy-style broadcasting along one axis: the lengths are equal, or one
    of them is 1. *)
Definition broadcast {A : Type} (f : A -> A -> result A) (xs ys : list A)
  : result (list A) :=
  match xs, ys with
  | [x], _ => mapM (f x) ys
  | _, [y] => mapM (fun x => f x y) xs
  | _, _ =>
      if decide (length xs = length ys)
      then mapM (fun p => f p.1 p.2) (zip xs ys)
      else Err InvalidArgumentError
  end.

(** A binary float operation applied elementwise, with broadcasting.
    Operands are evaluated beforehand; an integer operand is a dtype
    mismatch. *)
Definition elementwise (f : R -> R -> result R) (a b : ndarray) : result ndarray :=
  match a, b with
  | Scalar x, Scalar y => Scalar <$> f x y
  | Scalar x, Vector ys => Vector <$> mapM (f x) ys
  | Vector xs, Scalar y => Vector <$> mapM (fun x => f x y) xs
  | Vector xs, Vector ys => Vector <$> broadcast f xs ys
  | Scalar x, Matrix m => Matrix <$> mapM (mapM (f x)) m
  | Matrix m, Scalar y => Matrix <$> mapM (mapM (fun x => f x y)) m
  | Vector xs, Matrix m => Matrix <$> mapM (fun row => broadcast f xs row) m
  | Matrix m, Vector ys => Matrix <$> mapM (fun row => broadcast f row ys) m
  | Matrix m1, Matrix m2 => Matrix <$> broadcast (broadcast f) m1 m2
  | _, _ => Err InvalidArgumentError
  end.

Definition total (f : R -> R -> R) : R -> R -> result R := fun x y => Ok (f x y).

(** A unary float operation applied to every entry. *)
Definition pointwise (f : R -> R) (a : ndarray) : result ndarray :=
  match a with
  | Scalar x => Ok (Scalar (f x))
  | Vector xs => Ok (Vector (map f xs))
  | Matrix m => Ok (Matrix (map (map f) m))
  | _ => Err InvalidArgumentError
  end.

(** [x / y] on floats: a zero divisor gives NaN or an infinity. *)
Definition div (x y : R) : result R :=
  if Req_dec_T y 0 then Err NonReal else Ok (x / y)%R.

(** [pow(x, y)] on floats. *)
Definition pow (x y : R) : result R :=
  if Rlt_dec 0 x then Ok (Rpower x y)
  else if Req_dec_T x 0 then
    (if Rlt_dec 0 y then Ok 0%R
     else if Req_dec_T y 0 then Ok 1%R else Err NonReal)
  else
    (if Req_dec_T (frac_part y) 0 then Ok (powerRZ x (Int_part y))
     else Err NonReal).

Definition squared_difference (x y : R) : R := ((x - y) * (x - y))%R.

(** The mean of all entries; of no entries it is 0/0. *)
Definition mean (xs : list R) : result R :=
  match xs with
  | [] => Err NonReal
  | _ => Ok (sum_list xs / INR (length xs))%R
  end.

Definition reduce_mean (a : ndarray) : result ndarray :=
  match a with
  | Scalar x => Ok (Scalar x)
  | Vector xs => Scalar <$> mean xs
  | Matrix m => Scalar <$> mean (concat m)
  | _ => Err InvalidArgumentError
  end.

(** [tf.reduce_sum(a, axis=1)]: the sum of every row. *)
Definition reduce_sum_axis1 (a : ndarray) : result ndarray :=
  match a with
  | Matrix m => Ok (Vector (map sum_list m))
  | _ => Err InvalidArgumentError
  end.

(** The entries of [data] (its rows, for a matrix) whose partition index is
    [k], in their order. *)
Fixpoint select {A : Type} (k : Z) (data : list A) (partitions : list Z)
  : list A :=
  match data, partitions with
  | x :: data', p :: partitions' =>
      if decide (p = k) then x :: select k data' partitions'
      else select k data' partitions'
  | _, _ => []
  end.

Definition valid_partitions (num : nat) (partitions : list Z) : bool :=
  forallb (fun p => (0 <=? p)%Z && (p <? Z.of_nat num)%Z) partitions.

(** [tf.dynamic_partition(data, partitions, num)[k]]: [partitions] is an
    int vector as long as the first axis of [data], with entries in
    [0 .. num-1]. *)
Definition dynamic_partition (data partitions : ndarray) (num k : nat)
  : result ndarray :=
  if decide (k < num)%nat then
    match data, partitions with
    | Vector xs, IntVector ps =>
        if bool_decide (length xs = length ps) && valid_partitions num ps
        then Ok (Vector (select (Z.of_nat k) xs ps))
        else Err InvalidArgumentError
    | Matrix m, IntVector ps =>
        if bool_decide (length m = length ps) && valid_partitions num ps
        then Ok (Matrix (select (Z.of_nat k) m ps))
        else Err InvalidArgumentError
    | _, _ => Err InvalidArgumentError
    end
  else Err IndexError.

Definition cast_float32 (a : ndarray) : result ndarray :=
  match a with
  | IntScalar z => Ok (Scalar (IZR z))
  | IntVector zs => Ok (Vector (map IZR zs))
  | _ => Ok a
  end.

(** The scalars of a Python list packed into a vector. *)
Definition stack (vs : list ndarray) : result ndarray :=
  Vector <$> mapM (fun v => match v with
                            | Scalar x => Ok x
                            | _ => Err InvalidArgumentError
                            end) vs.

Definition ones_like (a : ndarray) : result ndarray :=
  match a with
  | IntScalar _ => Ok (IntScalar 1)
  | IntVector zs => Ok (IntVector (map (fun _ => 1%Z) zs))
  | _ => pointwise (fun _ => 1%R) a
  end.

(** [tf.reshape(a, [-1])]: all entries in one vector, row after row. *)
Definition flatten (a : ndarray) : result ndarray :=
  match a with
  | Scalar x => Ok (Vector [x])
  | Vector xs => Ok (Vector xs)
  | Matrix m => Ok (Vector (concat m))
  | IntScalar z => Ok (IntVector [z])
  | IntVector zs => Ok (IntVector zs)
  end.

(** Does a fed value fit a placeholder's dtype and static shape
    ([None] is an unknown dimension)? *)
Definition dim_ok (d : option nat) (n : nat) : bool :=
  match d with
  | None => true
  | Some k => bool_decide (k = n)
  end.

Definition fits (dt : dtype) (shape : list (option nat)) (a : ndarray) : bool :=
  match dt, shape, a with
  | float32, [], Scalar _ => true
  | float32, [d], Vector xs => dim_ok d (length xs)
  | float32, [d; c], Matrix m =>
      dim_ok d (length m) &&
      match m with
      | [] => true
      | row :: _ =>
          dim_ok c (length row) &&
          forallb (fun r => bool_decide (length r = length row)) m
      end
  | int32, [], IntScalar _ => true
  | int32, [d], IntVector zs => dim_ok d (length zs)
  | _, _, _ => false
  end.

End tf.

(** ** Graph nodes *)

(** The nodes [PPOModel] builds.  Each constructor is one TensorFlow call of
    the source; the Python operators [-x], [x + y], [x - y] and [x * y] on
    tensors are [Neg], [Add], [Sub] and [Mul], and a Python float used as an
    operand becomes a [Const].  A placeholder carries the name it was
    created with and is fed under that name; TensorFlow renames a placeholder
    whose name is already taken in the graph, which happens here only when
    two streams have one name. *)
Inductive tensor : Type :=
| Const (c : R)
| Placeholder (dt : dtype) (shape : list (option nat)) (name : string)
| TVariable (init : R) (name : string)            (* tf.Variable(init, name=name) *)
| Assign (ref new : tensor)
| CastFloat (a : tensor)                        (* tf.cast(a, tf.float32) *)
| Neg (a : tensor)
| Exp (a : tensor)
| Add (a b : tensor)
| Sub (a b : tensor)
| Mul (a b : tensor)
| Div (a b : tensor)
| Pow (a b : tensor)
| Minimum (a b : tensor)
| Maximum (a b : tensor)
| SquaredDifference (a b : tensor)
| ReduceSum1 (a : tensor)                       (* tf.reduce_sum(a, axis=1) *)
| ReduceMean (a : tensor)                       (* tf.reduce_mean(a) *)
| Stack (ts : list tensor)                      (* a Python list of tensors used as a tensor *)
| DynamicPartition (data partitions : tensor) (num k : nat)
                                                (* tf.dynamic_partition(data, partitions, num)[k] *)
| OnesLike (a : tensor)
| Reshape1 (a : tensor).                        (* tf.reshape(a, [-1]) *)

(** A feed dictionary: the values of the placeholders and the current
    values of the variables, by name. *)
Abbreviation feed_dict := (gmap string ndarray).

Fixpoint eval (feed : feed_dict) (t : tensor) : result ndarray :=
  match t with
  | Const c => Ok (Scalar c)
  | Placeholder dt shape name =>
      match feed !! name with
      | Some v => if tf.fits dt shape v then Ok v else Err InvalidArgumentError
      | None => Err InvalidArgumentError
      end
  | TVariable init name =>
      match feed !! name with
      | Some v => Ok v
      | None => Ok (Scalar init)
      end
  | Assign _ new => eval feed new
  | CastFloat a => v ← eval feed a; tf.cast_float32 v
  | Neg a => v ← eval feed a; tf.pointwise Ropp v
  | Exp a => v ← eval feed a; tf.pointwise exp v
  | Add a b => x ← eval feed a; y ← eval feed b; tf.elementwise (tf.total Rplus) x y
  | Sub a b => x ← eval feed a; y ← eval feed b; tf.elementwise (tf.total Rminus) x y
  | Mul a b => x ← eval feed a; y ← eval feed b; tf.elementwise (tf.total Rmult) x y
  | Div a b => x ← eval feed a; y ← eval feed b; tf.elementwise tf.div x y
  | Pow a b => x ← eval feed a; y ← eval feed b; tf.elementwise tf.pow x y
  | Minimum a b => x ← eval feed a; y ← eval feed b; tf.elementwise (tf.total Rmin) x y
  | Maximum a b => x ← eval feed a; y ← eval feed b; tf.elementwise (tf.total Rmax) x y
  | SquaredDifference a b =>
      x ← eval feed a; y ← eval feed b;
      tf.elementwise (tf.total tf.squared_difference) x y
  | ReduceSum1 a => v ← eval feed a; tf.reduce_sum_axis1 v
  | ReduceMean a => v ← eval feed a; tf.reduce_mean v
  | Stack ts => vs ← mapM (eval feed) ts; tf.stack vs
  | DynamicPartition data partitions num k =>
      d ← eval feed data; p ← eval feed partitions;
      tf.dynamic_partition d p num k
  | OnesLike a => v ← eval feed a; tf.ones_like v
  | Reshape1 a => v ← eval feed a; tf.flatten v
  end.

(** Composite TensorFlow functions, built from the nodes above as the
    library builds them. *)
Module tflib.

(** [tf.clip_by_value(t, lo, hi)]: the minimum with [hi], then the maximum
    with [lo]. *)
Definition clip_by_value (t clip_value_min clip_value_max : tensor) : tensor :=
  Maximum (Minimum t clip_value_max) clip_value_min.

(** [tf.train.polynomial_decay(learning_rate, global_step, decay_steps,
    end_learning_rate, power)] with [cycle=False]:
    [(learning_rate - end_learning_rate) * (1 - min(step, decay_steps) /
    decay_steps) ^ power + end_learning_rate]. *)
Definition polynomial_decay (learning_rate : R) (global_step : tensor)
    (decay_steps end_learning_rate power : R) : tensor :=
  let global_step_recomp :=
    Minimum (CastFloat global_step) (Const decay_steps) in
  let p := Div global_step_recomp (Const decay_steps) in
  Add (Mul (Sub (Const learning_rate) (Const end_learning_rate))
           (Pow (Sub (Const 1) p) (Const power)))
      (Const end_learning_rate).

(** The names TensorFlow 1.x accepts for a node created outside every name
    scope; the model is of a [PPOModel] built there.  [Graph.name_scope]
    matches the name against [_VALID_OP_NAME_REGEX],
    [^[A-Za-z0-9.][A-Za-z0-9_.\-/]*$].  The first character is a letter, a digit
    or a dot; every other character is one of these, an underscore, a hyphen
    or a slash.  Python's [$] also matches before a newline that ends the
    string. *)
Definition is_alphanumeric (c : Ascii.ascii) : bool :=
  let n := Ascii.nat_of_ascii c in
  (48 <=? n) && (n <=? 57) || (65 <=? n) && (n <=? 90) || (97 <=? n) && (n <=? 122).

Definition op_name_first (c : Ascii.ascii) : bool :=
  is_alphanumeric c || Ascii.eqb c "."%char.

Definition op_name_rest (c : Ascii.ascii) : bool :=
  is_alphanumeric c || Ascii.eqb c "_"%char || Ascii.eqb c "."%char || Ascii.eqb c "-"%char
  || Ascii.eqb c "/"%char.

Definition newline : Ascii.ascii := Ascii.ascii_of_nat 10.

Fixpoint op_name_tail (s : string) : bool :=
  match s with
  | EmptyString => true
  | String c s' =>
      match s' with
      | EmptyString => op_name_rest c || Ascii.eqb c newline
      | String _ _ => op_name_rest c && op_name_tail s'
      end
  end.

Definition valid_op_name (name : string) : bool :=
  match name with
  | EmptyString => false
  | String c s' => op_name_first c && op_name_tail s'
  end.

(** [tf.placeholder(dtype, shape, name)] outside every name scope: a new
    node, or [ValueError] for a name TensorFlow rejects.  A name that is
    already in use is no error: TensorFlow then appends [_1], [_2], ... to
    the name of the node.  The model keeps the name that was asked for, which
    is the name of the node when the names asked for are distinct. *)
Definition placeholder (dt : dtype) (shape : list (option nat)) (name : string)
  : result tensor :=
  if valid_op_name name then Ok (Placeholder dt shape name) else Err ValueError.

End tflib.

(** ** [PPOModel] *)

(** The attributes [LearningModel] (mlagents/trainers/models.py, the base
    class) leaves on [self] and that [PPOModel] reads. *)
Record LearningModel : Type := {
  global_step : tensor;
  mask : tensor;
  value : tensor;
  value_heads : gmap string tensor;
  log_probs : tensor;
  old_log_probs : tensor;
  entropy : tensor;
}.

(** The attributes [create_losses] sets on [self]. *)
Record Losses : Type := {
  returns_holders : list tensor;
  old_values : list tensor;
  advantage : tensor;
  learning_rate : tensor;
  value_loss : tensor;
  policy_loss : tensor;
  loss : tensor;
}.

Record PPOModel : Type := {
  base : LearningModel;
  last_reward : tensor;
  new_reward : tensor;
  update_reward : tensor;
  losses : Losses;
}.

(** Python's ['{}_returns'.format(name)] for a string [name]. *)
Definition format_returns (name : string) : string := name +:+ "_returns".
Definition format_value_estimate (name : string) : string :=
  name +:+ "_value_estimate".

(** [create_reward_encoder] (lines 45-53).  The placeholder has the fixed name
    ["new_reward"], which TensorFlow accepts; it is written as the node
    [tflib.placeholder] returns for it. *)
Definition create_reward_encoder : tensor * tensor * tensor :=
  let last_reward := TVariable 0 "last_reward" in
  let new_reward := Placeholder float32 [] "new_reward" in
  let update_reward := Assign last_reward new_reward in
  (last_reward, new_reward, update_reward).

Section create_losses.

Variable self : LearningModel.

(** The two placeholders of a stream (lines 71-74). *)
Definition returns_placeholder (name : string) : tensor :=
  Placeholder float32 [None] (format_returns name).
Definition old_value_placeholder (name : string) : tensor :=
  Placeholder float32 [None] (format_value_estimate name).

(** Lines 71-74 for one [i]: the two calls of [tf.placeholder], in the order
    of the source.  Each reads [stream_names[i]] and formats the name first;
    [tf.placeholder] raises [ValueError] when it rejects the name. *)
Definition placeholders_at (stream_names : list string) (i : nat)
  : result (tensor * tensor) :=
  name ← getitem stream_names i;
  returns_holder ← tflib.placeholder float32 [None] (format_returns name);
  name ← getitem stream_names i;
  old_value ← tflib.placeholder float32 [None] (format_value_estimate name);
  Ok (returns_holder, old_value).

(** The body of the first loop (lines 70-76), for one [i]: create the two
    placeholders, then append them. *)
Definition placeholder_step (stream_names : list string)
    (st : list tensor * list tensor) (i : nat)
  : result (list tensor * list tensor) :=
  let '(returns_holders, old_values) := st in
  '(returns_holder, old_value) ← placeholders_at stream_names i;
  Ok (returns_holders ++ [returns_holder], old_values ++ [old_value]).

(** The three schedules (lines 78-83). *)
Definition learning_rate_schedule (lr max_step : R) : tensor :=
  tflib.polynomial_decay lr (global_step self) max_step 1e-10 1.0.
Definition decay_epsilon (epsilon max_step : R) : tensor :=
  tflib.polynomial_decay epsilon (global_step self) max_step 0.1 1.0.
Definition decay_beta (beta max_step : R) : tensor :=
  tflib.polynomial_decay beta (global_step self) max_step 1e-5 1.0.

(** Lines 87-89: the old estimate plus the clipped change of the estimate. *)
Definition clipped_value_estimate (old_value head decay_epsilon : tensor)
  : tensor :=
  Add old_value
      (tflib.clip_by_value (Sub (ReduceSum1 head) old_value)
         (Neg decay_epsilon) decay_epsilon).

(** Lines 90-94: the value loss of one stream. *)
Definition stream_value_loss (returns_holder old_value head decay_epsilon : tensor)
  : tensor :=
  let v_opt_a := SquaredDifference returns_holder (ReduceSum1 head) in
  let v_opt_b :=
    SquaredDifference returns_holder
      (clipped_value_estimate old_value head decay_epsilon) in
  ReduceMean (DynamicPartition (Maximum v_opt_a v_opt_b) (mask self) 2 1).

(** The value loss the second loop builds for one [(i, name)] (lines 87-94).
    The lookups are made in the order the source makes them:
    [self.old_values[i]], [value_streams[name]], [self.returns_holders[i]];
    the source repeats each of them, and a repeated lookup cannot fail after
    the first. *)
Definition value_loss_at (value_streams : gmap string tensor)
    (returns_holders old_values : list tensor) (decay_epsilon : tensor)
    (it : nat * string) : result tensor :=
  let '(i, name) := it in
  old_i ← getitem old_values i;
  head ← dict_getitem value_streams name;
  returns_i ← getitem returns_holders i;
  Ok (stream_value_loss returns_i old_i head decay_epsilon).

(** The body of the second loop (lines 86-95): build the loss, append it. *)
Definition value_loss_step (value_streams : gmap string tensor)
    (returns_holders old_values : list tensor) (decay_epsilon : tensor)
    (value_losses : list tensor) (it : nat * string)
  : result (list tensor) :=
  value_loss ← value_loss_at value_streams returns_holders old_values
                  decay_epsilon it;
  Ok (value_losses ++ [value_loss]).

(** Python's [enumerate(l)]. *)
Definition enumerate {A : Type} (l : list A) : list (nat * A) :=
  zip (seq 0 (length l)) l.

(** [PPOModel.create_losses] (lines 55-113).  The placeholder of line 77 has
    the fixed name ["advantages"], which TensorFlow accepts; it is written as
    the node [tflib.placeholder] returns for it. *)
Definition create_losses (probs old_probs : tensor)
    (value_streams : gmap string tensor) (entropy : tensor)
    (beta epsilon lr max_step : R) (stream_names : list string)
  : result Losses :=
  '(returns_holders, old_values) ←
    foldM (placeholder_step stream_names) ([], [])
          (seq 0 (size value_streams));
  let advantage := Placeholder float32 [None; Some 1%nat] "advantages" in
  let learning_rate := learning_rate_schedule lr max_step in
  let decay_epsilon := decay_epsilon epsilon max_step in
  let decay_beta := decay_beta beta max_step in
  value_losses ←
    foldM (value_loss_step value_streams returns_holders old_values
             decay_epsilon)
          [] (enumerate stream_names);
  let value_loss := ReduceMean (Stack value_losses) in
  let r_theta := Exp (Sub probs old_probs) in
  let p_opt_a := Mul r_theta advantage in
  let p_opt_b :=
    Mul (tflib.clip_by_value r_theta (Sub (Const 1.0) decay_epsilon)
           (Add (Const 1.0) decay_epsilon))
        advantage in
  let policy_loss :=
    Neg (ReduceMean (DynamicPartition (Minimum p_opt_a p_opt_b) (mask self) 2 1)) in
  let loss :=
    Sub (Add policy_loss (Mul (Const 0.5) value_loss))
        (Mul decay_beta
             (ReduceMean (DynamicPartition entropy (mask self) 2 1))) in
  Ok {| returns_holders := returns_holders;
        old_values := old_values;
        advantage := advantage;
        learning_rate := learning_rate;
        value_loss := value_loss;
        policy_loss := policy_loss;
        loss := loss |}.

End create_losses.

(** [PPOModel.__init__] (lines 11-43).  The base class and its two
    head-building methods live in mlagents/trainers/models.py; they are taken
    as parameters, each a transformer of the attributes of [self] that may
    raise. *)
Section init.

Variable Brain : Type.
Variable vector_action_space_type : Brain -> string.
Variable LearningModel_init :
  option Z -> bool -> bool -> Brain -> Z -> list string -> result LearningModel.
Variable create_cc_actor_critic : LearningModel -> Z -> Z -> result LearningModel.
Variable create_dc_actor_critic : LearningModel -> Z -> Z -> result LearningModel.

Definition set_entropy (self : LearningModel) (e : tensor) : LearningModel :=
  {| global_step := global_step self;
     mask := mask self;
     value := value self;
     value_heads := value_heads self;
     log_probs := log_probs self;
     old_log_probs := old_log_probs self;
     entropy := e |}.

Definition PPOModel_init (brain : Brain) (lr : R) (h_size : Z)
    (epsilon beta max_step : R) (normalize use_recurrent : bool)
    (num_layers : Z) (m_size : option Z) (seed : Z)
    (stream_names : option (list string)) : result PPOModel :=
  let stream_names :=
    match stream_names with
    | None => []
    | Some names => names
    end in
  self ← LearningModel_init m_size normalize use_recurrent brain seed stream_names;
  let num_layers := if (num_layers <? 1)%Z then 1%Z else num_layers in
  let '(last_reward, new_reward, update_reward) := create_reward_encoder in
  self ← (if String.eqb (vector_action_space_type brain) "continuous"
          then
            self ← create_cc_actor_critic self h_size num_layers;
            Ok (set_entropy self
                  (Mul (OnesLike (Reshape1 (value self))) (entropy self)))
          else create_dc_actor_critic self h_size num_layers);
  losses ← create_losses self (log_probs self) (old_log_probs self)
             (value_heads self) (entropy self) beta epsilon lr max_step
             stream_names;
  Ok {| base := self;
        last_reward := last_reward;
        new_reward := new_reward;
        update_reward := update_reward;
        losses := losses |}.

End init.

(** ** The reward-signal factory *)

Module reward_signal_factory.

(** The three classes of the registry.  Their code is in
    components/reward_signals/{extrinsic,gail,curiosity}/signal.py. *)
Inductive reward_signal_class : Type :=
| ExtrinsicSignal
| GAILSignal
| CuriositySignal.

Definition NAME_TO_CLASS : gmap string reward_signal_class :=
  {[ "extrinsic" := ExtrinsicSignal;
     "gail" := GAILSignal;
     "curiosity" := CuriositySignal ]}.

Section factory.

(** [Policy], the type of a configuration entry (a dict) and the type of
    reward-signal instances. *)
Variables Policy Config RewardSignal : Type.

(** What the classes do: [rcls.check_config(config_entry)] returns nothing
    or raises, [rcls(policy, **config_entry)] returns the instance or
    raises. *)
Variable check_config : reward_signal_class -> Config -> result unit.
Variable construct : reward_signal_class -> Policy -> Config -> result RewardSignal.

(** The calls into the classes, in the order they are made. *)
Inductive call : Type :=
| CallCheckConfig (rcls : reward_signal_class) (config_entry : Config)
| CallConstructor (rcls : reward_signal_class) (policy : Policy)
    (config_entry : Config).

(** A computation that may raise and that logs its calls. *)
Definition traced (A : Type) : Type := list call * result A.

Definition tret {A : Type} (a : A) : traced A := ([], Ok a).
Definition raise {A : Type} (e : exn) : traced A := ([], Err e).
Definition tbind {A B : Type} (m : traced A) (f : A -> traced B) : traced B :=
  match m with
  | (log, Ok a) => let '(log', r) := f a in (log ++ log', r)
  | (log, Err e) => (log, Err e)
  end.
Definition invoke {A : Type} (c : call) (r : result A) : traced A := ([c], r).

(** [try: m except TypeError: handler]. *)
Definition try_except_TypeError {A : Type} (m handler : traced A) : traced A :=
  match m with
  | (log, Err TypeError) => let '(log', r) := handler in (log ++ log', r)
  | _ => m
  end.

Definition unknown_type_message (name : string) : string :=
  "Unknown reward signal type " +:+ name.
Definition unknown_parameters_message (name : string) : string :=
  "Unknown parameters given for reward signal " +:+ name.

(** [create_reward_signal] (lines 19-37). *)
Definition create_reward_signal (policy : Policy) (name : string)
    (config_entry : Config) : traced RewardSignal :=
  match NAME_TO_CLASS !! name with
  | None => raise (UnityTrainerException (unknown_type_message name))
  | Some rcls =>
      tbind (invoke (CallCheckConfig rcls config_entry)
               (check_config rcls config_entry)) (fun _ =>
      tbind (try_except_TypeError
               (invoke (CallConstructor rcls policy config_entry)
                  (construct rcls policy config_entry))
               (raise (UnityTrainerException (unknown_parameters_message name))))
            (fun class_inst =>
      tret class_inst))
  end.

End factory.

End reward_signal_factory.


(** ** The loss as the specification words it

    Per-timestep formulas on real numbers and a mask-weighted mean.  These
    definitions follow the specification, not the code; the theorems below
    compare them with what the graph of [create_losses] evaluates to. *)
Module spec.

Local Open Scope R_scope.

(** [clip(x, lo, hi)], the clip primitive of the numeric backend, on one
    entry. *)
Definition clip (x lo hi : R) : R := Rmax (Rmin x hi) lo.

Fixpoint zip_with3 {A B C D : Type} (f : A -> B -> C -> D)
    (l1 : list A) (l2 : list B) (l3 : list C) : list D :=
  match l1, l2, l3 with
  | a :: l1', b :: l2', c :: l3' => f a b c :: zip_with3 f l1' l2' l3'
  | _, _, _ => []
  end.

(** The mean over the timesteps whose mask is 1: the mask-weighted sum
    divided by the number of valid timesteps. *)
Definition masked_mean (xs : list R) (mask : list Z) : result R :=
  let weights := map IZR mask in
  let count := sum_list weights in
  if Req_dec_T count 0 then Err NonReal
  else Ok (sum_list (zip_with Rmult weights xs) / count).

(** The unweighted mean of a list of numbers. *)
Definition mean (xs : list R) : result R :=
  if decide (length xs = 0%nat) then Err NonReal
  else Ok (sum_list xs / INR (length xs)).

(** Policy ratio [r = exp(current_log_prob - old_log_prob)]. *)
Definition ratio (log_prob old_log_prob : R) : R := exp (log_prob - old_log_prob).

(** The smaller of the two surrogate objectives [r * advantage] and
    [clip(r, 1-eps, 1+eps) * advantage]. *)
Definition surrogate (eps log_prob old_log_prob advantage : R) : R :=
  let r := ratio log_prob old_log_prob in
  Rmin (r * advantage) (clip r (1 - eps) (1 + eps) * advantage).

(** Policy loss: the negative masked mean of the surrogate. *)
Definition policy_loss (eps : R) (log_probs old_log_probs advantages : list R)
    (mask : list Z) : result R :=
  m ← masked_mean (zip_with3 (surrogate eps) log_probs old_log_probs advantages) mask;
  Ok (- m).

(** [V_clipped = V_old + clip(V - V_old, -eps, eps)]. *)
Definition value_clipped (eps v v_old : R) : R := v_old + clip (v - v_old) (- eps) eps.

(** The larger of [(R - V)^2] and [(R - V_clipped)^2]. *)
Definition value_error (eps ret v v_old : R) : R :=
  Rmax ((ret - v) ^ 2) ((ret - value_clipped eps v v_old) ^ 2).

(** The value loss of one stream: the masked mean of the error. *)
Definition stream_value_loss (eps : R) (returns values old_values : list R)
    (mask : list Z) : result R :=
  masked_mean (zip_with3 (value_error eps) returns values old_values) mask.

(** Total value loss: the unweighted mean, across the streams, of the value
    loss of each stream.  A stream is its returns, its current value
    estimates and its old value estimates. *)
Definition value_loss (eps : R) (streams : list (list R * list R * list R))
    (mask : list Z) : result R :=
  per_stream ← mapM (fun s : list R * list R * list R =>
                       stream_value_loss eps s.1.1 s.1.2 s.2 mask) streams;
  mean per_stream.

(** Total loss. *)
Definition total_loss (policy_loss value_loss decay_beta masked_mean_entropy : R)
  : R :=
  policy_loss + 0.5 * value_loss - decay_beta * masked_mean_entropy.

(** A linear decay from [initial] to [floor] over [max_step] steps: the
    linear interpolation between the two up to [max_step], the floor from
    there on. *)
Definition linear_decay (initial floor max_step step : R) : R :=
  if Rle_dec max_step step then floor
  else initial + (floor - initial) * (step / max_step).

End spec.

(** A mask of zeros and ones. *)
Definition binary_mask (mask : list Z) : Prop :=
  Forall (fun m => m = 0%Z \/ m = 1%Z) mask.

(** Two per-timestep inputs agree wherever the mask is 1; they have one
    entry (one row, for a matrix) for each timestep. *)
Definition agree_on {A : Type} (mask : list Z) (xs ys : list A) : Prop :=
  length xs = length mask /\ length ys = length mask /\
  forall i, mask !! i = Some 1%Z -> xs !! i = ys !! i.

(** A batch: what a training step feeds to the loss graph, one entry for
    each timestep.  The per-stream inputs are given by stream name. *)
Record batch : Type := {
  b_mask : list Z;
  b_log_probs : list R;
  b_old_log_probs : list R;
  b_advantages : list R;
  b_entropy : list R;
  b_returns : string -> list R;
  b_old_values : string -> list R;
  b_values : string -> list (list R);
}.

(** The feed dictionary [feed] holds the batch [B]: the mask, the two
    log-probability columns, the advantage column, the entropy vector and, for
    every stream, the output of its value head, its returns and its old
    value estimates evaluate to the entries of [B]. *)
Definition holds_batch (self : LearningModel) (feed : feed_dict)
    (probs old_probs entropy : tensor) (value_streams : gmap string tensor)
    (stream_names : list string) (B : batch) : Prop :=
  eval feed (mask self) = Ok (IntVector (b_mask B)) /\
  eval feed probs = Ok (Matrix (column (b_log_probs B))) /\
  eval feed old_probs = Ok (Matrix (column (b_old_log_probs B))) /\
  feed !! "advantages" = Some (Matrix (column (b_advantages B))) /\
  eval feed entropy = Ok (Vector (b_entropy B)) /\
  forall name head,
    name ∈ stream_names -> value_streams !! name = Some head ->
    eval feed head = Ok (Matrix (b_values B name)) /\
    feed !! format_returns name = Some (Vector (b_returns B name)) /\
    feed !! format_value_estimate name = Some (Vector (b_old_values B name)).

(** Two batches with one mask, of zeros and ones, that agree at every
    timestep whose mask is 1. *)
Definition same_valid_timesteps (stream_names : list string) (B1 B2 : batch)
  : Prop :=
  b_mask B1 = b_mask B2 /\
  binary_mask (b_mask B1) /\
  agree_on (b_mask B1) (b_log_probs B1) (b_log_probs B2) /\
  agree_on (b_mask B1) (b_old_log_probs B1) (b_old_log_probs B2) /\
  agree_on (b_mask B1) (b_advantages B1) (b_advantages B2) /\
  agree_on (b_mask B1) (b_entropy B1) (b_entropy B2) /\
  forall name, name ∈ stream_names ->
    agree_on (b_mask B1) (b_values B1 name) (b_values B2 name) /\
    agree_on (b_mask B1) (b_returns B1 name) (b_returns B2 name) /\
    agree_on (b_mask B1) (b_old_values B1 name) (b_old_values B2 name).

(** Every input of the batch has one entry for each timestep of the mask. *)
Definition batch_shaped (stream_names : list string) (B : batch) : Prop :=
  length (b_log_probs B) = length (b_mask B) /\
  length (b_old_log_probs B) = length (b_mask B) /\
  length (b_advantages B) = length (b_mask B) /\
  length (b_entropy B) = length (b_mask B) /\
  forall name, name ∈ stream_names ->
    length (b_values B name) = length (b_mask B) /\
    length (b_returns B name) = length (b_mask B) /\
    length (b_old_values B name) = length (b_mask B).

(** The most the clipped surrogate can be for an advantage: the upper end of
    the clip range times a positive advantage, the lower end times a negative
    one. *)
Definition surrogate_cap (eps advantage : R) : R :=
  if Rle_dec 0 advantage then ((1 + eps) * advantage)%R
  else ((1 - eps) * advantage)%R.

(** TensorFlow accepts the names of the two placeholders of the stream
    [name]. *)
Definition placeholder_names_valid (name : string) : bool :=
  tflib.valid_op_name (format_returns name)
  && tflib.valid_op_name (format_value_estimate name).

(** The same in terms of the stream name alone: it is not empty, it starts
    with a letter, a digit or a dot, and its other characters are letters,
    digits, dots, underscores, hyphens or slashes. *)
Fixpoint op_name_characters (s : string) : bool :=
  match s with
  | EmptyString => true
  | String c s' => tflib.op_name_rest c && op_name_characters s'
  end.

Definition stream_name_ok (name : string) : bool :=
  match name with
  | EmptyString => false
  | String c s' => tflib.op_name_first c && op_name_characters s'
  end.

(** The graph [create_losses] builds for the stream names [stream_names] and
    the value heads [heads], one head for each name. *)
Definition built (self : LearningModel) (probs old_probs entropy : tensor)
    (beta epsilon lr max_step : R) (stream_names : list string)
    (heads : list tensor) (L : Losses) : Prop :=
  let deps := decay_epsilon self epsilon max_step in
  returns_holders L = map returns_placeholder stream_names /\
  old_values L = map old_value_placeholder stream_names /\
  advantage L = Placeholder float32 [None; Some 1%nat] "advantages" /\
  learning_rate L = learning_rate_schedule self lr max_step /\
  value_loss L = ReduceMean (Stack (zip_with (fun name head =>
      stream_value_loss self (returns_placeholder name)
        (old_value_placeholder name) head deps) stream_names heads)) /\
  policy_loss L =
    Neg (ReduceMean (DynamicPartition
      (Minimum (Mul (Exp (Sub probs old_probs)) (advantage L))
         (Mul (tflib.clip_by_value (Exp (Sub probs old_probs))
                 (Sub (Const 1.0) deps) (Add (Const 1.0) deps))
              (advantage L)))
      (mask self) 2 1)) /\
  loss L =
    Sub (Add (policy_loss L) (Mul (Const 0.5) (value_loss L)))
        (Mul (decay_beta self beta max_step)
             (ReduceMean (DynamicPartition entropy (mask self) 2 1))).

(** The node [t] is a schedule driven by the global step of [self] that
    decays linearly from [initial] to [floor] over [max_step] steps: it has a
    value at every step, [initial] at step 0 and [floor] at [max_step]; when
    the floor is not above the initial value, the value does not increase
    with the step and is never below the floor. *)
Definition linear_schedule (self : LearningModel) (t : tensor)
    (initial floor max_step : R) : Prop :=
  exists value_at : Z -> R,
    (forall (feed : feed_dict) (s : Z),
       eval feed (global_step self) = Ok (IntScalar s) ->
       eval feed t = Ok (Scalar (value_at s))) /\
    (forall s, value_at s = spec.linear_decay initial floor max_step (IZR s)) /\
    value_at 0%Z = initial /\
    (forall s, IZR s = max_step -> value_at s = floor) /\
    ((floor <= initial)%R ->
     forall s1 s2, (s1 <= s2)%Z -> (value_at s2 <= value_at s1)%R) /\
    ((floor <= initial)%R -> forall s, (floor <= value_at s)%R).

(** ** A small model and a batch of two timesteps

    Two value streams, a batch of two timesteps of which the second is
    padding (mask 0), the global step at 0. *)
Module example.

Definition self : LearningModel :=
  {| global_step := TVariable 0 "global_step";
     mask := Placeholder int32 [None] "masks";
     value := Placeholder float32 [None; Some 1%nat] "value_estimate";
     value_heads :=
       {[ "extrinsic" := Placeholder float32 [None; Some 1%nat] "extrinsic_value";
          "curiosity" := Placeholder float32 [None; Some 1%nat] "curiosity_value" ]};
     log_probs := Placeholder float32 [None; Some 1%nat] "action_probs";
     old_log_probs := Placeholder float32 [None; Some 1%nat] "old_probabilities";
     entropy := Placeholder float32 [None] "entropy" |}.

Definition stream_names : list string := ["extrinsic"; "curiosity"].

Definition feed : feed_dict :=
  {[ "global_step" := IntScalar 0;
     "masks" := IntVector [1%Z; 0%Z];
     "action_probs" := Matrix [[0%R]; [1%R]];
     "old_probabilities" := Matrix [[0%R]; [0%R]];
     "advantages" := Matrix [[1%R]; [2%R]];
     "entropy" := Vector [1%R; 3%R];
     "extrinsic_value" := Matrix [[1%R]; [5%R]];
     "extrinsic_returns" := Vector [2%R; 7%R];
     "extrinsic_value_estimate" := Vector [1%R; 4%R];
     "curiosity_value" := Matrix [[0%R]; [2%R]];
     "curiosity_returns" := Vector [1%R; 1%R];
     "curiosity_value_estimate" := Vector [0%R; 0%R] ]}.

(** The same batch with other numbers at the padded timestep. *)
Definition feed' : feed_dict :=
  {[ "global_step" := IntScalar 0;
     "masks" := IntVector [1%Z; 0%Z];
     "action_probs" := Matrix [[0%R]; [4%R]];
     "old_probabilities" := Matrix [[0%R]; [3%R]];
     "advantages" := Matrix [[1%R]; [9%R]];
     "entropy" := Vector [1%R; 8%R];
     "extrinsic_value" := Matrix [[1%R]; [6%R]];
     "extrinsic_returns" := Vector [2%R; 0%R];
     "extrinsic_value_estimate" := Vector [1%R; 2%R];
     "curiosity_value" := Matrix [[0%R]; [7%R]];
     "curiosity_returns" := Vector [1%R; 5%R];
     "curiosity_value_estimate" := Vector [0%R; 1%R] ]}.

(** The hyperparameters: the defaults of [PPOModel.__init__]. *)
Definition lr : R := 1e-4.
Definition epsilon : R := 0.2.
Definition beta : R := 1e-3.
Definition max_step : R := 5e6.

(** The two feeds as batches. *)
Definition batch1 : batch :=
  {| b_mask := [1%Z; 0%Z];
     b_log_probs := [0%R; 1%R];
     b_old_log_probs := [0%R; 0%R];
     b_advantages := [1%R; 2%R];
     b_entropy := [1%R; 3%R];
     b_returns := fun name =>
       if decide (name = "extrinsic") then [2%R; 7%R] else [1%R; 1%R];
     b_old_values := fun name =>
       if decide (name = "extrinsic") then [1%R; 4%R] else [0%R; 0%R];
     b_values := fun name =>
       if decide (name = "extrinsic") then [[1%R]; [5%R]] else [[0%R]; [2%R]] |}.

Definition batch2 : batch :=
  {| b_mask := [1%Z; 0%Z];
     b_log_probs := [0%R; 4%R];
     b_old_log_probs := [0%R; 3%R];
     b_advantages := [1%R; 9%R];
     b_entropy := [1%R; 8%R];
     b_returns := fun name =>
       if decide (name = "extrinsic") then [2%R; 0%R] else [1%R; 5%R];
     b_old_values := fun name =>
       if decide (name = "extrinsic") then [1%R; 2%R] else [0%R; 1%R];
     b_values := fun name =>
       if decide (name = "extrinsic") then [[1%R]; [6%R]] else [[0%R]; [7%R]] |}.

(** A value-stream mapping whose only key is not the stream name asked for. *)
Definition other_streams : gmap string tensor :=
  {[ "curiosity" := Placeholder float32 [None; Some 1%nat] "curiosity_value" ]}.

(** Stand-ins for the base class: [LearningModel.__init__] builds one value
    head for each stream name, the two head builders leave [self] as it is. *)
Definition LearningModel_init (m_size : option Z) (normalize use_recurrent : bool)
    (brain : string) (seed : Z) (names : list string) : result LearningModel :=
  Ok {| global_step := global_step self;
        mask := mask self;
        value := value self;
        value_heads :=
          list_to_map (map (fun name =>
            (name, Placeholder float32 [None; Some 1%nat] (name +:+ "_value")))
            names);
        log_probs := log_probs self;
        old_log_probs := old_log_probs self;
        entropy := entropy self |}.

Definition create_actor_critic (self : LearningModel) (h_size num_layers : Z)
  : result LearningModel := Ok self.

(** Stand-ins for the reward-signal classes: a configuration entry is the
    list of its keys; [check_config] accepts every entry, the constructor
    knows the parameters [strength] and [gamma] only. *)
Definition check_config (rcls : reward_signal_factory.reward_signal_class)
    (config_entry : list string) : result unit := Ok tt.

Definition construct (rcls : reward_signal_factory.reward_signal_class)
    (policy : unit) (config_entry : list string)
  : result reward_signal_factory.reward_signal_class :=
  if forallb (fun key => bool_decide (key ∈ ["strength"; "gamma"])) config_entry
  then Ok rcls
  else Err TypeError.

(** The first batch with no valid timestep. *)
Definition feed_padding : feed_dict :=
  <["masks" := IntVector [0%Z; 0%Z]]> feed.

Definition batch_padding : batch :=
  {| b_mask := [0%Z; 0%Z];
     b_log_probs := b_log_probs batch1;
     b_old_log_probs := b_old_log_probs batch1;
     b_advantages := b_advantages batch1;
     b_entropy := b_entropy batch1;
     b_returns := b_returns batch1;
     b_old_values := b_old_values batch1;
     b_values := b_values batch1 |}.

(** The global step at the end of training. *)
Definition feed_end : feed_dict := {[ "global_step" := IntScalar 5000000 ]}.

(** A continuous-action head builder: it leaves a scalar entropy on [self]. *)
Definition create_cc_actor_critic (self : LearningModel) (h_size num_layers : Z)
  : result LearningModel :=
  Ok (set_entropy self (Placeholder float32 [] "policy_entropy")).

Definition feed_continuous : feed_dict :=
  {[ "masks" := IntVector [1%Z; 0%Z];
     "value_estimate" := Matrix [[3%R]; [4%R]];
     "policy_entropy" := Scalar 2%R ]}.

(** A [check_config] that wants the keys [strength] and [gamma], and a
    constructor that fails for a reason of its own. *)
Definition strict_check_config (rcls : reward_signal_factory.reward_signal_class)
    (config_entry : list string) : result unit :=
  if forallb (fun key => bool_decide (key ∈ config_entry)) ["strength"; "gamma"]
  then Ok tt
  else Err (UnityTrainerException "The required hyperparameter was not defined").

Definition failing_construct (rcls : reward_signal_factory.reward_signal_class)
    (policy : unit) (config_entry : list string)
  : result reward_signal_factory.reward_signal_class :=
  Err (OtherException "demonstration file not found").

End example.

(** * Proofs *)

(** ** The error monad and the loops *)

Lemma mapM_total {A B : Type} (g : A -> B) (l : list A) :
  mapM (fun a => Ok (g a)) l = Ok (map g l).
Proof.
  induction l as [|a l IH]; simpl; [reflexivity|].
  rewrite IH. reflexivity.
Qed.

Lemma mapM_ext {A B : Type} (f g : A -> result B) (l : list A) :
  (forall a, a ∈ l -> f a = g a) -> mapM f l = mapM g l.
Proof.
  induction l as [|a l IH]; intros H; simpl; [reflexivity|].
  rewrite (H a) by (left). rewrite IH; [reflexivity|].
  intros b Hb. apply H. right. exact Hb.
Qed.

Lemma mapM_Ok_map {A B : Type} (f : A -> result B) (g : A -> B) (l : list A) :
  (forall a, a ∈ l -> f a = Ok (g a)) -> mapM f l = Ok (map g l).
Proof.
  intros H. rewrite (mapM_ext f (fun a => Ok (g a))) by exact H.
  apply mapM_total.
Qed.

(** ** Broadcasting on tensors of one shape *)

Lemma broadcast_same_length (f : R -> R -> R) (xs ys : list R) :
  length xs = length ys ->
  tf.broadcast (tf.total f) xs ys = Ok (zip_with f xs ys).
Proof.
  intros Hlen. unfold tf.broadcast, tf.total.
  destruct xs as [|x [|x' xs]], ys as [|y [|y' ys]]; simpl in *; try discriminate;
    try reflexivity.
  destruct (decide _) as [_|Hne]; [|simpl in *; congruence].
  change (mapM (fun p : R * R => Ok (f p.1 p.2)) (zip xs ys))
    with (mapM (fun p : R * R => Ok ((fun q => f q.1 q.2) p)) (zip xs ys)).
  rewrite mapM_total. simpl. repeat f_equal.
  clear. revert ys. induction xs as [|a xs IH]; intros [|b ys]; simpl; f_equal; auto.
Qed.

Lemma broadcast_columns (f : R -> R -> R) (xs ys : list R) :
  length xs = length ys ->
  tf.broadcast (tf.broadcast (tf.total f)) (column xs) (column ys)
  = Ok (column (zip_with f xs ys)).
Proof.
  intros Hlen. unfold tf.broadcast at 1.
  destruct xs as [|x [|x' xs]], ys as [|y [|y' ys]]; simpl in *; try discriminate;
    try reflexivity.
  destruct (decide _) as [_|Hne].
  2:{ exfalso. apply Hne. unfold column. rewrite !length_map. congruence. }
  assert (Hgen : forall l1 l2 : list R,
    mapM (fun p : list R * list R => tf.broadcast (tf.total f) p.1 p.2)
         (zip (column l1) (column l2)) = Ok (column (zip_with f l1 l2))).
  { induction l1 as [|a l1 IH]; intros [|b l2]; simpl; try reflexivity.
    rewrite IH. reflexivity. }
  specialize (Hgen xs ys). simpl. rewrite Hgen. reflexivity.
Qed.

Lemma elementwise_columns (f : R -> R -> R) (xs ys : list R) :
  length xs = length ys ->
  tf.elementwise (tf.total f) (Matrix (column xs)) (Matrix (column ys))
  = Ok (Matrix (column (zip_with f xs ys))).
Proof. intros H. simpl. rewrite broadcast_columns by exact H. reflexivity. Qed.

Lemma elementwise_vectors (f : R -> R -> R) (xs ys : list R) :
  length xs = length ys ->
  tf.elementwise (tf.total f) (Vector xs) (Vector ys)
  = Ok (Vector (zip_with f xs ys)).
Proof. intros H. simpl. rewrite broadcast_same_length by exact H. reflexivity. Qed.

Lemma elementwise_column_scalar (f : R -> R -> R) (xs : list R) (y : R) :
  tf.elementwise (tf.total f) (Matrix (column xs)) (Scalar y)
  = Ok (Matrix (column (map (fun x => f x y) xs))).
Proof.
  simpl. unfold tf.total.
  rewrite (mapM_Ok_map _ (fun row => map (fun x => f x y) row)).
  2:{ intros row _. apply mapM_total. }
  unfold column. rewrite !map_map. reflexivity.
Qed.

Lemma elementwise_vector_scalar (f : R -> R -> R) (xs : list R) (y : R) :
  tf.elementwise (tf.total f) (Vector xs) (Scalar y)
  = Ok (Vector (map (fun x => f x y) xs)).
Proof. simpl. unfold tf.total. rewrite mapM_total. reflexivity. Qed.

Lemma pointwise_column (f : R -> R) (xs : list R) :
  tf.pointwise f (Matrix (column xs)) = Ok (Matrix (column (map f xs))).
Proof. simpl. unfold column. rewrite !map_map. reflexivity. Qed.

(** ** Partitioning by the mask and the masked mean *)

Lemma select_column (k : Z) (xs : list R) (ms : list Z) :
  tf.select k (column xs) ms = column (tf.select k xs ms).
Proof.
  revert ms. induction xs as [|x xs IH]; intros [|m ms]; simpl; try reflexivity.
  destruct (decide (m = k)); simpl; rewrite IH; reflexivity.
Qed.

Lemma concat_column (xs : list R) : concat (column xs) = xs.
Proof. induction xs as [|x xs IH]; simpl; [reflexivity|]. rewrite IH. reflexivity. Qed.

Lemma length_column (xs : list R) : length (column xs) = length xs.
Proof. unfold column. apply length_map. Qed.

Lemma valid_partitions_binary (ms : list Z) :
  binary_mask ms -> tf.valid_partitions 2 ms = true.
Proof.
  unfold binary_mask, tf.valid_partitions. induction 1 as [|m ms Hm _ IH]; simpl.
  - reflexivity.
  - rewrite IH. destruct Hm as [-> | ->]; reflexivity.
Qed.

Lemma dynamic_partition_vector (xs : list R) (ms : list Z) :
  length xs = length ms -> binary_mask ms ->
  tf.dynamic_partition (Vector xs) (IntVector ms) 2 1
  = Ok (Vector (tf.select 1 xs ms)).
Proof.
  intros Hlen Hms. unfold tf.dynamic_partition.
  destruct (decide (1 < 2)%nat) as [_|]; [|lia].
  rewrite bool_decide_eq_true_2 by exact Hlen.
  rewrite valid_partitions_binary by exact Hms. reflexivity.
Qed.

Lemma dynamic_partition_matrix (m : list (list R)) (ms : list Z) :
  length m = length ms -> binary_mask ms ->
  tf.dynamic_partition (Matrix m) (IntVector ms) 2 1
  = Ok (Matrix (tf.select 1 m ms)).
Proof.
  intros Hlen Hms. unfold tf.dynamic_partition.
  destruct (decide (1 < 2)%nat) as [_|]; [|lia].
  rewrite bool_decide_eq_true_2 by exact Hlen.
  rewrite valid_partitions_binary by exact Hms. reflexivity.
Qed.

Lemma sum_select_weighted (xs : list R) (ms : list Z) :
  length xs = length ms -> binary_mask ms ->
  sum_list (tf.select 1 xs ms) = sum_list (zip_with Rmult (map IZR ms) xs).
Proof.
  intros Hlen Hms. revert xs Hlen.
  induction Hms as [|m ms Hm _ IH]; intros [|x xs] Hlen; simpl in *;
    try reflexivity; try discriminate.
  injection Hlen as Hlen. specialize (IH xs Hlen).
  destruct Hm as [-> | ->]; simpl; rewrite IH; lra.
Qed.

Lemma count_select_weighted {A : Type} (xs : list A) (ms : list Z) :
  length xs = length ms -> binary_mask ms ->
  INR (length (tf.select 1 xs ms)) = sum_list (map IZR ms).
Proof.
  intros Hlen Hms. revert xs Hlen.
  induction Hms as [|m ms Hm _ IH]; intros [|x xs] Hlen; simpl in *;
    try reflexivity; try discriminate.
  injection Hlen as Hlen. specialize (IH xs Hlen).
  destruct Hm as [-> | ->]; simpl length.
  - simpl sum_list. rewrite IH. lra.
  - rewrite S_INR, IH. simpl sum_list. lra.
Qed.

(** On a 0/1 mask, the mean of the selected entries is the mask-weighted
    mean. *)
Lemma mean_select_masked_mean (xs : list R) (ms : list Z) :
  length xs = length ms -> binary_mask ms ->
  tf.mean (tf.select 1 xs ms) = spec.masked_mean xs ms.
Proof.
  intros Hlen Hms. unfold spec.masked_mean.
  rewrite <- (count_select_weighted xs ms Hlen Hms).
  rewrite <- (sum_select_weighted xs ms Hlen Hms).
  destruct (tf.select 1 xs ms) as [|s sel] eqn:Hsel.
  - simpl. destruct (Req_dec_T 0 0) as [_|Hne]; [reflexivity|]. exfalso; lra.
  - unfold tf.mean.
    destruct (Req_dec_T (INR (length (s :: sel))) 0) as [Hz|_]; [|reflexivity].
    exfalso. change 0%R with (INR 0) in Hz. apply INR_eq in Hz. discriminate.
Qed.

Lemma select_agree {A : Type} (ms : list Z) (xs ys : list A) :
  agree_on ms xs ys -> tf.select 1 xs ms = tf.select 1 ys ms.
Proof.
  intros (Hx & Hy & H). revert xs ys Hx Hy H.
  induction ms as [|m ms IH]; intros [|x xs] [|y ys] Hx Hy H; simpl in *;
    try reflexivity; try discriminate.
  injection Hx as Hx. injection Hy as Hy.
  assert (Hrest : tf.select 1 xs ms = tf.select 1 ys ms).
  { apply IH; [exact Hx | exact Hy |]. intros i Hi. exact (H (S i) Hi). }
  destruct (decide (m = 1%Z)) as [-> | _]; [|exact Hrest].
  specialize (H 0%nat eq_refl). simpl in H. injection H as ->.
  rewrite Hrest. reflexivity.
Qed.

Lemma lookup_zip_with3 {A B C D : Type} (f : A -> B -> C -> D)
    (l1 : list A) (l2 : list B) (l3 : list C) (i : nat) :
  spec.zip_with3 f l1 l2 l3 !! i
  = match l1 !! i, l2 !! i, l3 !! i with
    | Some a, Some b, Some c => Some (f a b c)
    | _, _, _ => None
    end.
Proof.
  revert l2 l3 i. induction l1 as [|a l1 IH]; intros [|b l2] [|c l3] [|i]; simpl;
    try reflexivity; try apply IH.
  - destruct (l1 !! i); reflexivity.
  - destruct (l1 !! i); reflexivity.
  - destruct (l1 !! i) as [a'|]; [destruct (l2 !! i)|]; reflexivity.
Qed.

Lemma length_zip_with3 {A B C D : Type} (f : A -> B -> C -> D)
    (l1 : list A) (l2 : list B) (l3 : list C) (n : nat) :
  length l1 = n -> length l2 = n -> length l3 = n ->
  length (spec.zip_with3 f l1 l2 l3) = n.
Proof.
  revert l2 l3 n. induction l1 as [|a l1 IH]; intros [|b l2] [|c l3] [|n]; simpl;
    try discriminate; try reflexivity.
  intros H1 H2 H3. f_equal. apply IH; congruence.
Qed.

Lemma agree_on_zip_with3 {A B C D : Type} (f : A -> B -> C -> D) (ms : list Z)
    (a1 a2 : list A) (b1 b2 : list B) (c1 c2 : list C) :
  agree_on ms a1 a2 -> agree_on ms b1 b2 -> agree_on ms c1 c2 ->
  agree_on ms (spec.zip_with3 f a1 b1 c1) (spec.zip_with3 f a2 b2 c2).
Proof.
  intros (Ha1 & Ha2 & Ha) (Hb1 & Hb2 & Hb) (Hc1 & Hc2 & Hc).
  split; [|split].
  - apply length_zip_with3; assumption.
  - apply length_zip_with3; assumption.
  - intros i Hi. rewrite !lookup_zip_with3.
    rewrite (Ha i Hi), (Hb i Hi), (Hc i Hi). reflexivity.
Qed.

Lemma agree_on_map {A B : Type} (f : A -> B) (ms : list Z) (xs ys : list A) :
  agree_on ms xs ys -> agree_on ms (map f xs) (map f ys).
Proof.
  intros (Hx & Hy & H). split; [|split].
  - rewrite length_map. exact Hx.
  - rewrite length_map. exact Hy.
  - intros i Hi. rewrite !list_lookup_fmap. rewrite (H i Hi). reflexivity.
Qed.

(** ** Evaluating the graph *)

Lemma fits_column (xs : list R) :
  tf.fits float32 [None; Some 1%nat] (Matrix (column xs)) = true.
Proof.
  destruct xs as [|x xs]; [reflexivity|]. simpl.
  induction xs as [|y xs IH]; simpl; [reflexivity|]. exact IH.
Qed.

Lemma surrogate_terms (e : R) (lps olps advs : list R) :
  let r := map exp (zip_with Rminus lps olps) in
  zip_with Rmin (zip_with Rmult r advs)
    (zip_with Rmult
       (map (fun x => Rmax x (1.0 - e)) (map (fun x => Rmin x (1.0 + e)) r)) advs)
  = spec.zip_with3 (spec.surrogate e) lps olps advs.
Proof.
  simpl. revert olps advs.
  induction lps as [|lp lps IH]; intros [|olp olps] [|adv advs]; simpl;
    try reflexivity.
  rewrite IH. f_equal. unfold spec.surrogate, spec.ratio, spec.clip.
  replace (1.0 - e)%R with (1 - e)%R by lra.
  replace (1.0 + e)%R with (1 + e)%R by lra. reflexivity.
Qed.

Lemma elementwise_scalars (f : R -> R -> R) (x y : R) :
  tf.elementwise (tf.total f) (Scalar x) (Scalar y) = Ok (Scalar (f x y)).
Proof. reflexivity. Qed.

Lemma elementwise_scalars_partial (f : R -> R -> result R) (x y : R) :
  tf.elementwise f (Scalar x) (Scalar y) = Scalar <$> f x y.
Proof. reflexivity. Qed.

Lemma fmap_Ok {A B : Type} (g : A -> B) (a : A) : g <$> Ok a = Ok (g a).
Proof. reflexivity. Qed.

Lemma bind_Ok {A B : Type} (a : A) (f : A -> result B) : mbind f (Ok a) = f a.
Proof. reflexivity. Qed.

Ltac lengths :=
  repeat first [ rewrite length_map | rewrite length_zip_with | rewrite length_column ];
  lia.

Lemma reduce_sum_axis1_matrix (m : list (list R)) :
  tf.reduce_sum_axis1 (Matrix m) = Ok (Vector (map sum_list m)).
Proof. reflexivity. Qed.

Lemma pointwise_scalar (f : R -> R) (x : R) :
  tf.pointwise f (Scalar x) = Ok (Scalar (f x)).
Proof. reflexivity. Qed.

Ltac tf_eval :=
  repeat first
    [ rewrite bind_Ok
    | rewrite reduce_sum_axis1_matrix
    | rewrite pointwise_scalar
    | rewrite elementwise_scalars
    | rewrite elementwise_column_scalar
    | rewrite elementwise_vector_scalar
    | rewrite pointwise_column
    | rewrite elementwise_columns by lengths
    | rewrite elementwise_vectors by lengths ].

Section policy.
Variables (self : LearningModel) (feed : feed_dict) (probs old_probs deps : tensor).
Variables (lps olps advs : list R) (ms : list Z) (e : R).
Hypothesis Hprobs : eval feed probs = Ok (Matrix (column lps)).
Hypothesis Hold : eval feed old_probs = Ok (Matrix (column olps)).
Hypothesis Hadv : feed !! "advantages" = Some (Matrix (column advs)).
Hypothesis Hmask : eval feed (mask self) = Ok (IntVector ms).
Hypothesis Hdeps : eval feed deps = Ok (Scalar e).
Hypothesis Hl1 : length lps = length ms.
Hypothesis Hl2 : length olps = length ms.
Hypothesis Hl3 : length advs = length ms.
Hypothesis Hbin : binary_mask ms.

Lemma eval_policy_loss_node :
  let advantage := Placeholder float32 [None; Some 1%nat] "advantages" in
  let r_theta := Exp (Sub probs old_probs) in
  let p_opt_a := Mul r_theta advantage in
  let p_opt_b :=
    Mul (tflib.clip_by_value r_theta (Sub (Const 1.0) deps) (Add (Const 1.0) deps))
        advantage in
  eval feed (Neg (ReduceMean (DynamicPartition (Minimum p_opt_a p_opt_b) (mask self) 2 1)))
  = (m ← tf.mean (tf.select 1 (spec.zip_with3 (spec.surrogate e) lps olps advs) ms);
     Ok (Scalar (- m))).
Proof.
  intros advantage r_theta p_opt_a p_opt_b.
  assert (Hadv' : eval feed advantage = Ok (Matrix (column advs))).
  { cbn [eval advantage]. rewrite Hadv, fits_column. reflexivity. }
  assert (Hr : eval feed r_theta
               = Ok (Matrix (column (map exp (zip_with Rminus lps olps))))).
  { unfold r_theta. cbn [eval]. rewrite Hprobs, Hold. cbn [mbind result_bind].
    rewrite elementwise_columns by congruence. apply pointwise_column. }
  assert (Hlr : length (map exp (zip_with Rminus lps olps)) = length ms).
  { rewrite length_map, length_zip_with. lia. }
  unfold p_opt_a, p_opt_b, tflib.clip_by_value.
  cbn [eval]. rewrite Hr, Hadv', Hdeps, Hmask. tf_eval.
  rewrite surrogate_terms.
  rewrite dynamic_partition_matrix.
  2:{ rewrite length_column. apply length_zip_with3; assumption. }
  2:{ exact Hbin. }
  cbn [mbind result_bind tf.reduce_mean].
  rewrite select_column, concat_column.
  destruct (tf.mean _) as [m|err]; reflexivity.
Qed.
End policy.

Lemma clipped_terms (e : R) (vs volds : list R) :
  zip_with Rplus volds
    (map (fun x => Rmax x (- e)) (map (fun x => Rmin x e) (zip_with Rminus vs volds)))
  = zip_with (spec.value_clipped e) vs volds.
Proof.
  revert volds. induction vs as [|v vs IH]; intros [|vold volds]; simpl;
    try reflexivity.
  rewrite IH. reflexivity.
Qed.

Lemma value_error_terms (e : R) (rets vs volds : list R) :
  zip_with Rmax (zip_with tf.squared_difference rets vs)
    (zip_with tf.squared_difference rets (zip_with (spec.value_clipped e) vs volds))
  = spec.zip_with3 (spec.value_error e) rets vs volds.
Proof.
  revert vs volds. induction rets as [|r rets IH]; intros [|v vs] [|vold volds];
    simpl; try reflexivity.
  rewrite IH. f_equal. unfold spec.value_error, tf.squared_difference.
  f_equal; ring.
Qed.

Lemma eval_clipped_value_estimate (feed : feed_dict)
    (old_value head deps : tensor) (volds : list R) (m : list (list R)) (e : R) :
  eval feed old_value = Ok (Vector volds) ->
  eval feed head = Ok (Matrix m) ->
  eval feed deps = Ok (Scalar e) ->
  length m = length volds ->
  eval feed (clipped_value_estimate old_value head deps)
  = Ok (Vector (zip_with (spec.value_clipped e) (map sum_list m) volds)).
Proof.
  intros Hold Hhead Hdeps Hlen.
  unfold clipped_value_estimate, tflib.clip_by_value.
  cbn [eval]. rewrite Hold, Hhead, Hdeps.
  tf_eval. rewrite clipped_terms. reflexivity.
Qed.

Section value.
Variables (self : LearningModel) (feed : feed_dict).
Variables (returns_holder old_value head deps : tensor).
Variables (rets volds : list R) (m : list (list R)) (ms : list Z) (e : R).
Hypothesis Hret : eval feed returns_holder = Ok (Vector rets).
Hypothesis Hold : eval feed old_value = Ok (Vector volds).
Hypothesis Hhead : eval feed head = Ok (Matrix m).
Hypothesis Hmask : eval feed (mask self) = Ok (IntVector ms).
Hypothesis Hdeps : eval feed deps = Ok (Scalar e).
Hypothesis Hl1 : length rets = length ms.
Hypothesis Hl2 : length volds = length ms.
Hypothesis Hl3 : length m = length ms.
Hypothesis Hbin : binary_mask ms.

Lemma eval_stream_value_loss :
  eval feed (stream_value_loss self returns_holder old_value head deps)
  = Scalar <$> tf.mean (tf.select 1
      (spec.zip_with3 (spec.value_error e) rets (map sum_list m) volds) ms).
Proof.
  unfold stream_value_loss.
  cbn [eval].
  rewrite (eval_clipped_value_estimate feed old_value head deps volds m e)
    by (assumption || congruence).
  rewrite Hret, Hhead, Hmask.
  tf_eval. rewrite value_error_terms.
  rewrite dynamic_partition_vector.
  2:{ apply length_zip_with3; [assumption| rewrite length_map; assumption | assumption]. }
  2:{ exact Hbin. }
  reflexivity.
Qed.
End value.

(** ** The schedules *)

Lemma pow_one (b : R) : (0 <= b)%R -> tf.pow b 1.0 = Ok b.
Proof.
  intros Hb. unfold tf.pow.
  replace 1.0%R with 1%R by lra.
  destruct (Rlt_dec 0 b) as [Hpos|Hnpos].
  - rewrite Rpower_1 by exact Hpos. reflexivity.
  - destruct (Req_dec_T b 0) as [->|Hne]; [|exfalso; lra].
    destruct (Rlt_dec 0 1) as [_|H]; [reflexivity|exfalso; lra].
Qed.

Lemma decay_base_nonneg (step max_step : R) :
  (0 < max_step)%R -> (0 <= 1 - Rmin step max_step / max_step)%R.
Proof.
  intros Hmax.
  assert (Rmin step max_step / max_step <= 1)%R; [|lra].
  apply (Rmult_le_reg_r max_step); [exact Hmax|].
  unfold Rdiv. rewrite Rmult_assoc, Rinv_l by lra.
  pose proof (Rmin_r step max_step). lra.
Qed.

Lemma decay_formula (initial floor max_step step : R) :
  (0 < max_step)%R ->
  ((initial - floor) * (1 - Rmin step max_step / max_step) + floor)%R
  = spec.linear_decay initial floor max_step step.
Proof.
  intros Hmax. unfold spec.linear_decay.
  destruct (Rle_dec max_step step) as [Hle|Hgt].
  - rewrite Rmin_right by exact Hle. field. lra.
  - rewrite Rmin_left by lra. field. lra.
Qed.

Lemma eval_polynomial_decay (feed : feed_dict) (gs : tensor) (s : Z)
    (initial floor max_step : R) :
  eval feed gs = Ok (IntScalar s) -> (0 < max_step)%R ->
  eval feed (tflib.polynomial_decay initial gs max_step floor 1.0)
  = Ok (Scalar (spec.linear_decay initial floor max_step (IZR s))).
Proof.
  intros Hgs Hmax. unfold tflib.polynomial_decay.
  cbn [eval]. rewrite Hgs. cbn [mbind result_bind tf.cast_float32]. tf_eval.
  rewrite (elementwise_scalars_partial tf.div). unfold tf.div.
  destruct (Req_dec_T max_step 0) as [Hz|_]; [exfalso; lra|].
  rewrite fmap_Ok. tf_eval.
  rewrite (elementwise_scalars_partial tf.pow).
  rewrite pow_one by (apply decay_base_nonneg; exact Hmax).
  rewrite fmap_Ok. tf_eval.
  rewrite decay_formula by exact Hmax. reflexivity.
Qed.

Lemma linear_decay_start (initial floor max_step : R) :
  (0 < max_step)%R -> spec.linear_decay initial floor max_step 0 = initial.
Proof.
  intros Hmax. unfold spec.linear_decay.
  destruct (Rle_dec max_step 0) as [Hle|_]; [exfalso; lra|].
  unfold Rdiv. rewrite Rmult_0_l, Rmult_0_r. lra.
Qed.

Lemma linear_decay_end (initial floor max_step step : R) :
  (max_step <= step)%R -> spec.linear_decay initial floor max_step step = floor.
Proof.
  intros Hle. unfold spec.linear_decay.
  destruct (Rle_dec max_step step) as [_|Hn]; [reflexivity|exfalso; lra].
Qed.

Lemma linear_decay_floor (initial floor max_step step : R) :
  (0 < max_step)%R -> (floor <= initial)%R ->
  (floor <= spec.linear_decay initial floor max_step step)%R.
Proof.
  intros Hmax Hfl. unfold spec.linear_decay.
  destruct (Rle_dec max_step step) as [_|Hlt]; [lra|].
  assert (Hq : (step / max_step < 1)%R).
  { apply (Rmult_lt_reg_r max_step); [exact Hmax|].
    unfold Rdiv. rewrite Rmult_assoc, Rinv_l by lra. lra. }
  nra.
Qed.

Lemma linear_decay_monotone (initial floor max_step s1 s2 : R) :
  (0 < max_step)%R -> (floor <= initial)%R -> (s1 <= s2)%R ->
  (spec.linear_decay initial floor max_step s2
   <= spec.linear_decay initial floor max_step s1)%R.
Proof.
  intros Hmax Hfl Hs.
  pose proof (linear_decay_floor initial floor max_step s1 Hmax Hfl) as Hfloor.
  unfold spec.linear_decay in *.
  destruct (Rle_dec max_step s2) as [H2|H2]; [exact Hfloor|].
  destruct (Rle_dec max_step s1) as [H1|H1]; [exfalso; lra|].
  assert (Hq : (s1 / max_step <= s2 / max_step)%R).
  { unfold Rdiv. apply Rmult_le_compat_r; [|exact Hs].
    left. apply Rinv_0_lt_compat. exact Hmax. }
  nra.
Qed.

(** ** The two loops of [create_losses] *)

Lemma mapM_Forall2 {A B : Type} (g : A -> result B) (l : list A) (ys : list B) :
  mapM g l = Ok ys <-> Forall2 (fun x y => g x = Ok y) l ys.
Proof.
  revert ys. induction l as [|a l IH]; intros ys; simpl.
  - split.
    + intros [= <-]. constructor.
    + intros H. inversion H. reflexivity.
  - split.
    + destruct (g a) as [b|e] eqn:Ha; simpl; [|discriminate].
      destruct (mapM g l) as [bs|e] eqn:Hl; simpl; [|discriminate].
      intros [= <-]. constructor; [exact Ha|]. apply IH. reflexivity.
    + intros H. inversion H as [|? b ? bs Ha Hl]; subst.
      rewrite Ha. simpl. apply IH in Hl. rewrite Hl. reflexivity.
Qed.

Lemma foldM_append {A B : Type} (g : A -> result B) (l : list A) (acc : list B) :
  foldM (fun acc a => b ← g a; Ok (acc ++ [b])) acc l
  = (bs ← mapM g l; Ok (acc ++ bs)).
Proof.
  revert acc. induction l as [|a l IH]; intros acc; simpl.
  - rewrite app_nil_r. reflexivity.
  - destruct (g a) as [b|e]; simpl; [|reflexivity].
    rewrite IH. destruct (mapM g l) as [bs|e]; simpl; [|reflexivity].
    rewrite <- app_assoc. reflexivity.
Qed.

Lemma lookup_enumerate {A : Type} (l : list A) (i : nat) (x : A) :
  (i, x) ∈ enumerate l <-> l !! i = Some x.
Proof.
  unfold enumerate. rewrite list_elem_of_lookup. split.
  - intros [j Hj]. apply lookup_zip_with_Some in Hj as (a & b & Heq & Ha & Hb).
    injection Heq as -> ->. apply lookup_seq in Ha as [-> _]. exact Hb.
  - intros Hi. exists i. apply lookup_zip_with_Some. exists i, x.
    split; [reflexivity|]. split; [|exact Hi].
    apply lookup_seq. split; [reflexivity|]. apply lookup_lt_Some in Hi. exact Hi.
Qed.

Lemma snd_enumerate {A : Type} (l : list A) : map snd (enumerate l) = l.
Proof.
  unfold enumerate. apply snd_zip. rewrite length_seq. lia.
Qed.

Lemma length_enumerate {A : Type} (l : list A) : length (enumerate l) = length l.
Proof. unfold enumerate. rewrite length_zip, length_seq. lia. Qed.

Lemma lookup_enumerate_index {A : Type} (l : list A) (i : nat) (x : A) :
  l !! i = Some x -> enumerate l !! i = Some (i, x).
Proof.
  intros Hi. unfold enumerate. apply lookup_zip_with_Some. exists i, x.
  split; [reflexivity|]. split; [|exact Hi].
  apply lookup_seq. split; [reflexivity|]. apply lookup_lt_Some in Hi. exact Hi.
Qed.

Lemma placeholders_fold (names : list string) (l : list nat) (rh ov : list tensor) :
  foldM (placeholder_step names) (rh, ov) l
  = (ps ← mapM (placeholders_at names) l;
     Ok (rh ++ map fst ps, ov ++ map snd ps)).
Proof.
  revert rh ov. induction l as [|i l IH]; intros rh ov; simpl.
  - rewrite !app_nil_r. reflexivity.
  - destruct (placeholders_at names i) as [[r o]|e]; simpl; [|reflexivity].
    rewrite IH. destruct (mapM (placeholders_at names) l) as [ps|e]; simpl;
      [|reflexivity].
    rewrite <- !app_assoc. reflexivity.
Qed.

(** One iteration of the first loop: it returns exactly when the name is
    there and TensorFlow accepts the two placeholder names. *)
Lemma placeholders_at_Ok (names : list string) (i : nat) (r o : tensor) :
  placeholders_at names i = Ok (r, o) <->
  exists name, names !! i = Some name /\ placeholder_names_valid name = true /\
    r = returns_placeholder name /\ o = old_value_placeholder name.
Proof.
  unfold placeholders_at, getitem, tflib.placeholder, placeholder_names_valid,
    returns_placeholder, old_value_placeholder.
  destruct (names !! i) as [name|]; cbn [mbind result_bind].
  2:{ split; [discriminate|]. intros (name' & H & _). discriminate. }
  destruct (tflib.valid_op_name (format_returns name)) eqn:Hr;
    cbn [mbind result_bind].
  2:{ split; [discriminate|]. intros (name' & [= <-] & H & _).
      rewrite Hr in H. discriminate. }
  destruct (tflib.valid_op_name (format_value_estimate name)) eqn:Ho;
    cbn [mbind result_bind].
  2:{ split; [discriminate|]. intros (name' & [= <-] & H & _).
      rewrite Hr, Ho in H. discriminate. }
  split.
  - intros [= <- <-]. exists name. rewrite Hr, Ho. auto.
  - intros (name' & [= <-] & _ & -> & ->). reflexivity.
Qed.

Lemma placeholders_at_valid (names : list string) (i : nat) (name : string) :
  names !! i = Some name -> placeholder_names_valid name = true ->
  placeholders_at names i
  = @Ok (tensor * tensor) (returns_placeholder name, old_value_placeholder name).
Proof. intros Hi Hv. apply placeholders_at_Ok. exists name. auto. Qed.

Lemma placeholders_at_seq (names : list string) (n k : nat) :
  k + n <= length names ->
  (forall name, name ∈ take n (drop k names) -> placeholder_names_valid name = true) ->
  mapM (placeholders_at names) (seq k n)
  = Ok (map (fun name => (returns_placeholder name, old_value_placeholder name))
          (take n (drop k names))).
Proof.
  revert k. induction n as [|n IH]; intros k Hk Hv; simpl; [reflexivity|].
  destruct (names !! k) as [a|] eqn:Ha.
  2:{ apply lookup_ge_None in Ha. lia. }
  rewrite (drop_S names a k Ha) in Hv |- *. simpl in Hv |- *.
  rewrite (placeholders_at_valid names k a Ha) by (apply Hv; left).
  simpl. rewrite IH; [reflexivity|lia|].
  intros name Hin. apply Hv. right. exact Hin.
Qed.

Lemma placeholders_at_seq_Ok (names : list string) (ps : list (tensor * tensor))
    (n k : nat) :
  mapM (placeholders_at names) (seq k n) = Ok ps ->
  (n = 0 \/ k + n <= length names) /\
  (forall name, name ∈ take n (drop k names) -> placeholder_names_valid name = true).
Proof.
  revert k ps. induction n as [|n IH]; intros k ps; simpl.
  - intros _. split; [auto|]. intros name Hin. inversion Hin.
  - destruct (placeholders_at names k) as [[r o]|e] eqn:Ha; simpl; [|discriminate].
    apply placeholders_at_Ok in Ha as (a & Ha & Hva & _ & _).
    destruct (mapM (placeholders_at names) (seq (S k) n)) as [bs|e] eqn:Hl;
      simpl; [|discriminate].
    intros _. destruct (IH _ _ Hl) as [Hlen Hv]. split.
    + right. apply lookup_lt_Some in Ha as Hlt. destruct Hlen as [-> | H]; lia.
    + rewrite (drop_S names a k Ha). simpl. intros name Hin.
      apply elem_of_cons in Hin as [-> | Hin]; [exact Hva|]. apply Hv, Hin.
Qed.

Section structure.
Variables (self : LearningModel) (probs old_probs : tensor).
Variables (value_streams : gmap string tensor) (ent : tensor).
Variables (beta epsilon lr max_step : R) (stream_names : list string).

Let deps := decay_epsilon self epsilon max_step.

Lemma value_loss_at_names (heads : list tensor) :
  Forall2 (fun name head => value_streams !! name = Some head) stream_names heads ->
  mapM (value_loss_at self value_streams
          (map returns_placeholder stream_names)
          (map old_value_placeholder stream_names) deps)
       (enumerate stream_names)
  = Ok (zip_with (fun name head =>
      stream_value_loss self (returns_placeholder name)
        (old_value_placeholder name) head deps) stream_names heads).
Proof.
  intros Hheads. apply mapM_Forall2.
  apply Forall2_same_length_lookup_2.
  - rewrite length_enumerate, length_zip_with.
    apply Forall2_length in Hheads. lia.
  - intros i [j name] vl Hi Hvl.
    assert (Hname : stream_names !! i = Some name /\ j = i).
    { assert (Hin : (j, name) ∈ enumerate stream_names).
      { apply list_elem_of_lookup. exists i. exact Hi. }
      apply lookup_enumerate in Hin.
      pose proof (lookup_enumerate_index _ _ _ Hin) as Hj.
      unfold enumerate in Hi, Hj.
      apply lookup_zip_with_Some in Hi as (a & b & Heq & Ha & Hb).
      injection Heq as -> ->. apply lookup_seq in Ha as [-> _]. simpl. auto. }
    destruct Hname as [Hname ->].
    apply lookup_zip_with_Some in Hvl as (name' & head & -> & Hn' & Hhead).
    assert (name' = name) by congruence. subst name'.
    pose proof (Forall2_lookup_lr _ _ _ _ _ _ Hheads Hname Hhead) as Hvs.
    unfold value_loss_at, getitem, dict_getitem.
    rewrite !list_lookup_fmap, Hname, Hvs. reflexivity.
Qed.

Lemma create_losses_total (heads : list tensor) :
  size value_streams = length stream_names ->
  (forall name, name ∈ stream_names -> placeholder_names_valid name = true) ->
  Forall2 (fun name head => value_streams !! name = Some head) stream_names heads ->
  exists L,
    create_losses self probs old_probs value_streams ent beta epsilon lr max_step
      stream_names = Ok L /\ built self probs old_probs ent beta epsilon lr max_step stream_names heads L.
Proof.
  intros Hsize Hvalid Hheads. unfold create_losses.
  rewrite placeholders_fold, Hsize.
  rewrite placeholders_at_seq by (rewrite ?drop_0, ?firstn_all; auto with lia).
  rewrite drop_0, firstn_all. cbn [mbind result_bind app].
  rewrite !map_map. cbn [fst snd].
  change (map (fun x : string => returns_placeholder x) stream_names)
    with (map returns_placeholder stream_names).
  change (map (fun x : string => old_value_placeholder x) stream_names)
    with (map old_value_placeholder stream_names).
  unfold value_loss_step. rewrite foldM_append.
  fold deps. rewrite (value_loss_at_names heads Hheads).
  cbn [mbind result_bind app].
  eexists. split; [reflexivity|].
  unfold built. cbn. repeat split; reflexivity.
Qed.

Lemma create_losses_Ok_inv (L : Losses) :
  create_losses self probs old_probs value_streams ent beta epsilon lr max_step
    stream_names = Ok L ->
  size value_streams = length stream_names /\
  (forall name, name ∈ stream_names -> placeholder_names_valid name = true) /\
  exists heads,
    Forall2 (fun name head => value_streams !! name = Some head) stream_names heads.
Proof.
  unfold create_losses.
  rewrite placeholders_fold.
  destruct (mapM (placeholders_at stream_names) _) as [ps|e] eqn:E1;
    cbn [mbind result_bind app]; [|discriminate].
  unfold value_loss_step. rewrite foldM_append.
  destruct (mapM _ (enumerate stream_names)) as [vls|e] eqn:E2;
    cbn [mbind result_bind]; [|discriminate].
  intros _.
  destruct (placeholders_at_seq_Ok _ _ _ _ E1) as [Hn Hv].
  assert (Hle : size value_streams <= length stream_names) by lia.
  rewrite placeholders_at_seq in E1 by (lia || exact Hv). injection E1 as <-.
  rewrite drop_0 in E2, Hv. rewrite !map_map in E2. cbn [fst snd] in E2.
  apply mapM_Forall2 in E2.
  assert (Hall : forall i name, stream_names !! i = Some name ->
    i < size value_streams /\ is_Some (value_streams !! name)).
  { intros i name Hi.
    pose proof (lookup_enumerate_index _ _ _ Hi) as He.
    destruct (Forall2_lookup_l _ _ _ _ _ E2 He) as (vl & _ & Hvl).
    unfold value_loss_at, getitem, dict_getitem in Hvl.
    rewrite !list_lookup_fmap in Hvl.
    destruct (take (size value_streams) stream_names !! i) as [n'|] eqn:Ht;
      [|discriminate].
    apply lookup_lt_Some in Ht. rewrite length_take in Ht.
    destruct (value_streams !! name) as [head|]; [|discriminate].
    split; [lia|eauto]. }
  assert (Hsize : size value_streams = length stream_names).
  { destruct (decide (size value_streams = length stream_names)) as [|Hne];
      [assumption|].
    destruct (lookup_lt_is_Some_2 stream_names (size value_streams)) as [name Hn'];
      [lia|].
    apply Hall in Hn'. lia. }
  split; [exact Hsize|]. split.
  - rewrite Hsize, firstn_all in Hv. exact Hv.
  - exists (map (fun name => default (Const 0) (value_streams !! name)) stream_names).
    apply Forall2_fmap_r, Forall_Forall2_diag, Forall_forall.
    intros name Hin. apply list_elem_of_lookup in Hin as [i Hi].
    destruct (Hall i name Hi) as [_ [head Hhead]]. simpl. rewrite Hhead. reflexivity.
Qed.

Lemma create_losses_built (L : Losses) :
  create_losses self probs old_probs value_streams ent beta epsilon lr max_step
    stream_names = Ok L ->
  size value_streams = length stream_names /\
  exists heads,
    Forall2 (fun name head => value_streams !! name = Some head) stream_names heads /\
    built self probs old_probs ent beta epsilon lr max_step stream_names heads L.
Proof.
  intros HL.
  destruct (create_losses_Ok_inv L HL) as (Hsize & Hvalid & heads & Hheads).
  split; [exact Hsize|].
  exists heads. split; [exact Hheads|].
  destruct (create_losses_total heads Hsize Hvalid Hheads) as (L' & HL' & Hb).
  congruence.
Qed.
End structure.

(** ** The names of the placeholders *)

Lemma list_ascii_of_append (s t : string) :
  String.list_ascii_of_string (s +:+ t)
  = String.list_ascii_of_string s ++ String.list_ascii_of_string t.
Proof.
  induction s as [|c s IH]; simpl; [reflexivity|]. f_equal. exact IH.
Qed.

Lemma list_ascii_inj (s t : string) :
  String.list_ascii_of_string s = String.list_ascii_of_string t -> s = t.
Proof.
  intros H. rewrite <- (String.string_of_list_ascii_of_string s).
  rewrite <- (String.string_of_list_ascii_of_string t). rewrite H. reflexivity.
Qed.

Lemma append_suffix_inj (suffix s t : string) :
  s +:+ suffix = t +:+ suffix -> s = t.
Proof.
  intros H. apply list_ascii_inj.
  apply (f_equal String.list_ascii_of_string) in H.
  rewrite !list_ascii_of_append in H. exact (app_inv_tail _ _ _ H).
Qed.

Lemma returns_placeholder_inj (s t : string) :
  returns_placeholder s = returns_placeholder t -> s = t.
Proof. intros [= H]. exact (append_suffix_inj _ _ _ H). Qed.

Lemma old_value_placeholder_inj (s t : string) :
  old_value_placeholder s = old_value_placeholder t -> s = t.
Proof. intros [= H]. exact (append_suffix_inj _ _ _ H). Qed.

Lemma op_name_characters_tail (s : string) :
  op_name_characters s = true -> tflib.op_name_tail s = true.
Proof.
  induction s as [|c s IH]; [reflexivity|]. simpl.
  intros H. apply andb_true_iff in H as [Hc Hs].
  destruct s as [|c' s'].
  - rewrite Hc. reflexivity.
  - rewrite Hc. exact (IH Hs).
Qed.

Lemma op_name_tail_suffix (s suffix : string) :
  suffix <> EmptyString -> op_name_characters suffix = true ->
  tflib.op_name_tail (s +:+ suffix) = op_name_characters s.
Proof.
  intros Hne Hsuffix. induction s as [|c s IH].
  - simpl. apply op_name_characters_tail. exact Hsuffix.
  - change (String c s +:+ suffix) with (String c (s +:+ suffix)).
    cbn [tflib.op_name_tail op_name_characters].
    destruct (s +:+ suffix) as [|c' t] eqn:E.
    + destruct s; [simpl in E; contradiction|discriminate].
    + rewrite IH. reflexivity.
Qed.

Lemma valid_op_name_suffix (name suffix : string) (c : Ascii.ascii) (rest : string) :
  suffix = String c rest -> tflib.op_name_first c = false ->
  op_name_characters suffix = true ->
  tflib.valid_op_name (name +:+ suffix) = stream_name_ok name.
Proof.
  intros -> Hc Hsuffix. destruct name as [|c' s].
  - simpl. rewrite Hc. reflexivity.
  - change (String c' s +:+ String c rest) with (String c' (s +:+ String c rest)).
    cbn [tflib.valid_op_name stream_name_ok].
    rewrite op_name_tail_suffix by (discriminate || exact Hsuffix). reflexivity.
Qed.

(** TensorFlow accepts the two placeholder names of a stream exactly when the
    stream name is not empty, starts with a letter, a digit or a dot, and has
    no character outside letters, digits, dots, underscores, hyphens and
    slashes. *)
Lemma placeholder_names_valid_stream_name_ok (name : string) :
  placeholder_names_valid name = stream_name_ok name.
Proof.
  unfold placeholder_names_valid, format_returns, format_value_estimate.
  rewrite (valid_op_name_suffix name "_returns" "_" "returns")
    by reflexivity.
  rewrite (valid_op_name_suffix name "_value_estimate" "_" "value_estimate")
    by reflexivity.
  apply andb_diag.
Qed.

(** The two placeholders with a fixed name are the nodes [tf.placeholder]
    returns. *)
Lemma placeholder_fixed_names :
  tflib.placeholder float32 [None; Some 1%nat] "advantages"
    = Ok (Placeholder float32 [None; Some 1%nat] "advantages") /\
  tflib.placeholder float32 [] "new_reward"
    = Ok (Placeholder float32 [] "new_reward").
Proof. split; reflexivity. Qed.

(** ** Further evaluation lemmas *)

Lemma ratio_terms (lps olps : list R) :
  map exp (zip_with Rminus lps olps) = zip_with spec.ratio lps olps.
Proof.
  revert olps. induction lps as [|lp lps IH]; intros [|olp olps]; simpl;
    try reflexivity.
  rewrite IH. reflexivity.
Qed.

Lemma eval_masked_mean_vector (self : LearningModel) (feed : feed_dict)
    (t : tensor) (xs : list R) (ms : list Z) :
  eval feed t = Ok (Vector xs) ->
  eval feed (mask self) = Ok (IntVector ms) ->
  binary_mask ms -> length xs = length ms ->
  eval feed (ReduceMean (DynamicPartition t (mask self) 2 1))
  = Scalar <$> tf.mean (tf.select 1 xs ms).
Proof.
  intros Ht Hm Hbin Hlen. cbn [eval]. rewrite Ht, Hm. tf_eval.
  rewrite dynamic_partition_vector by assumption. reflexivity.
Qed.

Lemma eval_vector_placeholder (feed : feed_dict) (name : string) (xs : list R) :
  feed !! name = Some (Vector xs) ->
  eval feed (Placeholder float32 [None] name) = Ok (Vector xs).
Proof. intros H. cbn [eval]. rewrite H. reflexivity. Qed.

Lemma eval_stack (A : Type) (feed : feed_dict) (g : A -> result R)
    (vls : list tensor) (xs : list A) :
  Forall2 (fun vl x => eval feed vl = Scalar <$> g x) vls xs ->
  eval feed (Stack vls) = Vector <$> mapM g xs.
Proof.
  intros H. cbn [eval]. induction H as [|vl x vls xs Hvl _ IH]; [reflexivity|].
  cbn [mapM]. rewrite Hvl.
  destruct (g x) as [r|err]; [|reflexivity].
  rewrite fmap_Ok, bind_Ok.
  destruct (mapM (eval feed) vls) as [bs|err]; cbn [mbind result_bind] in *.
  - unfold tf.stack in *. cbn [mapM mbind result_bind].
    destruct (mapM _ bs) as [rs|err];
      destruct (mapM g xs) as [rs'|err'];
      cbn [fmap result_fmap mbind result_bind] in *; congruence.
  - destruct (mapM g xs) as [rs'|err'];
      cbn [fmap result_fmap mbind result_bind] in *; congruence.
Qed.

Lemma mean_agree (xs : list R) : tf.mean xs = spec.mean xs.
Proof.
  unfold spec.mean. destruct xs as [|x xs]; [reflexivity|].
  destruct (decide _) as [H|_]; [discriminate|reflexivity].
Qed.

Lemma Forall2_zip_with_keys {A B C : Type} (P : A -> B -> Prop)
    (Q : C -> A -> Prop) (f : A -> B -> C) (l : list A) (k : list B) :
  Forall2 P l k ->
  (forall a b, a ∈ l -> P a b -> Q (f a b) a) ->
  Forall2 Q (zip_with f l k) l.
Proof.
  induction 1 as [|a b l k Hab _ IH]; intros HQ; simpl; constructor.
  - apply HQ; [left|exact Hab].
  - apply IH. intros a' b' Hin. apply HQ. right. exact Hin.
Qed.

Section streams.
Variables (self : LearningModel) (feed : feed_dict) (deps : tensor).
Variables (value_streams : gmap string tensor) (stream_names : list string).
Variables (rets volds : string -> list R) (vals : string -> list (list R)).
Variables (ms : list Z) (e : R).
Hypothesis Hmask : eval feed (mask self) = Ok (IntVector ms).
Hypothesis Hbin : binary_mask ms.
Hypothesis Hdeps : eval feed deps = Ok (Scalar e).
Hypothesis Hstreams : forall name head,
  name ∈ stream_names -> value_streams !! name = Some head ->
  eval feed head = Ok (Matrix (vals name)) /\
  feed !! format_returns name = Some (Vector (rets name)) /\
  feed !! format_value_estimate name = Some (Vector (volds name)) /\
  length (vals name) = length ms /\
  length (rets name) = length ms /\
  length (volds name) = length ms.

Lemma eval_stream (name : string) (head : tensor) :
  name ∈ stream_names -> value_streams !! name = Some head ->
  eval feed (stream_value_loss self (returns_placeholder name)
               (old_value_placeholder name) head deps)
  = Scalar <$> tf.mean (tf.select 1
      (spec.zip_with3 (spec.value_error e) (rets name)
         (map sum_list (vals name)) (volds name)) ms).
Proof.
  intros Hin Hhead.
  destruct (Hstreams name head Hin Hhead) as (Hv & Hr & Ho & Hl1 & Hl2 & Hl3).
  apply eval_stream_value_loss; try assumption.
  - apply eval_vector_placeholder. exact Hr.
  - apply eval_vector_placeholder. exact Ho.
Qed.

Lemma eval_value_losses (heads : list tensor) :
  Forall2 (fun name head => value_streams !! name = Some head) stream_names heads ->
  eval feed (ReduceMean (Stack (zip_with (fun name head =>
      stream_value_loss self (returns_placeholder name)
        (old_value_placeholder name) head deps) stream_names heads)))
  = (per ← mapM (fun name => tf.mean (tf.select 1
        (spec.zip_with3 (spec.value_error e) (rets name)
           (map sum_list (vals name)) (volds name)) ms)) stream_names;
     Scalar <$> tf.mean per).
Proof.
  intros Hheads.
  change (eval feed (ReduceMean ?a)) with (v ← eval feed a; tf.reduce_mean v).
  rewrite (eval_stack string feed (fun name => tf.mean (tf.select 1
        (spec.zip_with3 (spec.value_error e) (rets name)
           (map sum_list (vals name)) (volds name)) ms)) _ stream_names).
  - destruct (mapM _ stream_names) as [per|err]; reflexivity.
  - apply (Forall2_zip_with_keys _ _ _ _ _ Hheads).
    intros name head Hin Hhead. apply eval_stream; assumption.
Qed.
End streams.

Lemma mapM_map {A B C : Type} (f : B -> result C) (g : A -> B) (l : list A) :
  mapM f (map g l) = mapM (fun a => f (g a)) l.
Proof.
  induction l as [|a l IH]; simpl; [reflexivity|]. rewrite IH. reflexivity.
Qed.

Lemma polynomial_decay_linear_schedule (self : LearningModel)
    (initial floor max_step : R) :
  (0 < max_step)%R ->
  linear_schedule self
    (tflib.polynomial_decay initial (global_step self) max_step floor 1.0)
    initial floor max_step.
Proof.
  intros Hmax.
  exists (fun s => spec.linear_decay initial floor max_step (IZR s)).
  split; [|split; [|split; [|split; [|split]]]].
  - intros feed s Hs. apply eval_polynomial_decay; assumption.
  - reflexivity.
  - apply linear_decay_start. exact Hmax.
  - intros s Hs. apply linear_decay_end. lra.
  - intros Hfl s1 s2 Hs. apply linear_decay_monotone; try assumption.
    apply IZR_le. exact Hs.
  - intros Hfl s. apply linear_decay_floor; assumption.
Qed.

Lemma registry_keys (name : string) :
  reward_signal_factory.NAME_TO_CLASS !! name = None <->
  name <> "extrinsic" /\ name <> "gail" /\ name <> "curiosity".
Proof.
  unfold reward_signal_factory.NAME_TO_CLASS. split.
  - intros H. repeat split; intros ->; vm_compute in H; discriminate.
  - intros (H1 & H2 & H3).
    rewrite !lookup_insert_ne by congruence.
    apply lookup_singleton_ne. congruence.
Qed.

(** ** The losses against the specification *)

Lemma eval_policy_loss_spec (self : LearningModel) (feed : feed_dict)
    (probs old_probs : tensor) (value_streams : gmap string tensor)
    (ent : tensor) (beta epsilon lr max_step : R) (stream_names : list string)
    (L : Losses) (lps olps advs : list R) (ms : list Z) (e : R) :
  create_losses self probs old_probs value_streams ent beta epsilon lr max_step
    stream_names = Ok L ->
  eval feed probs = Ok (Matrix (column lps)) ->
  eval feed old_probs = Ok (Matrix (column olps)) ->
  feed !! "advantages" = Some (Matrix (column advs)) ->
  eval feed (mask self) = Ok (IntVector ms) ->
  eval feed (decay_epsilon self epsilon max_step) = Ok (Scalar e) ->
  binary_mask ms ->
  length lps = length ms -> length olps = length ms -> length advs = length ms ->
  eval feed (policy_loss L) = Scalar <$> spec.policy_loss e lps olps advs ms.
Proof.
  intros HL Hp Ho Ha Hm He Hbin H1 H2 H3.
  apply create_losses_built in HL as (_ & heads & _ & Hb).
  destruct Hb as (_ & _ & Hadv & _ & _ & Hpl & _).
  rewrite Hpl, Hadv.
  rewrite (eval_policy_loss_node self feed probs old_probs _ lps olps advs ms e)
    by assumption.
  unfold spec.policy_loss.
  rewrite mean_select_masked_mean;
    [|apply length_zip_with3; assumption|assumption].
  destruct (spec.masked_mean _ _); reflexivity.
Qed.

Lemma eval_masked_mean_spec (self : LearningModel) (feed : feed_dict)
    (t : tensor) (xs : list R) (ms : list Z) :
  eval feed t = Ok (Vector xs) ->
  eval feed (mask self) = Ok (IntVector ms) ->
  binary_mask ms -> length xs = length ms ->
  eval feed (ReduceMean (DynamicPartition t (mask self) 2 1))
  = Scalar <$> spec.masked_mean xs ms.
Proof.
  intros Ht Hm Hbin Hlen.
  rewrite (eval_masked_mean_vector self feed t xs ms) by assumption.
  rewrite mean_select_masked_mean by assumption. reflexivity.
Qed.

Section streams_spec.
Variables (self : LearningModel) (feed : feed_dict).
Variables (value_streams : gmap string tensor) (stream_names : list string).
Variables (rets volds : string -> list R) (vals : string -> list (list R)).
Variables (ms : list Z) (e : R) (deps : tensor).
Hypothesis Hmask : eval feed (mask self) = Ok (IntVector ms).
Hypothesis Hbin : binary_mask ms.
Hypothesis Hdeps : eval feed deps = Ok (Scalar e).
Hypothesis Hstreams : forall name head,
  name ∈ stream_names -> value_streams !! name = Some head ->
  eval feed head = Ok (Matrix (vals name)) /\
  feed !! format_returns name = Some (Vector (rets name)) /\
  feed !! format_value_estimate name = Some (Vector (volds name)) /\
  length (vals name) = length ms /\
  length (rets name) = length ms /\
  length (volds name) = length ms.

Lemma stream_mean_spec (name : string) (head : tensor) :
  name ∈ stream_names -> value_streams !! name = Some head ->
  tf.mean (tf.select 1 (spec.zip_with3 (spec.value_error e) (rets name)
                          (map sum_list (vals name)) (volds name)) ms)
  = spec.stream_value_loss e (rets name) (map sum_list (vals name))
      (volds name) ms.
Proof.
  intros Hin Hhead. unfold spec.stream_value_loss.
  destruct (Hstreams name head Hin Hhead) as (_ & _ & _ & Hl1 & Hl2 & Hl3).
  apply mean_select_masked_mean; [|exact Hbin].
  apply length_zip_with3; [assumption| |assumption].
  rewrite length_map. assumption.
Qed.

Lemma eval_stream_spec (name : string) (head : tensor) :
  name ∈ stream_names -> value_streams !! name = Some head ->
  eval feed (stream_value_loss self (returns_placeholder name)
               (old_value_placeholder name) head deps)
  = Scalar <$> spec.stream_value_loss e (rets name) (map sum_list (vals name))
                 (volds name) ms.
Proof.
  intros Hin Hhead.
  rewrite (eval_stream self feed deps value_streams stream_names rets volds vals
             ms e Hmask Hbin Hdeps Hstreams name head Hin Hhead).
  rewrite (stream_mean_spec name head Hin Hhead). reflexivity.
Qed.

Lemma eval_value_losses_spec (heads : list tensor) :
  Forall2 (fun name head => value_streams !! name = Some head) stream_names heads ->
  eval feed (ReduceMean (Stack (zip_with (fun name head =>
      stream_value_loss self (returns_placeholder name)
        (old_value_placeholder name) head deps) stream_names heads)))
  = Scalar <$> spec.value_loss e
      (map (fun name => (rets name, map sum_list (vals name), volds name))
           stream_names) ms.
Proof.
  intros Hheads.
  rewrite (eval_value_losses self feed deps value_streams stream_names rets volds
             vals ms e Hmask Hbin Hdeps Hstreams heads Hheads).
  unfold spec.value_loss. rewrite mapM_map. cbn [fst snd].
  rewrite (mapM_ext _ (fun name =>
    spec.stream_value_loss e (rets name) (map sum_list (vals name))
      (volds name) ms)).
  - destruct (mapM _ stream_names) as [per|err]; [|reflexivity].
    cbn [mbind result_bind]. rewrite mean_agree. reflexivity.
  - intros name Hin.
    assert (is_Some (value_streams !! name)) as [head Hhead].
    { apply list_elem_of_lookup in Hin as [i Hi].
      destruct (Forall2_lookup_l _ _ _ _ _ Hheads Hi) as (head & _ & Hhead). eauto. }
    exact (stream_mean_spec name head Hin Hhead).
Qed.
End streams_spec.

Lemma eval_value_loss_spec (self : LearningModel) (feed : feed_dict)
    (probs old_probs : tensor) (value_streams : gmap string tensor)
    (ent : tensor) (beta epsilon lr max_step : R) (stream_names : list string)
    (L : Losses) (rets volds : string -> list R) (vals : string -> list (list R))
    (ms : list Z) (e : R) :
  create_losses self probs old_probs value_streams ent beta epsilon lr max_step
    stream_names = Ok L ->
  eval feed (mask self) = Ok (IntVector ms) ->
  binary_mask ms ->
  eval feed (decay_epsilon self epsilon max_step) = Ok (Scalar e) ->
  (forall name head,
     name ∈ stream_names -> value_streams !! name = Some head ->
     eval feed head = Ok (Matrix (vals name)) /\
     feed !! format_returns name = Some (Vector (rets name)) /\
     feed !! format_value_estimate name = Some (Vector (volds name)) /\
     length (vals name) = length ms /\
     length (rets name) = length ms /\
     length (volds name) = length ms) ->
  eval feed (value_loss L)
  = Scalar <$> spec.value_loss e
      (map (fun name => (rets name, map sum_list (vals name), volds name))
           stream_names) ms.
Proof.
  intros HL Hm Hbin He Hstreams.
  apply create_losses_built in HL as (_ & heads & Hheads & Hb).
  destruct Hb as (_ & _ & _ & _ & Hvl & _).
  rewrite Hvl.
  exact (eval_value_losses_spec self feed value_streams stream_names rets volds
           vals ms e _ Hm Hbin He Hstreams heads Hheads).
Qed.

(** ** The example model and batch *)

(** Settles, for a list of names that is written out, that TensorFlow
    accepts the placeholder names of each. *)
Ltac names_valid :=
  let name := fresh "name" in
  let H := fresh "H" in
  intros name H;
  repeat (apply elem_of_cons in H as [-> | H]; [reflexivity|]);
  inversion H.

Lemma example_names_valid (name : string) :
  name ∈ example.stream_names -> placeholder_names_valid name = true.
Proof. revert name. unfold example.stream_names. names_valid. Qed.

Lemma example_create_losses :
  exists L,
    create_losses example.self (log_probs example.self)
      (old_log_probs example.self) (value_heads example.self)
      (entropy example.self) example.beta example.epsilon example.lr
      example.max_step example.stream_names = Ok L.
Proof.
  destruct (create_losses_total example.self (log_probs example.self)
      (old_log_probs example.self) (value_heads example.self)
      (entropy example.self) example.beta example.epsilon example.lr
      example.max_step example.stream_names
      [Placeholder float32 [None; Some 1%nat] "extrinsic_value";
       Placeholder float32 [None; Some 1%nat] "curiosity_value"])
    as (L & HL & _).
  - reflexivity.
  - exact example_names_valid.
  - repeat constructor.
  - exists L. exact HL.
Qed.

Lemma example_schedules (feed : feed_dict) :
  feed !! "global_step" = Some (IntScalar 0) ->
  eval feed (decay_epsilon example.self example.epsilon example.max_step)
    = Ok (Scalar example.epsilon) /\
  eval feed (decay_beta example.self example.beta example.max_step)
    = Ok (Scalar example.beta).
Proof.
  intros Hstep.
  assert (Hgs : eval feed (global_step example.self) = Ok (IntScalar 0)).
  { cbn [eval global_step example.self]. rewrite Hstep. reflexivity. }
  assert (Hmax : (0 < example.max_step)%R) by (unfold example.max_step; lra).
  unfold decay_epsilon, decay_beta.
  rewrite !(eval_polynomial_decay feed _ 0 _ _ _ Hgs Hmax).
  rewrite !linear_decay_start by exact Hmax. split; reflexivity.
Qed.

Lemma example_decay_epsilon :
  eval example.feed (decay_epsilon example.self example.epsilon example.max_step)
  = Ok (Scalar example.epsilon).
Proof. apply example_schedules. reflexivity. Qed.

Lemma example_decay_beta :
  eval example.feed (decay_beta example.self example.beta example.max_step)
  = Ok (Scalar example.beta).
Proof. apply example_schedules. reflexivity. Qed.

Lemma example_stream_names (name : string) :
  name ∈ example.stream_names -> name = "extrinsic" \/ name = "curiosity".
Proof.
  unfold example.stream_names. intros H.
  apply elem_of_cons in H as [->|H]; [auto|].
  apply elem_of_cons in H as [->|H]; [auto|].
  apply elem_of_nil in H. contradiction.
Qed.

Lemma example_holds_batch1 :
  holds_batch example.self example.feed (log_probs example.self)
    (old_log_probs example.self) (entropy example.self)
    (value_heads example.self) example.stream_names example.batch1.
Proof.
  unfold holds_batch. repeat split; try reflexivity;
    destruct (example_stream_names name H) as [-> | ->];
    vm_compute in H0; injection H0 as <-; reflexivity.
Qed.

Lemma example_holds_batch2 :
  holds_batch example.self example.feed' (log_probs example.self)
    (old_log_probs example.self) (entropy example.self)
    (value_heads example.self) example.stream_names example.batch2.
Proof.
  unfold holds_batch. repeat split; try reflexivity;
    destruct (example_stream_names name H) as [-> | ->];
    vm_compute in H0; injection H0 as <-; reflexivity.
Qed.

Lemma agree_on_two {A : Type} (x y z : A) : agree_on [1%Z; 0%Z] [x; y] [x; z].
Proof.
  repeat split. intros [|[|i]] Hi; simpl in *; try discriminate; reflexivity.
Qed.

Lemma example_binary_mask : binary_mask [1%Z; 0%Z].
Proof.
  unfold binary_mask. constructor; [right; reflexivity|].
  constructor; [left; reflexivity|]. constructor.
Qed.

Lemma example_same_valid_timesteps :
  same_valid_timesteps example.stream_names example.batch1 example.batch2.
Proof.
  unfold same_valid_timesteps. split; [reflexivity|]. split.
  { exact example_binary_mask. }
  repeat split; try apply agree_on_two;
    destruct (example_stream_names name H) as [-> | ->];
    solve [ reflexivity
          | intros [|[|i]] Hi; simpl in *; try discriminate; reflexivity ].
Qed.


Lemma masked_mean_first (x y : R) : spec.masked_mean [x; y] [1%Z; 0%Z] = Ok x.
Proof.
  unfold spec.masked_mean. simpl.
  destruct (Req_dec_T _ _) as [H|_]; [exfalso; lra|]. f_equal. field.
Qed.

Lemma example_surrogate : spec.surrogate example.epsilon 0 0 1 = 1%R.
Proof.
  unfold spec.surrogate, spec.ratio, spec.clip, example.epsilon.
  replace (0 - 0)%R with 0%R by lra. rewrite exp_0.
  rewrite (Rmin_left 1 (1 + 0.2)) by lra.
  rewrite (Rmax_left 1 (1 - 0.2)) by lra.
  rewrite Rmin_left by lra. lra.
Qed.

Lemma example_policy_loss_value :
  spec.policy_loss example.epsilon [0%R; 1%R] [0%R; 0%R] [1%R; 2%R] [1%Z; 0%Z]
  = Ok (-1)%R.
Proof.
  unfold spec.policy_loss. cbn [spec.zip_with3].
  rewrite masked_mean_first, example_surrogate. reflexivity.
Qed.

Lemma example_value_error (ret v : R) :
  spec.value_error example.epsilon ret v v = ((ret - v) ^ 2)%R.
Proof.
  unfold spec.value_error, spec.value_clipped, spec.clip, example.epsilon.
  replace (v - v)%R with 0%R by lra.
  rewrite (Rmin_left 0) by lra. rewrite (Rmax_left 0) by lra.
  replace (v + 0)%R with v by lra. apply Rmax_left. lra.
Qed.

Lemma example_value_loss_value :
  spec.value_loss example.epsilon
    (map (fun name => (b_returns example.batch1 name,
                       map sum_list (b_values example.batch1 name),
                       b_old_values example.batch1 name))
         example.stream_names) [1%Z; 0%Z]
  = Ok 1%R.
Proof.
  unfold spec.value_loss, spec.stream_value_loss, example.stream_names.
  cbn [map mapM spec.zip_with3 fst snd]. simpl b_returns. simpl b_values.
  simpl b_old_values. cbn [map sum_list foldr spec.zip_with3].
  rewrite !masked_mean_first.
  replace (1 + 0)%R with 1%R by lra. replace (0 + 0)%R with 0%R by lra.
  rewrite !example_value_error.
  cbn [mbind result_bind]. unfold spec.mean. simpl.
  f_equal. field.
Qed.

Lemma example_streams (feed : feed_dict) (B : batch) :
  holds_batch example.self feed (log_probs example.self)
    (old_log_probs example.self) (entropy example.self)
    (value_heads example.self) example.stream_names B ->
  (forall name, length (b_values B name) = 2 /\ length (b_returns B name) = 2 /\
                length (b_old_values B name) = 2) ->
  forall name head,
    name ∈ example.stream_names ->
    value_heads example.self !! name = Some head ->
    eval feed head = Ok (Matrix (b_values B name)) /\
    feed !! format_returns name = Some (Vector (b_returns B name)) /\
    feed !! format_value_estimate name = Some (Vector (b_old_values B name)) /\
    length (b_values B name) = length [1%Z; 0%Z] /\
    length (b_returns B name) = length [1%Z; 0%Z] /\
    length (b_old_values B name) = length [1%Z; 0%Z].
Proof.
  intros (_ & _ & _ & _ & _ & Hs) Hlen name head Hin Hhead.
  destruct (Hs name head Hin Hhead) as (H1 & H2 & H3).
  destruct (Hlen name) as (L1 & L2 & L3). auto 10.
Qed.

Lemma example_lengths1 (name : string) :
  length (b_values example.batch1 name) = 2 /\
  length (b_returns example.batch1 name) = 2 /\
  length (b_old_values example.batch1 name) = 2.
Proof. simpl. destruct (decide _); auto. Qed.

Lemma example_lengths2 (name : string) :
  length (b_values example.batch2 name) = 2 /\
  length (b_returns example.batch2 name) = 2 /\
  length (b_old_values example.batch2 name) = 2.
Proof. simpl. destruct (decide _); auto. Qed.

Lemma example_policy_loss_eval (L : Losses) :
  create_losses example.self (log_probs example.self)
    (old_log_probs example.self) (value_heads example.self)
    (entropy example.self) example.beta example.epsilon example.lr
    example.max_step example.stream_names = Ok L ->
  eval example.feed (policy_loss L) = Ok (Scalar (-1)).
Proof.
  intros HL.
  rewrite (eval_policy_loss_spec _ _ _ _ _ _ _ _ _ _ _ L
             [0%R; 1%R] [0%R; 0%R] [1%R; 2%R] [1%Z; 0%Z] example.epsilon HL);
    try reflexivity.
  - rewrite example_policy_loss_value. reflexivity.
  - exact example_decay_epsilon.
  - exact example_binary_mask.
Qed.

Lemma example_value_loss_eval (L : Losses) :
  create_losses example.self (log_probs example.self)
    (old_log_probs example.self) (value_heads example.self)
    (entropy example.self) example.beta example.epsilon example.lr
    example.max_step example.stream_names = Ok L ->
  eval example.feed (value_loss L) = Ok (Scalar 1).
Proof.
  intros HL.
  rewrite (eval_value_loss_spec _ _ _ _ _ _ _ _ _ _ _ L
             (b_returns example.batch1) (b_old_values example.batch1)
             (b_values example.batch1) [1%Z; 0%Z] example.epsilon HL).
  - rewrite example_value_loss_value. reflexivity.
  - reflexivity.
  - exact example_binary_mask.
  - exact example_decay_epsilon.
  - exact (example_streams _ _ example_holds_batch1 example_lengths1).
Qed.

(** * The claims *)

(** C1.  In the graph of [create_losses] the policy ratio evaluates, at every
    timestep, to [exp(log_prob - old_log_prob)], and the policy loss
    evaluates to the negative masked mean, over the timesteps whose mask is
    1, of the smaller of [r * advantage] and
    [clip(r, 1 - decay_epsilon, 1 + decay_epsilon) * advantage]: for every
    batch of two log-probability columns, an advantage column and a 0/1 mask
    of one length.  (With no valid timestep both sides are the mean of
    nothing, [NonReal].) *)
Theorem policy_loss_clipped_surrogate (self : LearningModel) (feed : feed_dict)
    (probs old_probs : tensor) (value_streams : gmap string tensor)
    (ent : tensor) (beta epsilon lr max_step : R) (stream_names : list string)
    (L : Losses) (lps olps advs : list R) (ms : list Z) (e : R) :
  create_losses self probs old_probs value_streams ent beta epsilon lr max_step
    stream_names = Ok L ->
  eval feed probs = Ok (Matrix (column lps)) ->
  eval feed old_probs = Ok (Matrix (column olps)) ->
  feed !! "advantages" = Some (Matrix (column advs)) ->
  eval feed (mask self) = Ok (IntVector ms) ->
  eval feed (decay_epsilon self epsilon max_step) = Ok (Scalar e) ->
  binary_mask ms ->
  length lps = length ms -> length olps = length ms -> length advs = length ms ->
  eval feed (Exp (Sub probs old_probs))
    = Ok (Matrix (column (zip_with spec.ratio lps olps))) /\
  eval feed (policy_loss L)
    = Scalar <$> spec.policy_loss e lps olps advs ms.
Proof.
  intros HL Hp Ho Ha Hm He Hbin H1 H2 H3. split.
  - cbn [eval]. rewrite Hp, Ho. tf_eval. rewrite ratio_terms. reflexivity.
  - exact (eval_policy_loss_spec self feed probs old_probs value_streams ent
             beta epsilon lr max_step stream_names L lps olps advs ms e
             HL Hp Ho Ha Hm He Hbin H1 H2 H3).
Qed.

Lemma policy_loss_clipped_surrogate_witness :
  exists L,
    create_losses example.self (log_probs example.self)
      (old_log_probs example.self) (value_heads example.self)
      (entropy example.self) example.beta example.epsilon example.lr
      example.max_step example.stream_names = Ok L /\
    eval example.feed (policy_loss L)
    = Scalar <$> spec.policy_loss example.epsilon
                   [0%R; 1%R] [0%R; 0%R] [1%R; 2%R] [1%Z; 0%Z].
Proof.
  destruct example_create_losses as [L HL]. exists L. split; [exact HL|].
  apply (policy_loss_clipped_surrogate example.self example.feed
           (log_probs example.self) (old_log_probs example.self)
           (value_heads example.self) (entropy example.self) example.beta
           example.epsilon example.lr example.max_step example.stream_names L
           [0%R; 1%R] [0%R; 0%R] [1%R; 2%R] [1%Z; 0%Z] example.epsilon HL);
    try reflexivity.
  - exact example_decay_epsilon.
  - exact example_binary_mask.
Defined.

(** C2.  In the graph of [create_losses], for every value stream the clipped
    estimate evaluates to [V_old + clip(V - V_old, -decay_epsilon,
    decay_epsilon)], where [V] is the row sum of the head's output; the value
    loss of the stream evaluates to the masked mean, over the timesteps whose
    mask is 1, of the larger of [(R - V)^2] and [(R - V_clipped)^2]; and the
    total value loss evaluates to the unweighted mean of the losses of all
    streams.  The stream names are distinct, so that every placeholder has a
    name of its own in the feed dictionary. *)
Theorem value_loss_clipped_mean (self : LearningModel) (feed : feed_dict)
    (probs old_probs : tensor) (value_streams : gmap string tensor)
    (ent : tensor) (beta epsilon lr max_step : R) (stream_names : list string)
    (L : Losses) (rets volds : string -> list R) (vals : string -> list (list R))
    (ms : list Z) (e : R) :
  create_losses self probs old_probs value_streams ent beta epsilon lr max_step
    stream_names = Ok L ->
  NoDup stream_names ->
  eval feed (mask self) = Ok (IntVector ms) ->
  binary_mask ms ->
  eval feed (decay_epsilon self epsilon max_step) = Ok (Scalar e) ->
  (forall name head,
     name ∈ stream_names -> value_streams !! name = Some head ->
     eval feed head = Ok (Matrix (vals name)) /\
     feed !! format_returns name = Some (Vector (rets name)) /\
     feed !! format_value_estimate name = Some (Vector (volds name)) /\
     length (vals name) = length ms /\
     length (rets name) = length ms /\
     length (volds name) = length ms) ->
  let V name := map sum_list (vals name) in
  (exists heads,
     Forall2 (fun name head => value_streams !! name = Some head) stream_names heads /\
     value_loss L = ReduceMean (Stack (zip_with (fun name head =>
       stream_value_loss self (returns_placeholder name)
         (old_value_placeholder name) head (decay_epsilon self epsilon max_step))
       stream_names heads))) /\
  (forall name head,
     name ∈ stream_names -> value_streams !! name = Some head ->
     eval feed (clipped_value_estimate (old_value_placeholder name) head
                  (decay_epsilon self epsilon max_step))
       = Ok (Vector (zip_with (spec.value_clipped e) (V name) (volds name))) /\
     eval feed (stream_value_loss self (returns_placeholder name)
                  (old_value_placeholder name) head
                  (decay_epsilon self epsilon max_step))
       = Scalar <$> spec.stream_value_loss e (rets name) (V name) (volds name) ms) /\
  eval feed (value_loss L)
    = Scalar <$> spec.value_loss e
        (map (fun name => (rets name, V name, volds name)) stream_names) ms.
Proof.
  intros HL _ Hm Hbin He Hstreams V. subst V. cbv beta.
  split; [|split].
  - apply create_losses_built in HL as (_ & heads & Hheads & Hb).
    destruct Hb as (_ & _ & _ & _ & Hvl & _).
    exists heads. split; assumption.
  - intros name head Hin Hhead.
    destruct (Hstreams name head Hin Hhead) as (Hv & Hr & Ho & Hl1 & Hl2 & Hl3).
    split.
    + apply eval_clipped_value_estimate; try assumption; [|congruence].
      apply eval_vector_placeholder. exact Ho.
    + exact (eval_stream_spec self feed value_streams stream_names rets volds
               vals ms e _ Hm Hbin He Hstreams name head Hin Hhead).
  - exact (eval_value_loss_spec self feed probs old_probs value_streams ent beta
             epsilon lr max_step stream_names L rets volds vals ms e
             HL Hm Hbin He Hstreams).
Qed.

Lemma value_loss_clipped_mean_witness :
  exists L,
    create_losses example.self (log_probs example.self)
      (old_log_probs example.self) (value_heads example.self)
      (entropy example.self) example.beta example.epsilon example.lr
      example.max_step example.stream_names = Ok L /\
    eval example.feed (value_loss L)
    = Scalar <$> spec.value_loss example.epsilon
        (map (fun name => (b_returns example.batch1 name,
                           map sum_list (b_values example.batch1 name),
                           b_old_values example.batch1 name))
             example.stream_names) [1%Z; 0%Z].
Proof.
  destruct example_create_losses as [L HL]. exists L. split; [exact HL|].
  apply (value_loss_clipped_mean example.self example.feed
           (log_probs example.self) (old_log_probs example.self)
           (value_heads example.self) (entropy example.self) example.beta
           example.epsilon example.lr example.max_step example.stream_names L
           (b_returns example.batch1) (b_old_values example.batch1)
           (b_values example.batch1) [1%Z; 0%Z] example.epsilon HL).
  - apply (bool_decide_unpack _). vm_compute. exact I.
  - reflexivity.
  - exact example_binary_mask.
  - exact example_decay_epsilon.
  - exact (example_streams _ _ example_holds_batch1 example_lengths1).
Defined.

(** C3.  The total loss of [create_losses] evaluates to
    [policy_loss + 0.5 * value_loss - decay_beta * h], where [h] is the
    masked mean, over the timesteps whose mask is 1, of the per-timestep
    entropy, which is what the entropy node of the loss evaluates to. *)
Theorem total_loss_formula (self : LearningModel) (feed : feed_dict)
    (probs old_probs : tensor) (value_streams : gmap string tensor)
    (ent : tensor) (beta epsilon lr max_step : R) (stream_names : list string)
    (L : Losses) (ents : list R) (ms : list Z) (p v b h : R) :
  create_losses self probs old_probs value_streams ent beta epsilon lr max_step
    stream_names = Ok L ->
  eval feed (policy_loss L) = Ok (Scalar p) ->
  eval feed (value_loss L) = Ok (Scalar v) ->
  eval feed (decay_beta self beta max_step) = Ok (Scalar b) ->
  eval feed ent = Ok (Vector ents) ->
  eval feed (mask self) = Ok (IntVector ms) ->
  binary_mask ms -> length ents = length ms ->
  spec.masked_mean ents ms = Ok h ->
  eval feed (ReduceMean (DynamicPartition ent (mask self) 2 1)) = Ok (Scalar h) /\
  eval feed (loss L) = Ok (Scalar (spec.total_loss p v b h)).
Proof.
  intros HL Hp Hv Hb He Hm Hbin Hlen Hh.
  apply create_losses_built in HL as (_ & heads & _ & Hbuilt).
  destruct Hbuilt as (_ & _ & _ & _ & _ & _ & Hloss).
  assert (Hent : eval feed (ReduceMean (DynamicPartition ent (mask self) 2 1))
                 = Ok (Scalar h)).
  { rewrite (eval_masked_mean_spec self feed ent ents ms) by assumption.
    rewrite Hh. reflexivity. }
  split; [exact Hent|].
  rewrite Hloss.
  change (eval feed (Sub ?a ?b))
    with (x ← eval feed a; y ← eval feed b; tf.elementwise (tf.total Rminus) x y).
  change (eval feed (Add ?a ?b))
    with (x ← eval feed a; y ← eval feed b; tf.elementwise (tf.total Rplus) x y).
  change (eval feed (Mul ?a ?b))
    with (x ← eval feed a; y ← eval feed b; tf.elementwise (tf.total Rmult) x y).
  rewrite Hent, Hp, Hv, Hb. cbn [eval]. tf_eval.
  unfold spec.total_loss. reflexivity.
Qed.

Lemma total_loss_formula_witness :
  exists L,
    create_losses example.self (log_probs example.self)
      (old_log_probs example.self) (value_heads example.self)
      (entropy example.self) example.beta example.epsilon example.lr
      example.max_step example.stream_names = Ok L /\
    eval example.feed (loss L)
    = Ok (Scalar (spec.total_loss (-1) 1 example.beta 1)).
Proof.
  destruct example_create_losses as [L HL]. exists L. split; [exact HL|].
  apply (total_loss_formula example.self example.feed
           (log_probs example.self) (old_log_probs example.self)
           (value_heads example.self) (entropy example.self) example.beta
           example.epsilon example.lr example.max_step example.stream_names L
           [1%R; 3%R] [1%Z; 0%Z] (-1) 1 example.beta 1 HL).
  - exact (example_policy_loss_eval L HL).
  - exact (example_value_loss_eval L HL).
  - exact example_decay_beta.
  - reflexivity.
  - reflexivity.
  - exact example_binary_mask.
  - reflexivity.
  - apply masked_mean_first.
Defined.

(** C4, as amended.  Each of the three schedules of [create_losses] (the
    learning rate with floor 1e-10, [decay_epsilon] with floor 0.1,
    [decay_beta] with floor 1e-5) is a linear decay in the global step, for a
    positive [max_step]: at step 0 it is the configured initial value, at
    step [max_step] it is exactly the floor, and when the floor is not above
    the initial value it does not increase with the step and is never below
    the floor. *)
Theorem schedules_decay_linearly (self : LearningModel)
    (probs old_probs : tensor) (value_streams : gmap string tensor)
    (ent : tensor) (beta epsilon lr max_step : R) (stream_names : list string)
    (L : Losses) :
  (0 < max_step)%R ->
  create_losses self probs old_probs value_streams ent beta epsilon lr max_step
    stream_names = Ok L ->
  learning_rate L = learning_rate_schedule self lr max_step /\
  linear_schedule self (learning_rate_schedule self lr max_step) lr 1e-10 max_step /\
  linear_schedule self (decay_epsilon self epsilon max_step) epsilon 0.1 max_step /\
  linear_schedule self (decay_beta self beta max_step) beta 1e-5 max_step.
Proof.
  intros Hmax HL.
  apply create_losses_built in HL as (_ & heads & _ & Hb).
  destruct Hb as (_ & _ & _ & Hlr & _).
  split; [exact Hlr|].
  repeat split; apply polynomial_decay_linear_schedule; exact Hmax.
Qed.

Lemma schedules_decay_linearly_witness :
  exists L,
    create_losses example.self (log_probs example.self)
      (old_log_probs example.self) (value_heads example.self)
      (entropy example.self) example.beta example.epsilon example.lr
      example.max_step example.stream_names = Ok L /\
    linear_schedule example.self
      (decay_epsilon example.self example.epsilon example.max_step)
      example.epsilon 0.1 example.max_step.
Proof.
  destruct example_create_losses as [L HL]. exists L. split; [exact HL|].
  apply (schedules_decay_linearly example.self
           (log_probs example.self) (old_log_probs example.self)
           (value_heads example.self) (entropy example.self) example.beta
           example.epsilon example.lr example.max_step example.stream_names L).
  - unfold example.max_step. lra.
  - exact HL.
Defined.

(** C4 as stated fails: an initial epsilon of 0.05 is below the floor 0.1,
    and at step 0 the schedule is the initial value. *)
Lemma small_epsilon_starts_below_floor :
  eval example.feed (decay_epsilon example.self 0.05 example.max_step)
    = Ok (Scalar 0.05) /\
  (0.05 < 0.1)%R.
Proof.
  split; [|lra].
  unfold decay_epsilon.
  rewrite (eval_polynomial_decay _ _ 0).
  - rewrite linear_decay_start; [reflexivity|]. unfold example.max_step. lra.
  - reflexivity.
  - unfold example.max_step. lra.
Qed.

(** C5.  Two batches with one 0/1 mask that agree at every timestep whose
    mask is 1 (in returns, value-head outputs, old value estimates,
    log-probabilities, advantages and entropy) and are evaluated at one
    value of the two schedules give the same value loss, the same policy
    loss, the same entropy term and the same total loss, whatever they hold
    at the timesteps whose mask is 0. *)
Theorem masked_timesteps_do_not_contribute (self : LearningModel)
    (feed1 feed2 : feed_dict) (probs old_probs : tensor)
    (value_streams : gmap string tensor) (ent : tensor)
    (beta epsilon lr max_step : R) (stream_names : list string) (L : Losses)
    (B1 B2 : batch) (e b : R) :
  create_losses self probs old_probs value_streams ent beta epsilon lr max_step
    stream_names = Ok L ->
  NoDup stream_names ->
  holds_batch self feed1 probs old_probs ent value_streams stream_names B1 ->
  holds_batch self feed2 probs old_probs ent value_streams stream_names B2 ->
  same_valid_timesteps stream_names B1 B2 ->
  eval feed1 (decay_epsilon self epsilon max_step) = Ok (Scalar e) ->
  eval feed2 (decay_epsilon self epsilon max_step) = Ok (Scalar e) ->
  eval feed1 (decay_beta self beta max_step) = Ok (Scalar b) ->
  eval feed2 (decay_beta self beta max_step) = Ok (Scalar b) ->
  eval feed1 (value_loss L) = eval feed2 (value_loss L) /\
  eval feed1 (policy_loss L) = eval feed2 (policy_loss L) /\
  eval feed1 (ReduceMean (DynamicPartition ent (mask self) 2 1))
    = eval feed2 (ReduceMean (DynamicPartition ent (mask self) 2 1)) /\
  eval feed1 (loss L) = eval feed2 (loss L).
Proof.
  intros HL _ H1 H2 Hsame He1 He2 Hb1 Hb2.
  destruct H1 as (Hm1 & Hp1 & Ho1 & Ha1 & Hh1 & Hs1).
  destruct H2 as (Hm2 & Hp2 & Ho2 & Ha2 & Hh2 & Hs2).
  destruct Hsame as (Hmask & Hbin & Hlp & Holp & Hadv & Hent & Hstr).
  rewrite <- Hmask in Hm2.
  set (ms := b_mask B1) in *.
  apply create_losses_built in HL as (_ & heads & Hheads & Hb).
  destruct Hb as (_ & _ & HadvL & _ & Hvl & Hpl & Hloss).
  assert (Hvalue : eval feed1 (value_loss L) = eval feed2 (value_loss L)).
  { rewrite Hvl.
    rewrite (eval_value_losses self feed1 _ value_streams stream_names
               (b_returns B1) (b_old_values B1) (b_values B1) ms e Hm1 Hbin He1).
    2:{ intros name head Hin Hhead.
        destruct (Hs1 name head Hin Hhead) as (? & ? & ?).
        destruct (Hstr name Hin) as ((? & _) & (? & _) & (? & _)). auto 10. }
    rewrite (eval_value_losses self feed2 _ value_streams stream_names
               (b_returns B2) (b_old_values B2) (b_values B2) ms e Hm2 Hbin He2).
    2:{ intros name head Hin Hhead.
        destruct (Hs2 name head Hin Hhead) as (? & ? & ?).
        destruct (Hstr name Hin) as ((_ & ? & _) & (_ & ? & _) & (_ & ? & _)).
        auto 10. }
    2,3: exact Hheads.
    f_equal. apply mapM_ext. intros name Hin.
    destruct (Hstr name Hin) as (Hv & Hr & Hov).
    f_equal. apply select_agree. apply agree_on_zip_with3; try assumption.
    apply agree_on_map. exact Hv. }
  assert (Hpolicy : eval feed1 (policy_loss L) = eval feed2 (policy_loss L)).
  { rewrite Hpl, HadvL.
    destruct Hlp as (? & ? & ?), Holp as (? & ? & ?), Hadv as (? & ? & ?).
    rewrite (eval_policy_loss_node self feed1 probs old_probs _
               (b_log_probs B1) (b_old_log_probs B1) (b_advantages B1) ms e)
      by assumption.
    rewrite (eval_policy_loss_node self feed2 probs old_probs _
               (b_log_probs B2) (b_old_log_probs B2) (b_advantages B2) ms e)
      by assumption.
    f_equal. f_equal. apply select_agree.
    apply agree_on_zip_with3; repeat split; assumption. }
  assert (Hentropy :
    eval feed1 (ReduceMean (DynamicPartition ent (mask self) 2 1))
    = eval feed2 (ReduceMean (DynamicPartition ent (mask self) 2 1))).
  { pose proof Hent as (? & ? & ?).
    rewrite (eval_masked_mean_vector self feed1 ent (b_entropy B1) ms)
      by assumption.
    rewrite (eval_masked_mean_vector self feed2 ent (b_entropy B2) ms)
      by assumption.
    f_equal. f_equal. apply select_agree. exact Hent. }
  repeat split; try assumption.
  rewrite Hloss.
  change (eval ?f (Sub ?x ?y))
    with (u ← eval f x; v ← eval f y; tf.elementwise (tf.total Rminus) u v).
  change (eval ?f (Add ?x ?y))
    with (u ← eval f x; v ← eval f y; tf.elementwise (tf.total Rplus) u v).
  change (eval ?f (Mul ?x ?y))
    with (u ← eval f x; v ← eval f y; tf.elementwise (tf.total Rmult) u v).
  rewrite Hvalue, Hpolicy, Hentropy, Hb1, Hb2. reflexivity.
Qed.

Lemma masked_timesteps_do_not_contribute_witness :
  exists L,
    create_losses example.self (log_probs example.self)
      (old_log_probs example.self) (value_heads example.self)
      (entropy example.self) example.beta example.epsilon example.lr
      example.max_step example.stream_names = Ok L /\
    eval example.feed (loss L) = eval example.feed' (loss L).
Proof.
  destruct example_create_losses as [L HL]. exists L. split; [exact HL|].
  apply (masked_timesteps_do_not_contribute example.self example.feed
           example.feed' (log_probs example.self) (old_log_probs example.self)
           (value_heads example.self) (entropy example.self) example.beta
           example.epsilon example.lr example.max_step example.stream_names L
           example.batch1 example.batch2 example.epsilon example.beta HL).
  - apply (bool_decide_unpack _). vm_compute. exact I.
  - exact example_holds_batch1.
  - exact example_holds_batch2.
  - exact example_same_valid_timesteps.
  - exact example_decay_epsilon.
  - apply example_schedules. reflexivity.
  - exact example_decay_beta.
  - apply example_schedules. reflexivity.
Defined.

(** C6.  For a clip radius [decay_epsilon >= 0], every entry of the clipped
    value estimate [V_old + clip(V - V_old, -decay_epsilon, decay_epsilon)]
    that [create_losses] builds lies in
    [[V_old - decay_epsilon, V_old + decay_epsilon]], whatever the current
    estimate [V] and the old estimate [V_old]. *)
Theorem clipped_value_estimate_in_range (feed : feed_dict)
    (old_value head deps : tensor) (volds : list R) (m : list (list R)) (e : R) :
  eval feed old_value = Ok (Vector volds) ->
  eval feed head = Ok (Matrix m) ->
  eval feed deps = Ok (Scalar e) ->
  length m = length volds ->
  (0 <= e)%R ->
  exists clipped,
    eval feed (clipped_value_estimate old_value head deps) = Ok (Vector clipped) /\
    length clipped = length volds /\
    forall i c v_old, clipped !! i = Some c -> volds !! i = Some v_old ->
      (v_old - e <= c <= v_old + e)%R.
Proof.
  intros Hold Hhead Hdeps Hlen He.
  exists (zip_with (spec.value_clipped e) (map sum_list m) volds).
  split; [|split].
  - apply eval_clipped_value_estimate; assumption.
  - rewrite length_zip_with, length_map. lia.
  - intros i c v_old Hc Hv.
    apply lookup_zip_with_Some in Hc as (v & v_old' & -> & _ & Hv').
    assert (v_old' = v_old) by congruence. subst v_old'.
    unfold spec.value_clipped, spec.clip.
    pose proof (Rmax_r (Rmin (v - v_old) e) (- e)).
    pose proof (Rmin_r (v - v_old) e).
    assert (Rmax (Rmin (v - v_old) e) (- e) <= e)%R by (apply Rmax_lub; lra).
    lra.
Qed.

Lemma clipped_value_estimate_in_range_witness :
  exists clipped,
    eval example.feed
      (clipped_value_estimate (old_value_placeholder "extrinsic")
         (Placeholder float32 [None; Some 1%nat] "extrinsic_value")
         (decay_epsilon example.self example.epsilon example.max_step))
    = Ok (Vector clipped) /\
    length clipped = length [1%R; 4%R] /\
    forall i c v_old, clipped !! i = Some c -> [1%R; 4%R] !! i = Some v_old ->
      (v_old - example.epsilon <= c <= v_old + example.epsilon)%R.
Proof.
  apply (clipped_value_estimate_in_range example.feed
           (old_value_placeholder "extrinsic")
           (Placeholder float32 [None; Some 1%nat] "extrinsic_value")
           (decay_epsilon example.self example.epsilon example.max_step)
           [1%R; 4%R] [[1%R]; [5%R]] example.epsilon).
  - reflexivity.
  - reflexivity.
  - exact example_decay_epsilon.
  - reflexivity.
  - unfold example.epsilon. lra.
Defined.

(** C7, as amended.  When the length of [stream_names] is the number of
    value streams, the stream names are distinct and [create_losses]
    returns, every stream name has exactly one value head, one returns
    placeholder and one old-value placeholder, matched by list index: there
    are as many placeholders of each kind and as many per-stream loss terms
    as names, no placeholder occurs twice, the [i]-th placeholders are named
    after [stream_names[i]], and the [i]-th loss term pairs them with the
    value head stored under [stream_names[i]]. *)
Theorem streams_matched_by_index (self : LearningModel)
    (probs old_probs : tensor) (value_streams : gmap string tensor)
    (ent : tensor) (beta epsilon lr max_step : R) (stream_names : list string)
    (L : Losses) :
  size value_streams = length stream_names ->
  NoDup stream_names ->
  create_losses self probs old_probs value_streams ent beta epsilon lr max_step
    stream_names = Ok L ->
  exists value_losses,
    value_loss L = ReduceMean (Stack value_losses) /\
    length (returns_holders L) = length stream_names /\
    length (old_values L) = length stream_names /\
    length value_losses = length stream_names /\
    NoDup (returns_holders L) /\
    NoDup (old_values L) /\
    forall i name, stream_names !! i = Some name ->
      exists head,
        value_streams !! name = Some head /\
        returns_holders L !! i = Some (Placeholder float32 [None] (name +:+ "_returns")) /\
        old_values L !! i = Some (Placeholder float32 [None] (name +:+ "_value_estimate")) /\
        value_losses !! i =
          Some (stream_value_loss self
                  (Placeholder float32 [None] (name +:+ "_returns"))
                  (Placeholder float32 [None] (name +:+ "_value_estimate"))
                  head (decay_epsilon self epsilon max_step)).
Proof.
  intros Hsize Hnd HL.
  apply create_losses_built in HL as (_ & heads & Hheads & Hb).
  destruct Hb as (Hrh & Hov & _ & _ & Hvl & _).
  eexists. split; [exact Hvl|].
  rewrite Hrh, Hov, !length_map, length_zip_with.
  pose proof (Forall2_length _ _ _ Hheads) as Hlen.
  split; [reflexivity|]. split; [reflexivity|]. split; [lia|].
  split; [apply NoDup_fmap_2; [exact returns_placeholder_inj|exact Hnd]|].
  split; [apply NoDup_fmap_2; [exact old_value_placeholder_inj|exact Hnd]|].
  intros i name Hi.
  destruct (Forall2_lookup_l _ _ _ _ _ Hheads Hi) as (head & Hhi & Hhead).
  exists head. split; [exact Hhead|].
  rewrite !list_lookup_fmap, Hi. split; [reflexivity|]. split; [reflexivity|].
  apply lookup_zip_with_Some. exists name, head. auto.
Qed.

Lemma streams_matched_by_index_witness :
  exists L value_losses,
    create_losses example.self (log_probs example.self)
      (old_log_probs example.self) (value_heads example.self)
      (entropy example.self) example.beta example.epsilon example.lr
      example.max_step example.stream_names = Ok L /\
    value_loss L = ReduceMean (Stack value_losses) /\
    length (returns_holders L) = 2 /\
    length (old_values L) = 2 /\
    length value_losses = 2.
Proof.
  assert (Hnd : NoDup example.stream_names)
    by (apply (bool_decide_unpack _); reflexivity).
  eexists.
  edestruct (streams_matched_by_index example.self (log_probs example.self)
               (old_log_probs example.self) (value_heads example.self)
               (entropy example.self) example.beta example.epsilon example.lr
               example.max_step example.stream_names _ eq_refl Hnd eq_refl)
    as (vls & Hvl & H1 & H2 & H3 & _).
  exists vls. split; [reflexivity|]. auto.
Defined.

(** C7 as stated fails: the lengths agree, but the only value head is stored
    under another name, and [value_streams[name]] raises. *)
Lemma missing_head_raises_KeyError :
  size example.other_streams = length ["extrinsic"] /\
  create_losses example.self (log_probs example.self)
    (old_log_probs example.self) example.other_streams
    (entropy example.self) example.beta example.epsilon example.lr
    example.max_step ["extrinsic"] = Err (KeyError "extrinsic").
Proof. split; reflexivity. Qed.

(** C8.  For every name that is none of the registry keys [extrinsic],
    [curiosity], [gail], [create_reward_signal] raises
    [UnityTrainerException] with the message "Unknown reward signal type "
    followed by the name, and makes no call: neither [check_config] nor the
    constructor is invoked, so no instance is built. *)
Theorem unknown_name_is_rejected (Policy Config RewardSignal : Type)
    (check_config : reward_signal_factory.reward_signal_class -> Config -> result unit)
    (construct : reward_signal_factory.reward_signal_class -> Policy -> Config -> result RewardSignal)
    (policy : Policy) (name : string) (config_entry : Config) :
  name <> "extrinsic" -> name <> "curiosity" -> name <> "gail" ->
  reward_signal_factory.create_reward_signal Policy Config RewardSignal check_config construct
    policy name config_entry
  = ([], Err (UnityTrainerException ("Unknown reward signal type " +:+ name))).
Proof.
  intros H1 H2 H3. unfold reward_signal_factory.create_reward_signal.
  assert (Hnone : reward_signal_factory.NAME_TO_CLASS !! name = None) by (apply registry_keys; auto).
  rewrite Hnone. reflexivity.
Qed.

Lemma unknown_name_is_rejected_witness :
  reward_signal_factory.create_reward_signal unit (list string)
    reward_signal_factory.reward_signal_class example.check_config
    example.construct tt "rnd" ["strength"; "gamma"]
  = ([], Err (UnityTrainerException "Unknown reward signal type rnd")).
Proof.
  apply (unknown_name_is_rejected unit (list string)
           reward_signal_factory.reward_signal_class example.check_config
           example.construct tt "rnd" ["strength"; "gamma"]);
    discriminate.
Defined.

(** C9.  For every name of the registry, if [check_config] accepts the entry
    and the constructor of the class, called with the policy and the fields
    of [config_entry], raises [TypeError], then [create_reward_signal] raises
    [UnityTrainerException] with the message "Unknown parameters given for
    reward signal " followed by the name, not the [TypeError]. *)
Theorem constructor_TypeError_is_translated (Policy Config RewardSignal : Type)
    (check_config : reward_signal_factory.reward_signal_class -> Config -> result unit)
    (construct : reward_signal_factory.reward_signal_class -> Policy -> Config -> result RewardSignal)
    (policy : Policy) (name : string) (config_entry : Config)
    (rcls : reward_signal_factory.reward_signal_class) :
  reward_signal_factory.NAME_TO_CLASS !! name = Some rcls ->
  check_config rcls config_entry = Ok tt ->
  construct rcls policy config_entry = Err TypeError ->
  reward_signal_factory.create_reward_signal Policy Config RewardSignal check_config construct
    policy name config_entry
  = ([reward_signal_factory.CallCheckConfig Policy Config rcls config_entry;
      reward_signal_factory.CallConstructor Policy Config rcls policy config_entry],
     Err (UnityTrainerException
            ("Unknown parameters given for reward signal " +:+ name))).
Proof.
  intros Hcls Hcheck Hctor. unfold reward_signal_factory.create_reward_signal.
  rewrite Hcls. unfold reward_signal_factory.invoke, reward_signal_factory.tbind, reward_signal_factory.try_except_TypeError, reward_signal_factory.raise, reward_signal_factory.tret.
  rewrite Hcheck, Hctor. reflexivity.
Qed.

Lemma constructor_TypeError_is_translated_witness :
  reward_signal_factory.create_reward_signal unit (list string)
    reward_signal_factory.reward_signal_class example.check_config
    example.construct tt "extrinsic" ["strength"; "encoding_size"]
  = ([reward_signal_factory.CallCheckConfig unit (list string)
        reward_signal_factory.ExtrinsicSignal ["strength"; "encoding_size"];
      reward_signal_factory.CallConstructor unit (list string)
        reward_signal_factory.ExtrinsicSignal tt ["strength"; "encoding_size"]],
     Err (UnityTrainerException
            "Unknown parameters given for reward signal extrinsic")).
Proof.
  apply (constructor_TypeError_is_translated unit (list string)
           reward_signal_factory.reward_signal_class example.check_config
           example.construct tt "extrinsic" ["strength"; "encoding_size"]
           reward_signal_factory.ExtrinsicSignal); reflexivity.
Defined.

(** C10.  [PPOModel.__init__] called with [stream_names = None] does what it
    does with the empty list: the results are equal.  The base class is
    initialised with the empty list: [__init__] returns a model only if the
    base initialiser, called with the empty list, returned; an exception the
    base initialiser raises on the empty list is the outcome of [__init__];
    and swapping the base initialiser for one that agrees with it on the
    empty list changes nothing.  A model so built has no returns placeholder
    and no old-value placeholder. *)
Theorem default_stream_names_are_empty (Brain : Type)
    (vector_action_space_type : Brain -> string)
    (LearningModel_init :
       option Z -> bool -> bool -> Brain -> Z -> list string -> result LearningModel)
    (create_cc_actor_critic create_dc_actor_critic :
       LearningModel -> Z -> Z -> result LearningModel)
    (brain : Brain) (lr : R) (h_size : Z) (epsilon beta max_step : R)
    (normalize use_recurrent : bool) (num_layers : Z) (m_size : option Z)
    (seed : Z) :
  let init names :=
    PPOModel_init Brain vector_action_space_type LearningModel_init
      create_cc_actor_critic create_dc_actor_critic brain lr h_size epsilon beta
      max_step normalize use_recurrent num_layers m_size seed names in
  init None = init (Some []) /\
  (forall M, init None = Ok M ->
     returns_holders (losses M) = [] /\ old_values (losses M) = []) /\
  (forall M, init None = Ok M ->
     exists self0,
       LearningModel_init m_size normalize use_recurrent brain seed [] = Ok self0) /\
  (forall e,
     LearningModel_init m_size normalize use_recurrent brain seed [] = Err e ->
     init None = Err e) /\
  (forall LearningModel_init',
     LearningModel_init' m_size normalize use_recurrent brain seed []
       = LearningModel_init m_size normalize use_recurrent brain seed [] ->
     PPOModel_init Brain vector_action_space_type LearningModel_init'
       create_cc_actor_critic create_dc_actor_critic brain lr h_size epsilon beta
       max_step normalize use_recurrent num_layers m_size seed None
     = init None).
Proof.
  intros init. split; [reflexivity|]. split; [|split; [|split]].
  - intros M. unfold init, PPOModel_init.
    destruct (LearningModel_init _ _ _ _ _ _) as [self0|e];
      cbn [mbind result_bind]; [|discriminate].
    cbn [create_reward_encoder].
    destruct (if String.eqb _ _ then _ else _) as [self1|e];
      cbn [mbind result_bind]; [|discriminate].
    destruct (create_losses _ _ _ _ _ _ _ _ _ _) as [L|e] eqn:HL;
      cbn [mbind result_bind]; [|discriminate].
    intros [= <-]. cbn [losses].
    apply create_losses_built in HL as (_ & heads & _ & Hb).
    destruct Hb as (Hrh & Hov & _). rewrite Hrh, Hov. split; reflexivity.
  - intros M. unfold init, PPOModel_init.
    destruct (LearningModel_init _ _ _ _ _ _) as [self0|e];
      cbn [mbind result_bind]; [|discriminate].
    intros _. exists self0. reflexivity.
  - intros e He. unfold init, PPOModel_init. rewrite He. reflexivity.
  - intros LMI' Heq. unfold init, PPOModel_init. rewrite Heq. reflexivity.
Qed.

Lemma default_stream_names_are_empty_witness :
  exists M,
    PPOModel_init string (fun brain => brain) example.LearningModel_init
      example.create_actor_critic example.create_actor_critic "continuous"
      example.lr 128 example.epsilon example.beta example.max_step false false
      2 None 0 None = Ok M /\
    returns_holders (losses M) = [] /\ old_values (losses M) = [] /\
    exists self0, example.LearningModel_init None false false "continuous" 0 [] = Ok self0.
Proof.
  eexists. split; [reflexivity|].
  destruct (default_stream_names_are_empty string (fun brain => brain)
              example.LearningModel_init
              example.create_actor_critic example.create_actor_critic
              "continuous" example.lr 128 example.epsilon example.beta
              example.max_step false false 2 None 0)
    as (_ & Hlists & Hbase & _).
  destruct (Hlists _ eq_refl) as [Hrh Hov].
  split; [exact Hrh|]. split; [exact Hov|].
  exact (Hbase _ eq_refl).
Defined.

(** * Further properties of the code *)

(** ** When [create_losses] raises *)

Lemma mapM_first_error {A B : Type} (g : A -> result B) (l : list A)
    (i : nat) (x : A) (e : exn) :
  l !! i = Some x -> g x = Err e ->
  (forall j a, j < i -> l !! j = Some a -> exists b, g a = Ok b) ->
  mapM g l = Err e.
Proof.
  revert i. induction l as [|a l IH]; intros i Hi Hx Hbefore; [discriminate|].
  destruct i as [|i]; simpl in *.
  - injection Hi as ->. rewrite Hx. reflexivity.
  - assert (exists b, g a = Ok b) as [b Hb].
    { apply (Hbefore 0 a); [lia|reflexivity]. }
    rewrite Hb. cbn [mbind result_bind].
    rewrite (IH i Hi Hx); [reflexivity|].
    intros j a' Hj Ha'. apply (Hbefore (S j) a'); [lia|exact Ha'].
Qed.

Lemma placeholders_at_invalid (names : list string) (i : nat) (name : string) :
  names !! i = Some name -> placeholder_names_valid name = false ->
  placeholders_at names i = Err ValueError.
Proof.
  intros Hi Hv. unfold placeholders_at, getitem, tflib.placeholder.
  unfold placeholder_names_valid in Hv. rewrite Hi. cbn [mbind result_bind].
  destruct (tflib.valid_op_name (format_returns name));
    cbn [mbind result_bind]; [|reflexivity].
  cbn [andb] in Hv. rewrite Hv. reflexivity.
Qed.

Lemma placeholders_at_IndexError (names : list string) (i : nat) :
  length names <= i -> placeholders_at names i = Err IndexError.
Proof.
  intros Hi. unfold placeholders_at, getitem.
  rewrite (lookup_ge_None_2 names i) by lia. reflexivity.
Qed.

Section loops.
Variables (self : LearningModel) (probs old_probs : tensor).
Variables (value_streams : gmap string tensor) (ent : tensor).
Variables (beta epsilon lr max_step : R) (stream_names : list string).

Lemma create_losses_loops :
  create_losses self probs old_probs value_streams ent beta epsilon lr max_step
    stream_names
  = (ps ← mapM (placeholders_at stream_names) (seq 0 (size value_streams));
     vls ← mapM (value_loss_at self value_streams (map fst ps) (map snd ps)
                   (decay_epsilon self epsilon max_step))
                (enumerate stream_names);
     create_losses self probs old_probs value_streams ent beta epsilon lr max_step
       stream_names).
Proof.
  unfold create_losses at 1. rewrite placeholders_fold.
  destruct (mapM (placeholders_at stream_names) _) as [ps|e] eqn:E1;
    cbn [mbind result_bind app]; [|reflexivity].
  unfold value_loss_step. rewrite foldM_append.
  destruct (mapM _ (enumerate stream_names)) as [vls|e] eqn:E2;
    cbn [mbind result_bind app]; [|reflexivity].
  unfold create_losses. rewrite placeholders_fold, E1.
  cbn [mbind result_bind app]. unfold value_loss_step. rewrite foldM_append, E2.
  reflexivity.
Qed.

(** The first loop stops at the first index whose iteration raises. *)
Lemma first_loop_raises (i : nat) (e : exn) :
  i < size value_streams ->
  placeholders_at stream_names i = Err e ->
  (forall j name, j < i -> stream_names !! j = Some name ->
     placeholder_names_valid name = true) ->
  i <= length stream_names ->
  create_losses self probs old_probs value_streams ent beta epsilon lr max_step
    stream_names = Err e.
Proof.
  intros Hi He Hbefore Hle. rewrite create_losses_loops.
  rewrite (mapM_first_error _ _ i i e); [reflexivity| |exact He|].
  - apply lookup_seq. split; [reflexivity|exact Hi].
  - intros j a Hj Ha. apply lookup_seq in Ha as [-> _]. simpl.
    destruct (lookup_lt_is_Some_2 stream_names j) as [name Hname]; [lia|].
    eexists. apply (placeholders_at_valid _ _ name Hname).
    exact (Hbefore j name Hj Hname).
Qed.
End loops.

(** X1.  [create_losses] returns only if [value_streams] has as many
    entries as [stream_names] has names, every stream name is one of its
    keys, and TensorFlow accepts the two placeholder names of every stream:
    the stream name is not empty, starts with a letter, a digit or a dot and
    has no character outside letters, digits, dots, underscores, hyphens and
    slashes. *)
Theorem create_losses_returns_only_if (self : LearningModel)
    (probs old_probs : tensor) (value_streams : gmap string tensor)
    (ent : tensor) (beta epsilon lr max_step : R) (stream_names : list string)
    (L : Losses) :
  create_losses self probs old_probs value_streams ent beta epsilon lr
    max_step stream_names = Ok L ->
  size value_streams = length stream_names /\
  forall name, name ∈ stream_names ->
    is_Some (value_streams !! name) /\
    tflib.valid_op_name (name +:+ "_returns") = true /\
    tflib.valid_op_name (name +:+ "_value_estimate") = true /\
    stream_name_ok name = true.
Proof.
  intros HL.
  destruct (create_losses_Ok_inv _ _ _ _ _ _ _ _ _ _ L HL)
    as (Hsize & Hvalid & heads & Hheads).
  split; [exact Hsize|]. intros name Hin.
  pose proof (Hvalid name Hin) as Hv.
  split.
  - apply list_elem_of_lookup in Hin as [i Hi].
    destruct (Forall2_lookup_l _ _ _ _ _ Hheads Hi) as (head & _ & Hhead). eauto.
  - rewrite <- placeholder_names_valid_stream_name_ok, Hv.
    unfold placeholder_names_valid in Hv.
    apply andb_true_iff in Hv as [Hr Ho]. auto.
Qed.

(** X2.  When [value_streams] has more entries than [stream_names] has
    names, and TensorFlow accepts the placeholder names of the streams,
    [create_losses] raises [IndexError], from [stream_names[i]] in the first
    loop (line 72).  When [value_streams] is empty and [stream_names] is not,
    it raises [IndexError] as well, from [self.old_values[0]] in the second
    loop (line 87). *)
Theorem mismatched_lengths_raise_IndexError (self : LearningModel)
    (probs old_probs : tensor) (value_streams : gmap string tensor)
    (ent : tensor) (beta epsilon lr max_step : R) (stream_names : list string) :
  (length stream_names < size value_streams /\
   forall name, name ∈ stream_names -> placeholder_names_valid name = true)
  \/ (size value_streams = 0 /\ stream_names <> []) ->
  create_losses self probs old_probs value_streams ent beta epsilon lr max_step
    stream_names = Err IndexError.
Proof.
  intros [[Hgt Hvalid] | [Hzero Hne]].
  - apply (first_loop_raises _ _ _ _ _ _ _ _ _ _ (length stream_names));
      [exact Hgt| |intros j name _ Hj|lia].
    + apply placeholders_at_IndexError. lia.
    + apply Hvalid. apply list_elem_of_lookup. eauto.
  - destruct stream_names as [|name names]; [contradiction|].
    unfold create_losses. rewrite Hzero. reflexivity.
Qed.

(** X3.  When there is a value stream and a placeholder pair for the first
    stream name, but [value_streams] has no entry under that name,
    [create_losses] raises [KeyError] for the name, from
    [value_streams[name]] in the first iteration of the second loop
    (line 88). *)
Theorem missing_first_head_raises_KeyError (self : LearningModel)
    (probs old_probs : tensor) (value_streams : gmap string tensor)
    (ent : tensor) (beta epsilon lr max_step : R) (stream_names : list string)
    (name : string) :
  0 < size value_streams <= length stream_names ->
  (forall name, name ∈ take (size value_streams) stream_names ->
     placeholder_names_valid name = true) ->
  stream_names !! 0 = Some name ->
  value_streams !! name = None ->
  create_losses self probs old_probs value_streams ent beta epsilon lr max_step
    stream_names = Err (KeyError name).
Proof.
  intros [Hpos Hle] Hvalid Hname Hmiss. rewrite create_losses_loops.
  rewrite placeholders_at_seq by (rewrite ?drop_0; auto with lia).
  rewrite drop_0. cbn [mbind result_bind]. rewrite !map_map. cbn [fst snd].
  rewrite (mapM_first_error _ _ 0 (0, name) (KeyError name)); [reflexivity| | |].
  - apply lookup_enumerate_index. exact Hname.
  - unfold value_loss_at, getitem, dict_getitem. rewrite !list_lookup_fmap.
    destruct (lookup_lt_is_Some_2 (take (size value_streams) stream_names) 0)
      as [n Hn]; [rewrite length_take; lia|].
    rewrite Hn, Hmiss. reflexivity.
  - intros j a Hj. lia.
Qed.

(** X24.  When a stream name for which the first loop creates placeholders
    is one TensorFlow does not accept in a placeholder name (and the names
    before it are accepted), [create_losses] raises [ValueError], from
    [tf.placeholder] (line 71). *)
Theorem invalid_stream_name_raises_ValueError (self : LearningModel)
    (probs old_probs : tensor) (value_streams : gmap string tensor)
    (ent : tensor) (beta epsilon lr max_step : R) (stream_names : list string)
    (i : nat) (name : string) :
  i < size value_streams ->
  stream_names !! i = Some name ->
  placeholder_names_valid name = false ->
  (forall j n, j < i -> stream_names !! j = Some n ->
     placeholder_names_valid n = true) ->
  create_losses self probs old_probs value_streams ent beta epsilon lr max_step
    stream_names = Err ValueError.
Proof.
  intros Hi Hname Hinvalid Hbefore.
  apply (first_loop_raises _ _ _ _ _ _ _ _ _ _ i);
    [exact Hi| |exact Hbefore|].
  - exact (placeholders_at_invalid _ _ _ Hname Hinvalid).
  - apply lookup_lt_Some in Hname. lia.
Qed.

(** The hypotheses of a batch, unpacked for one stream. *)
Lemma batch_streams (self : LearningModel) (feed : feed_dict)
    (probs old_probs ent : tensor) (value_streams : gmap string tensor)
    (stream_names : list string) (B : batch) :
  holds_batch self feed probs old_probs ent value_streams stream_names B ->
  batch_shaped stream_names B ->
  forall name head,
    name ∈ stream_names -> value_streams !! name = Some head ->
    eval feed head = Ok (Matrix (b_values B name)) /\
    feed !! format_returns name = Some (Vector (b_returns B name)) /\
    feed !! format_value_estimate name = Some (Vector (b_old_values B name)) /\
    length (b_values B name) = length (b_mask B) /\
    length (b_returns B name) = length (b_mask B) /\
    length (b_old_values B name) = length (b_mask B).
Proof.
  intros (_ & _ & _ & _ & _ & Hs) (_ & _ & _ & _ & Hl) name head Hin Hhead.
  destruct (Hs name head Hin Hhead) as (? & ? & ?).
  destruct (Hl name Hin) as (? & ? & ?). auto 10.
Qed.

Lemma masked_mean_no_valid_timestep (xs : list R) (ms : list Z) :
  Forall (fun m => m = 0%Z) ms -> spec.masked_mean xs ms = Err NonReal.
Proof.
  intros Hms. unfold spec.masked_mean.
  assert (Hz : sum_list (map IZR ms) = 0%R).
  { induction Hms as [|m ms -> _ IH]; simpl; [reflexivity|]. rewrite IH. lra. }
  rewrite Hz. destruct (Req_dec_T 0 0) as [_|H]; [reflexivity|exfalso; lra].
Qed.

Lemma all_zero_binary (ms : list Z) :
  Forall (fun m => m = 0%Z) ms -> binary_mask ms.
Proof.
  unfold binary_mask. intros H. eapply Forall_impl; [exact H|]. auto.
Qed.

Lemma value_loss_no_valid_timestep (eps : R)
    (streams : list (list R * list R * list R)) (ms : list Z) :
  Forall (fun m => m = 0%Z) ms -> spec.value_loss eps streams ms = Err NonReal.
Proof.
  intros Hms. unfold spec.value_loss. destruct streams as [|s streams].
  - reflexivity.
  - cbn [mapM]. cbv beta. unfold spec.stream_value_loss.
    rewrite masked_mean_no_valid_timestep by exact Hms. reflexivity.
Qed.

Lemma eval_loss_parts (self : LearningModel) (feed : feed_dict)
    (probs old_probs : tensor) (value_streams : gmap string tensor)
    (ent : tensor) (beta epsilon lr max_step : R) (stream_names : list string)
    (L : Losses) :
  create_losses self probs old_probs value_streams ent beta epsilon lr max_step
    stream_names = Ok L ->
  eval feed (loss L)
  = (p ← eval feed (policy_loss L);
     v ← eval feed (value_loss L);
     pv ← (hv ← tf.elementwise (tf.total Rmult) (Scalar 0.5) v;
           tf.elementwise (tf.total Rplus) p hv);
     b ← eval feed (decay_beta self beta max_step);
     h ← eval feed (ReduceMean (DynamicPartition ent (mask self) 2 1));
     bh ← tf.elementwise (tf.total Rmult) b h;
     tf.elementwise (tf.total Rminus) pv bh).
Proof.
  intros HL.
  apply create_losses_built in HL as (_ & heads & _ & Hb).
  destruct Hb as (_ & _ & _ & _ & _ & _ & Hloss).
  rewrite Hloss.
  change (eval feed (Sub ?a ?b))
    with (x ← eval feed a; y ← eval feed b; tf.elementwise (tf.total Rminus) x y).
  change (eval feed (Add ?a ?b))
    with (x ← eval feed a; y ← eval feed b; tf.elementwise (tf.total Rplus) x y).
  change (eval feed (Mul ?a ?b))
    with (x ← eval feed a; y ← eval feed b; tf.elementwise (tf.total Rmult) x y).
  change (eval feed (Const 0.5)) with (Ok (Scalar 0.5)).
  destruct (eval feed (policy_loss L)) as [p|?]; [|reflexivity].
  destruct (eval feed (value_loss L)) as [v|?]; [|reflexivity].
  cbn [mbind result_bind].
  destruct (tf.elementwise (tf.total Rmult) (Scalar 0.5) v) as [hv|?];
    [|reflexivity].
  cbn [mbind result_bind].
  destruct (tf.elementwise (tf.total Rplus) p hv) as [pv|?]; [|reflexivity].
  cbn [mbind result_bind].
  destruct (eval feed (decay_beta self beta max_step)) as [b|?]; [|reflexivity].
  cbn [mbind result_bind].
  destruct (eval feed (ReduceMean _)) as [h|?]; [|reflexivity].
  cbn [mbind result_bind].
  destruct (tf.elementwise (tf.total Rmult) b h); reflexivity.
Qed.

(** X4.  With no stream names, [create_losses] builds the value loss as
    the mean of an empty list: it evaluates to no real number (NaN) on every
    feed, and the total loss never evaluates to a number. *)
Theorem no_streams_no_value_loss (self : LearningModel)
    (probs old_probs : tensor) (value_streams : gmap string tensor)
    (ent : tensor) (beta epsilon lr max_step : R) (L : Losses)
    (feed : feed_dict) :
  create_losses self probs old_probs value_streams ent beta epsilon lr max_step
    [] = Ok L ->
  value_loss L = ReduceMean (Stack []) /\
  eval feed (value_loss L) = Err NonReal /\
  forall v, eval feed (loss L) <> Ok v.
Proof.
  intros HL.
  pose proof (eval_loss_parts self feed _ _ _ _ _ _ _ _ _ L HL) as Hloss.
  apply create_losses_built in HL as (_ & heads & Hheads & Hb).
  destruct Hb as (_ & _ & _ & _ & Hvl & _).
  inversion Hheads; subst. cbn [zip_with] in Hvl.
  assert (Hv : eval feed (value_loss L) = Err NonReal) by (rewrite Hvl; reflexivity).
  split; [exact Hvl|]. split; [exact Hv|].
  intros v. rewrite Hloss, Hv.
  destruct (eval feed (policy_loss L)); discriminate.
Qed.

(** X5.  On a batch whose mask is 0 at every timestep, the policy loss, the
    value loss, the entropy term and the total loss are means of nothing:
    none of them evaluates to a real number (NaN). *)
Theorem no_valid_timestep_no_loss (self : LearningModel) (feed : feed_dict)
    (probs old_probs : tensor) (value_streams : gmap string tensor)
    (ent : tensor) (beta epsilon lr max_step : R) (stream_names : list string)
    (L : Losses) (B : batch) (e : R) :
  create_losses self probs old_probs value_streams ent beta epsilon lr max_step
    stream_names = Ok L ->
  holds_batch self feed probs old_probs ent value_streams stream_names B ->
  batch_shaped stream_names B ->
  Forall (fun m => m = 0%Z) (b_mask B) ->
  eval feed (decay_epsilon self epsilon max_step) = Ok (Scalar e) ->
  eval feed (policy_loss L) = Err NonReal /\
  eval feed (value_loss L) = Err NonReal /\
  eval feed (ReduceMean (DynamicPartition ent (mask self) 2 1)) = Err NonReal /\
  eval feed (loss L) = Err NonReal.
Proof.
  intros HL Hholds Hshape Hzero He.
  pose proof (all_zero_binary _ Hzero) as Hbin.
  pose proof (batch_streams _ _ _ _ _ _ _ _ Hholds Hshape) as Hstreams.
  destruct Hholds as (Hm & Hp & Ho & Ha & Hh & _).
  destruct Hshape as (H1 & H2 & H3 & H4 & _).
  assert (Hpol : eval feed (policy_loss L) = Err NonReal).
  { rewrite (eval_policy_loss_spec self feed probs old_probs value_streams ent
               beta epsilon lr max_step stream_names L _ _ _ _ e
               HL Hp Ho Ha Hm He Hbin H1 H2 H3).
    unfold spec.policy_loss.
    rewrite masked_mean_no_valid_timestep by exact Hzero. reflexivity. }
  split; [exact Hpol|]. split; [|split].
  - rewrite (eval_value_loss_spec self feed probs old_probs value_streams ent
               beta epsilon lr max_step stream_names L _ _ _ _ e
               HL Hm Hbin He Hstreams).
    rewrite value_loss_no_valid_timestep by exact Hzero. reflexivity.
  - rewrite (eval_masked_mean_spec self feed ent _ _ Hh Hm Hbin H4).
    rewrite masked_mean_no_valid_timestep by exact Hzero. reflexivity.
  - rewrite (eval_loss_parts self feed _ _ _ _ _ _ _ _ _ L HL), Hpol.
    reflexivity.
Qed.

(** ** Bounds on the losses *)

Lemma count_nonneg (ms : list Z) :
  binary_mask ms -> (0 <= sum_list (map IZR ms))%R.
Proof.
  unfold binary_mask. induction 1 as [|m ms Hm _ IH]; simpl; [lra|].
  destruct Hm as [-> | ->]; lra.
Qed.

Lemma weighted_sum_le (ms : list Z) (xs ys : list R) :
  binary_mask ms -> Forall2 Rle xs ys ->
  (sum_list (zip_with Rmult (map IZR ms) xs)
   <= sum_list (zip_with Rmult (map IZR ms) ys))%R.
Proof.
  intros Hms Hle. revert ms Hms.
  induction Hle as [|x y xs ys Hxy _ IH]; intros [|m ms] Hms; simpl; try lra.
  inversion Hms as [|? ? Hm Hms']; subst. specialize (IH ms Hms').
  destruct Hm as [-> | ->]; lra.
Qed.

Lemma masked_mean_le (ms : list Z) (xs ys : list R) (a b : R) :
  binary_mask ms -> Forall2 Rle xs ys ->
  spec.masked_mean xs ms = Ok a -> spec.masked_mean ys ms = Ok b ->
  (a <= b)%R.
Proof.
  intros Hms Hle. unfold spec.masked_mean.
  pose proof (count_nonneg ms Hms) as Hc.
  pose proof (weighted_sum_le ms xs ys Hms Hle) as Hs.
  destruct (Req_dec_T _ _) as [|Hne]; [discriminate|].
  intros [= <-] [= <-].
  apply Rmult_le_compat_r; [|exact Hs].
  left. apply Rinv_0_lt_compat. lra.
Qed.

Lemma masked_mean_defined (ms : list Z) (xs ys : list R) (a : R) :
  spec.masked_mean xs ms = Ok a -> exists b, spec.masked_mean ys ms = Ok b.
Proof.
  unfold spec.masked_mean. destruct (Req_dec_T _ _); [discriminate|]. eauto.
Qed.

Lemma masked_mean_nonneg (ms : list Z) (xs : list R) (a : R) :
  binary_mask ms -> Forall (Rle 0) xs ->
  spec.masked_mean xs ms = Ok a -> (0 <= a)%R.
Proof.
  intros Hms Hxs Ha.
  destruct (masked_mean_defined ms xs (map (fun _ => 0%R) xs) a Ha) as [z Hz].
  assert (Hzero : z = 0%R).
  { revert Hz. unfold spec.masked_mean.
    destruct (Req_dec_T _ _); [discriminate|]. intros [= <-].
    assert (Hsum : forall ws, sum_list (zip_with Rmult ws (map (fun _ => 0%R) xs))
                              = 0%R).
    { clear. induction xs as [|x xs IH]; intros [|w ws]; simpl; try reflexivity.
      rewrite IH. lra. }
    rewrite Hsum. unfold Rdiv. apply Rmult_0_l. }
  subst z.
  apply (masked_mean_le ms (map (fun _ => 0%R) xs) xs 0 a Hms); try assumption.
  clear -Hxs. induction Hxs as [|x xs Hx _ IH]; simpl; constructor; assumption.
Qed.

Lemma zip_with3_le {A B C : Type} (f g : A -> B -> C -> R)
    (l1 : list A) (l2 : list B) (l3 : list C) :
  (forall a b c, (f a b c <= g a b c)%R) ->
  Forall2 Rle (spec.zip_with3 f l1 l2 l3) (spec.zip_with3 g l1 l2 l3).
Proof.
  intros Hfg. revert l2 l3.
  induction l1 as [|a l1 IH]; intros [|b l2] [|c l3]; simpl; constructor; auto.
Qed.

Lemma zip_with3_nonneg {A B C : Type} (f : A -> B -> C -> R)
    (l1 : list A) (l2 : list B) (l3 : list C) :
  (forall a b c, (0 <= f a b c)%R) ->
  Forall (Rle 0) (spec.zip_with3 f l1 l2 l3).
Proof.
  intros Hf. revert l2 l3.
  induction l1 as [|a l1 IH]; intros [|b l2] [|c l3]; simpl; constructor; auto.
Qed.

Lemma value_error_nonneg (eps ret v v_old : R) :
  (0 <= spec.value_error eps ret v v_old)%R.
Proof.
  unfold spec.value_error.
  apply Rle_trans with ((ret - v) ^ 2)%R; [|apply Rmax_l].
  apply pow2_ge_0.
Qed.

Lemma value_error_ge_squared_error (eps ret v v_old : R) :
  ((ret - v) ^ 2 <= spec.value_error eps ret v v_old)%R.
Proof. unfold spec.value_error. apply Rmax_l. Qed.

Lemma mapM_Forall_Ok {A B : Type} (g : A -> result B) (P : B -> Prop)
    (l : list A) (ys : list B) :
  (forall a b, g a = Ok b -> P b) -> mapM g l = Ok ys -> Forall P ys.
Proof.
  intros Hg H. apply mapM_Forall2 in H.
  induction H as [|a b l ys Hab _ IH]; constructor; eauto.
Qed.

Lemma mean_nonneg (xs : list R) (v : R) :
  Forall (Rle 0) xs -> spec.mean xs = Ok v -> (0 <= v)%R.
Proof.
  intros Hxs. unfold spec.mean. destruct (decide _) as [|Hne]; [discriminate|].
  intros [= <-].
  assert (Hs : (0 <= sum_list xs)%R).
  { clear -Hxs. induction Hxs as [|x xs Hx _ IH]; simpl; lra. }
  assert (Hn : (0 < INR (length xs))%R).
  { apply lt_0_INR. clear -Hne. destruct xs; simpl in *; [congruence|lia]. }
  apply Rmult_le_pos; [exact Hs|]. left. apply Rinv_0_lt_compat. exact Hn.
Qed.

Lemma value_loss_nonneg (eps : R) (streams : list (list R * list R * list R))
    (ms : list Z) (v : R) :
  binary_mask ms -> spec.value_loss eps streams ms = Ok v -> (0 <= v)%R.
Proof.
  intros Hms. unfold spec.value_loss.
  destruct (mapM _ streams) as [per|err] eqn:Hper; [|discriminate].
  cbn [mbind result_bind]. apply mean_nonneg.
  eapply mapM_Forall_Ok; [|exact Hper].
  intros s r H. cbv beta in H. unfold spec.stream_value_loss in H.
  eapply (masked_mean_nonneg ms); [exact Hms| |exact H].
  apply zip_with3_nonneg. intros. apply value_error_nonneg.
Qed.

(** X6.  Whenever the value loss of [create_losses] evaluates to a number
    on a batch with a 0/1 mask, that number is a scalar and is not negative. *)
Theorem value_loss_is_nonnegative (self : LearningModel) (feed : feed_dict)
    (probs old_probs : tensor) (value_streams : gmap string tensor)
    (ent : tensor) (beta epsilon lr max_step : R) (stream_names : list string)
    (L : Losses) (B : batch) (e : R) (r : ndarray) :
  create_losses self probs old_probs value_streams ent beta epsilon lr max_step
    stream_names = Ok L ->
  holds_batch self feed probs old_probs ent value_streams stream_names B ->
  batch_shaped stream_names B ->
  binary_mask (b_mask B) ->
  eval feed (decay_epsilon self epsilon max_step) = Ok (Scalar e) ->
  eval feed (value_loss L) = Ok r ->
  exists v, r = Scalar v /\ (0 <= v)%R.
Proof.
  intros HL Hholds Hshape Hbin He.
  pose proof (batch_streams _ _ _ _ _ _ _ _ Hholds Hshape) as Hstreams.
  destruct Hholds as (Hm & _).
  rewrite (eval_value_loss_spec self feed probs old_probs value_streams ent
             beta epsilon lr max_step stream_names L _ _ _ _ e
             HL Hm Hbin He Hstreams).
  destruct (spec.value_loss _ _ _) as [v|err] eqn:Hv; [|discriminate].
  intros [= <-]. exists v. split; [reflexivity|].
  exact (value_loss_nonneg _ _ _ _ Hbin Hv).
Qed.

Lemma clip_inside (x lo hi : R) :
  (lo <= x <= hi)%R -> spec.clip x lo hi = x.
Proof.
  intros [Hlo Hhi]. unfold spec.clip.
  rewrite Rmin_left by exact Hhi. apply Rmax_left. exact Hlo.
Qed.

Lemma clip_bounds (x lo hi : R) :
  (lo <= hi)%R -> (lo <= spec.clip x lo hi <= hi)%R.
Proof.
  intros Hle. unfold spec.clip. split; [apply Rmax_r|].
  apply Rmax_lub; [apply Rmin_r|exact Hle].
Qed.

Lemma value_error_unclipped (eps ret v v_old : R) :
  (- eps <= v - v_old <= eps)%R ->
  spec.value_error eps ret v v_old = ((ret - v) ^ 2)%R.
Proof.
  intros H. unfold spec.value_error, spec.value_clipped.
  rewrite clip_inside by exact H.
  replace (v_old + (v - v_old))%R with v by lra. apply Rmax_left. lra.
Qed.

Lemma value_error_terms_unclipped (eps : R) (rets vs volds : list R) :
  length rets = length vs ->
  Forall2 (fun v v_old => (- eps <= v - v_old <= eps)%R) vs volds ->
  spec.zip_with3 (spec.value_error eps) rets vs volds
  = zip_with (fun ret v => ((ret - v) ^ 2)%R) rets vs.
Proof.
  intros Hlen H. revert rets Hlen.
  induction H as [|v vold vs volds Hv _ IH]; intros [|ret rets] Hlen;
    simpl in *; try reflexivity; try discriminate.
  rewrite IH by congruence. rewrite value_error_unclipped by exact Hv.
  reflexivity.
Qed.

(** X7.  When, at every timestep, the value estimate of a stream differs
    from the old estimate by at most [decay_epsilon], the clipping has no
    effect: the value loss of the stream is the masked mean of the squared
    error [(R - V)^2]. *)
Theorem value_loss_without_clipping (self : LearningModel) (feed : feed_dict)
    (returns_holder old_value head deps : tensor)
    (rets volds : list R) (m : list (list R)) (ms : list Z) (e : R) :
  eval feed returns_holder = Ok (Vector rets) ->
  eval feed old_value = Ok (Vector volds) ->
  eval feed head = Ok (Matrix m) ->
  eval feed (mask self) = Ok (IntVector ms) ->
  eval feed deps = Ok (Scalar e) ->
  length rets = length ms -> length volds = length ms -> length m = length ms ->
  binary_mask ms ->
  Forall2 (fun v v_old => (- e <= v - v_old <= e)%R) (map sum_list m) volds ->
  eval feed (stream_value_loss self returns_holder old_value head deps)
  = Scalar <$> spec.masked_mean
      (zip_with (fun ret v => ((ret - v) ^ 2)%R) rets (map sum_list m)) ms.
Proof.
  intros Hret Hold Hhead Hm Hdeps H1 H2 H3 Hbin Hclose.
  rewrite (eval_stream_value_loss self feed returns_holder old_value head deps
             rets volds m ms e) by assumption.
  rewrite mean_select_masked_mean; [|
    apply length_zip_with3; [assumption|rewrite length_map; assumption|assumption]
    |assumption].
  rewrite value_error_terms_unclipped;
    [reflexivity|rewrite length_map; congruence|exact Hclose].
Qed.

Lemma surrogate_same_policy (eps lp adv : R) :
  (0 <= eps)%R -> spec.surrogate eps lp lp adv = adv.
Proof.
  intros He. unfold spec.surrogate, spec.ratio.
  replace (lp - lp)%R with 0%R by lra. rewrite exp_0.
  rewrite clip_inside by lra. rewrite Rmin_left by lra. lra.
Qed.

Lemma surrogate_terms_same_policy (eps : R) (lps advs : list R) :
  (0 <= eps)%R -> length lps = length advs ->
  spec.zip_with3 (spec.surrogate eps) lps lps advs = advs.
Proof.
  intros He. revert advs.
  induction lps as [|lp lps IH]; intros [|adv advs] Hlen; simpl in *;
    try reflexivity; try discriminate.
  rewrite IH by congruence. rewrite surrogate_same_policy by exact He.
  reflexivity.
Qed.

(** X8.  When the current and the old log-probabilities are equal (the
    policy has not changed) and [decay_epsilon >= 0], the policy loss is
    minus the masked mean of the advantages. *)
Theorem policy_loss_of_unchanged_policy (self : LearningModel) (feed : feed_dict)
    (probs old_probs : tensor) (value_streams : gmap string tensor)
    (ent : tensor) (beta epsilon lr max_step : R) (stream_names : list string)
    (L : Losses) (lps advs : list R) (ms : list Z) (e : R) :
  create_losses self probs old_probs value_streams ent beta epsilon lr max_step
    stream_names = Ok L ->
  eval feed probs = Ok (Matrix (column lps)) ->
  eval feed old_probs = Ok (Matrix (column lps)) ->
  feed !! "advantages" = Some (Matrix (column advs)) ->
  eval feed (mask self) = Ok (IntVector ms) ->
  eval feed (decay_epsilon self epsilon max_step) = Ok (Scalar e) ->
  binary_mask ms ->
  length lps = length ms -> length advs = length ms ->
  (0 <= e)%R ->
  eval feed (policy_loss L)
  = Scalar <$> (a ← spec.masked_mean advs ms; Ok (- a)%R).
Proof.
  intros HL Hp Ho Ha Hm He Hbin H1 H3 Hpos.
  rewrite (eval_policy_loss_spec self feed probs old_probs value_streams ent
             beta epsilon lr max_step stream_names L lps lps advs ms e
             HL Hp Ho Ha Hm He Hbin H1 H1 H3).
  unfold spec.policy_loss.
  rewrite surrogate_terms_same_policy by (assumption || congruence).
  reflexivity.
Qed.

Lemma surrogate_le_unclipped (eps lp olp adv : R) :
  (spec.surrogate eps lp olp adv <= spec.ratio lp olp * adv)%R.
Proof. unfold spec.surrogate. apply Rmin_l. Qed.

Lemma surrogate_le_cap (eps lp olp adv : R) :
  (0 <= eps)%R -> (spec.surrogate eps lp olp adv <= surrogate_cap eps adv)%R.
Proof.
  intros He. unfold spec.surrogate, surrogate_cap.
  set (r := spec.ratio lp olp).
  pose proof (clip_bounds r (1 - eps) (1 + eps) ltac:(lra)) as [Hlo Hhi].
  apply Rle_trans with (spec.clip r (1 - eps) (1 + eps) * adv)%R; [apply Rmin_r|].
  destruct (Rle_dec 0 adv) as [Hpos|Hneg].
  - apply Rmult_le_compat_r; assumption.
  - assert (Hadv : (adv <= 0)%R) by lra.
    generalize dependent (spec.clip r (1 - eps) (1 + eps)). intros c Hlo Hhi.
    nra.
Qed.

Section policy_bounds.
Variables (self : LearningModel) (feed : feed_dict) (probs old_probs : tensor).
Variables (value_streams : gmap string tensor) (ent : tensor).
Variables (beta epsilon lr max_step : R) (stream_names : list string).
Variables (L : Losses) (lps olps advs : list R) (ms : list Z) (e p : R).
Hypothesis HL :
  create_losses self probs old_probs value_streams ent beta epsilon lr max_step
    stream_names = Ok L.
Hypothesis Hp : eval feed probs = Ok (Matrix (column lps)).
Hypothesis Ho : eval feed old_probs = Ok (Matrix (column olps)).
Hypothesis Ha : feed !! "advantages" = Some (Matrix (column advs)).
Hypothesis Hm : eval feed (mask self) = Ok (IntVector ms).
Hypothesis He : eval feed (decay_epsilon self epsilon max_step) = Ok (Scalar e).
Hypothesis Hbin : binary_mask ms.
Hypothesis H1 : length lps = length ms.
Hypothesis H2 : length olps = length ms.
Hypothesis H3 : length advs = length ms.
Hypothesis Hloss : eval feed (policy_loss L) = Ok (Scalar p).

Lemma policy_loss_lower_bound (g : R -> R -> R -> R) (u : R) :
  (forall lp olp adv, (spec.surrogate e lp olp adv <= g lp olp adv)%R) ->
  spec.masked_mean (spec.zip_with3 g lps olps advs) ms = Ok u ->
  (- u <= p)%R.
Proof.
  intros Hg Hu.
  pose proof (eval_policy_loss_spec self feed probs old_probs value_streams ent
                beta epsilon lr max_step stream_names L lps olps advs ms e
                HL Hp Ho Ha Hm He Hbin H1 H2 H3) as Heval.
  rewrite Hloss in Heval. unfold spec.policy_loss in Heval.
  destruct (spec.masked_mean (spec.zip_with3 (spec.surrogate e) _ _ _) ms)
    as [s|err] eqn:Hs; [|discriminate].
  injection Heval as ->.
  assert (s <= u)%R; [|lra].
  apply (masked_mean_le ms _ _ s u Hbin (zip_with3_le _ _ _ _ _ Hg) Hs Hu).
Qed.
End policy_bounds.

(** X9.  The policy loss is never below the unclipped loss: it is at least
    minus the masked mean of [r * advantage]. *)
Theorem policy_loss_at_least_unclipped (self : LearningModel) (feed : feed_dict)
    (probs old_probs : tensor) (value_streams : gmap string tensor)
    (ent : tensor) (beta epsilon lr max_step : R) (stream_names : list string)
    (L : Losses) (lps olps advs : list R) (ms : list Z) (e p u : R) :
  create_losses self probs old_probs value_streams ent beta epsilon lr max_step
    stream_names = Ok L ->
  eval feed probs = Ok (Matrix (column lps)) ->
  eval feed old_probs = Ok (Matrix (column olps)) ->
  feed !! "advantages" = Some (Matrix (column advs)) ->
  eval feed (mask self) = Ok (IntVector ms) ->
  eval feed (decay_epsilon self epsilon max_step) = Ok (Scalar e) ->
  binary_mask ms ->
  length lps = length ms -> length olps = length ms -> length advs = length ms ->
  eval feed (policy_loss L) = Ok (Scalar p) ->
  spec.masked_mean
    (spec.zip_with3 (fun lp olp adv => (spec.ratio lp olp * adv)%R) lps olps advs)
    ms = Ok u ->
  (- u <= p)%R.
Proof.
  intros HL Hp Ho Ha Hm He Hbin H1 H2 H3 Hloss Hu.
  apply (policy_loss_lower_bound self feed probs old_probs value_streams ent
           beta epsilon lr max_step stream_names L lps olps advs ms e p
           HL Hp Ho Ha Hm He Hbin H1 H2 H3 Hloss
           (fun lp olp adv => (spec.ratio lp olp * adv)%R) u);
    [|exact Hu].
  intros lp olp adv. apply surrogate_le_unclipped.
Qed.

Lemma zip_with3_third {A B C D : Type} (f : C -> D)
    (l1 : list A) (l2 : list B) (l3 : list C) :
  length l1 = length l3 -> length l2 = length l3 ->
  spec.zip_with3 (fun _ _ c => f c) l1 l2 l3 = map f l3.
Proof.
  revert l2 l3. induction l1 as [|a l1 IH]; intros [|b l2] [|c l3] H1 H2;
    simpl in *; try reflexivity; try discriminate.
  rewrite IH by congruence. reflexivity.
Qed.

(** X10.  For [decay_epsilon >= 0] the policy loss is at least minus the
    masked mean of the capped objective, [(1 + eps) * A] for an advantage
    [A >= 0] and [(1 - eps) * A] for [A < 0]: a ratio outside the clip range
    earns nothing more. *)
Theorem policy_loss_at_least_capped (self : LearningModel) (feed : feed_dict)
    (probs old_probs : tensor) (value_streams : gmap string tensor)
    (ent : tensor) (beta epsilon lr max_step : R) (stream_names : list string)
    (L : Losses) (lps olps advs : list R) (ms : list Z) (e p u : R) :
  create_losses self probs old_probs value_streams ent beta epsilon lr max_step
    stream_names = Ok L ->
  eval feed probs = Ok (Matrix (column lps)) ->
  eval feed old_probs = Ok (Matrix (column olps)) ->
  feed !! "advantages" = Some (Matrix (column advs)) ->
  eval feed (mask self) = Ok (IntVector ms) ->
  eval feed (decay_epsilon self epsilon max_step) = Ok (Scalar e) ->
  binary_mask ms ->
  length lps = length ms -> length olps = length ms -> length advs = length ms ->
  (0 <= e)%R ->
  eval feed (policy_loss L) = Ok (Scalar p) ->
  spec.masked_mean (map (surrogate_cap e) advs) ms = Ok u ->
  (- u <= p)%R.
Proof.
  intros HL Hp Ho Ha Hm He Hbin H1 H2 H3 Hpos Hloss Hu.
  apply (policy_loss_lower_bound self feed probs old_probs value_streams ent
           beta epsilon lr max_step stream_names L lps olps advs ms e p
           HL Hp Ho Ha Hm He Hbin H1 H2 H3 Hloss
           (fun _ _ adv => surrogate_cap e adv) u).
  - intros lp olp adv. apply surrogate_le_cap. exact Hpos.
  - rewrite zip_with3_third by congruence. exact Hu.
Qed.

Lemma squared_error_le_value_error (eps : R) (rets vs volds : list R) :
  length vs = length volds ->
  Forall2 Rle (zip_with (fun ret v => ((ret - v) ^ 2)%R) rets vs)
    (spec.zip_with3 (spec.value_error eps) rets vs volds).
Proof.
  revert vs volds. induction rets as [|ret rets IH]; intros [|v vs] [|vold volds] H;
    simpl in *; try discriminate; constructor.
  - apply value_error_ge_squared_error.
  - apply IH. congruence.
Qed.

(** X11.  The value loss of a stream is never below the masked mean of the
    plain squared error [(R - V)^2], which is itself not negative. *)
Theorem value_loss_at_least_squared_error (self : LearningModel)
    (feed : feed_dict) (returns_holder old_value head deps : tensor)
    (rets volds : list R) (m : list (list R)) (ms : list Z) (e v u : R) :
  eval feed returns_holder = Ok (Vector rets) ->
  eval feed old_value = Ok (Vector volds) ->
  eval feed head = Ok (Matrix m) ->
  eval feed (mask self) = Ok (IntVector ms) ->
  eval feed deps = Ok (Scalar e) ->
  length rets = length ms -> length volds = length ms -> length m = length ms ->
  binary_mask ms ->
  eval feed (stream_value_loss self returns_holder old_value head deps)
    = Ok (Scalar v) ->
  spec.masked_mean
    (zip_with (fun ret v => ((ret - v) ^ 2)%R) rets (map sum_list m)) ms = Ok u ->
  (0 <= u <= v)%R.
Proof.
  intros Hret Hold Hhead Hm Hdeps H1 H2 H3 Hbin Hv Hu.
  rewrite (eval_stream_value_loss self feed returns_holder old_value head deps
             rets volds m ms e) in Hv by assumption.
  rewrite mean_select_masked_mean in Hv; [|
    apply length_zip_with3; [assumption|rewrite length_map; assumption|assumption]
    |assumption].
  destruct (spec.masked_mean (spec.zip_with3 _ _ _ _) ms) as [w|err] eqn:Hw;
    [|discriminate].
  injection Hv as ->. split.
  - eapply (masked_mean_nonneg ms); [exact Hbin| |exact Hu].
    clear. generalize (map sum_list m). intros vs. revert vs.
    induction rets as [|ret rets IH]; intros [|x vs]; simpl; constructor.
    + apply pow2_ge_0.
    + apply IH.
  - eapply (masked_mean_le ms); [exact Hbin| |exact Hu|exact Hw].
    apply squared_error_le_value_error. rewrite length_map. congruence.
Qed.

(** ** The schedules at the ends of their range *)

Section schedules.
Variables (self : LearningModel) (feed : feed_dict) (s : Z).
Variables (initial floor max_step : R).
Hypothesis Hstep : eval feed (global_step self) = Ok (IntScalar s).

Lemma eval_schedule_zero_steps :
  max_step = 0%R ->
  eval feed (tflib.polynomial_decay initial (global_step self) max_step floor 1.0)
  = Err NonReal.
Proof.
  intros ->. unfold tflib.polynomial_decay.
  cbn [eval]. rewrite Hstep. cbn [mbind result_bind tf.cast_float32]. tf_eval.
  rewrite (elementwise_scalars_partial tf.div). unfold tf.div.
  destruct (Req_dec_T 0 0) as [_|H]; [reflexivity|exfalso; lra].
Qed.
End schedules.

(** X12.  From [max_step] on, the three schedules stay at their floors
    1e-10, 0.1 and 1e-5. *)
Theorem schedules_stay_at_floor (self : LearningModel) (feed : feed_dict)
    (lr epsilon beta max_step : R) (s : Z) :
  (0 < max_step)%R ->
  eval feed (global_step self) = Ok (IntScalar s) ->
  (max_step <= IZR s)%R ->
  eval feed (learning_rate_schedule self lr max_step) = Ok (Scalar 1e-10) /\
  eval feed (decay_epsilon self epsilon max_step) = Ok (Scalar 0.1) /\
  eval feed (decay_beta self beta max_step) = Ok (Scalar 1e-5).
Proof.
  intros Hmax Hs Hle.
  unfold learning_rate_schedule, decay_epsilon, decay_beta.
  rewrite !(eval_polynomial_decay feed _ s _ _ _ Hs Hmax).
  rewrite !linear_decay_end by exact Hle. repeat split; reflexivity.
Qed.

(** X13.  With [max_step = 0] the three schedules divide by zero: none of
    them evaluates to a real number, at any global step. *)
Theorem schedules_of_zero_steps (self : LearningModel) (feed : feed_dict)
    (lr epsilon beta : R) (s : Z) :
  eval feed (global_step self) = Ok (IntScalar s) ->
  eval feed (learning_rate_schedule self lr 0) = Err NonReal /\
  eval feed (decay_epsilon self epsilon 0) = Err NonReal /\
  eval feed (decay_beta self beta 0) = Err NonReal.
Proof.
  intros Hs. unfold learning_rate_schedule, decay_epsilon, decay_beta.
  rewrite !(eval_schedule_zero_steps self feed s _ _ 0 Hs eq_refl).
  repeat split; reflexivity.
Qed.

Lemma linear_decay_between (initial floor max_step step : R) :
  (0 < max_step)%R -> (0 <= step)%R ->
  (Rmin initial floor <= spec.linear_decay initial floor max_step step
   <= Rmax initial floor)%R.
Proof.
  intros Hmax Hstep. unfold spec.linear_decay.
  pose proof (Rmin_l initial floor). pose proof (Rmin_r initial floor).
  pose proof (Rmax_l initial floor). pose proof (Rmax_r initial floor).
  destruct (Rle_dec max_step step) as [_|Hlt]; [lra|].
  assert (Hq : (0 <= step / max_step < 1)%R).
  { split.
    - apply Rmult_le_pos; [exact Hstep|]. left. apply Rinv_0_lt_compat. exact Hmax.
    - apply (Rmult_lt_reg_r max_step); [exact Hmax|].
      unfold Rdiv. rewrite Rmult_assoc, Rinv_l by lra. lra. }
  generalize dependent (step / max_step)%R. intros q Hq.
  destruct (Rle_dec initial floor); nra.
Qed.

(** X14.  For a configured [epsilon >= 0], a positive [max_step] and a
    global step [>= 0], [decay_epsilon] evaluates to a radius between
    [min(epsilon, 0.1)] and [max(epsilon, 0.1)], and every entry of the
    clipped value estimate is within [max(epsilon, 0.1)] of the old
    estimate. *)
Theorem clipped_estimate_within_configured_radius (self : LearningModel) (feed : feed_dict)
    (old_value head : tensor) (epsilon max_step : R) (s : Z)
    (volds : list R) (m : list (list R)) :
  (0 < max_step)%R -> (0 <= epsilon)%R -> (0 <= s)%Z ->
  eval feed (global_step self) = Ok (IntScalar s) ->
  eval feed old_value = Ok (Vector volds) ->
  eval feed head = Ok (Matrix m) ->
  length m = length volds ->
  exists e clipped,
    eval feed (decay_epsilon self epsilon max_step) = Ok (Scalar e) /\
    (Rmin epsilon 0.1 <= e <= Rmax epsilon 0.1)%R /\
    eval feed (clipped_value_estimate old_value head
                 (decay_epsilon self epsilon max_step)) = Ok (Vector clipped) /\
    forall i c v_old, clipped !! i = Some c -> volds !! i = Some v_old ->
      (Rabs (c - v_old) <= Rmax epsilon 0.1)%R.
Proof.
  intros Hmax Heps Hs Hgs Hold Hhead Hlen.
  set (e := spec.linear_decay epsilon 0.1 max_step (IZR s)).
  assert (He : eval feed (decay_epsilon self epsilon max_step) = Ok (Scalar e)).
  { unfold decay_epsilon. apply eval_polynomial_decay; assumption. }
  assert (Hrange : (Rmin epsilon 0.1 <= e <= Rmax epsilon 0.1)%R).
  { apply linear_decay_between; [exact Hmax|]. apply IZR_le. exact Hs. }
  assert (Hpos : (0 <= e)%R).
  { apply Rle_trans with (Rmin epsilon 0.1); [|apply Hrange].
    apply Rmin_glb; lra. }
  exists e, (zip_with (spec.value_clipped e) (map sum_list m) volds).
  split; [exact He|]. split; [exact Hrange|]. split.
  - apply eval_clipped_value_estimate; assumption.
  - intros i c v_old Hc Hv.
    apply lookup_zip_with_Some in Hc as (v & v_old' & -> & _ & Hv').
    assert (v_old' = v_old) by congruence. subst v_old'.
    unfold spec.value_clipped.
    pose proof (clip_bounds (v - v_old) (- e) e ltac:(lra)) as [Hlo Hhi].
    apply Rabs_le. lra.
Qed.

(** ** The factory, call by call *)

Section factory_facts.
Variables Policy Config RewardSignal : Type.
Variable check_config :
  reward_signal_factory.reward_signal_class -> Config -> result unit.
Variable construct :
  reward_signal_factory.reward_signal_class -> Policy -> Config
  -> result RewardSignal.
Variables (policy : Policy) (name : string) (config_entry : Config).

Lemma create_reward_signal_cases :
  let create :=
    reward_signal_factory.create_reward_signal Policy Config RewardSignal
      check_config construct policy name config_entry in
  let check rcls :=
    reward_signal_factory.CallCheckConfig Policy Config rcls config_entry in
  let ctor rcls :=
    reward_signal_factory.CallConstructor Policy Config rcls policy
      config_entry in
  match reward_signal_factory.NAME_TO_CLASS !! name with
  | None =>
      create = ([], Err (UnityTrainerException
                           (reward_signal_factory.unknown_type_message name)))
  | Some rcls =>
      match check_config rcls config_entry with
      | Err e => create = ([check rcls], Err e)
      | Ok _ =>
          match construct rcls policy config_entry with
          | Ok inst => create = ([check rcls; ctor rcls], Ok inst)
          | Err TypeError =>
              create = ([check rcls; ctor rcls],
                        Err (UnityTrainerException
                               (reward_signal_factory.unknown_parameters_message
                                  name)))
          | Err e => create = ([check rcls; ctor rcls], Err e)
          end
      end
  end.
Proof.
  intros create check ctor.
  unfold create, check, ctor, reward_signal_factory.create_reward_signal.
  destruct (reward_signal_factory.NAME_TO_CLASS !! name) as [rcls|];
    [|reflexivity].
  unfold reward_signal_factory.invoke, reward_signal_factory.tbind,
    reward_signal_factory.try_except_TypeError, reward_signal_factory.raise,
    reward_signal_factory.tret.
  destruct (check_config rcls config_entry) as [[]|e]; [|reflexivity].
  destruct (construct rcls policy config_entry) as [inst|[]]; reflexivity.
Qed.
End factory_facts.

(** X15.  For a name of the registry whose entry [check_config] accepts
    and whose constructor returns an instance, [create_reward_signal] returns
    that instance, having called [check_config] first and the constructor of
    the registered class second, once each. *)
Theorem registered_signal_is_constructed (Policy Config RewardSignal : Type)
    (check_config :
       reward_signal_factory.reward_signal_class -> Config -> result unit)
    (construct :
       reward_signal_factory.reward_signal_class -> Policy -> Config
       -> result RewardSignal)
    (policy : Policy) (name : string) (config_entry : Config)
    (rcls : reward_signal_factory.reward_signal_class) (inst : RewardSignal) :
  reward_signal_factory.NAME_TO_CLASS !! name = Some rcls ->
  check_config rcls config_entry = Ok tt ->
  construct rcls policy config_entry = Ok inst ->
  reward_signal_factory.create_reward_signal Policy Config RewardSignal
    check_config construct policy name config_entry
  = ([reward_signal_factory.CallCheckConfig Policy Config rcls config_entry;
      reward_signal_factory.CallConstructor Policy Config rcls policy
        config_entry],
     Ok inst).
Proof.
  intros Hcls Hcheck Hctor.
  pose proof (create_reward_signal_cases Policy Config RewardSignal check_config
                construct policy name config_entry) as H.
  cbv zeta in H.
  rewrite Hcls, Hcheck, Hctor in H. exact H.
Qed.

(** X16.  An exception raised by [check_config] leaves
    [create_reward_signal] as it is, a [TypeError] included (the call is
    outside the [try]), and the constructor is not called. *)
Theorem check_config_failure_is_not_translated
    (Policy Config RewardSignal : Type)
    (check_config :
       reward_signal_factory.reward_signal_class -> Config -> result unit)
    (construct :
       reward_signal_factory.reward_signal_class -> Policy -> Config
       -> result RewardSignal)
    (policy : Policy) (name : string) (config_entry : Config)
    (rcls : reward_signal_factory.reward_signal_class) (e : exn) :
  reward_signal_factory.NAME_TO_CLASS !! name = Some rcls ->
  check_config rcls config_entry = Err e ->
  reward_signal_factory.create_reward_signal Policy Config RewardSignal
    check_config construct policy name config_entry
  = ([reward_signal_factory.CallCheckConfig Policy Config rcls config_entry],
     Err e).
Proof.
  intros Hcls Hcheck.
  pose proof (create_reward_signal_cases Policy Config RewardSignal check_config
                construct policy name config_entry) as H.
  cbv zeta in H.
  rewrite Hcls, Hcheck in H. exact H.
Qed.

(** X17.  An exception of the constructor other than [TypeError] leaves
    [create_reward_signal] unchanged. *)
Theorem other_constructor_failures_propagate
    (Policy Config RewardSignal : Type)
    (check_config :
       reward_signal_factory.reward_signal_class -> Config -> result unit)
    (construct :
       reward_signal_factory.reward_signal_class -> Policy -> Config
       -> result RewardSignal)
    (policy : Policy) (name : string) (config_entry : Config)
    (rcls : reward_signal_factory.reward_signal_class) (e : exn) :
  reward_signal_factory.NAME_TO_CLASS !! name = Some rcls ->
  check_config rcls config_entry = Ok tt ->
  construct rcls policy config_entry = Err e ->
  e <> TypeError ->
  reward_signal_factory.create_reward_signal Policy Config RewardSignal
    check_config construct policy name config_entry
  = ([reward_signal_factory.CallCheckConfig Policy Config rcls config_entry;
      reward_signal_factory.CallConstructor Policy Config rcls policy
        config_entry],
     Err e).
Proof.
  intros Hcls Hcheck Hctor Hne.
  pose proof (create_reward_signal_cases Policy Config RewardSignal check_config
                construct policy name config_entry) as H.
  cbv zeta in H.
  rewrite Hcls, Hcheck, Hctor in H. destruct e; try exact H. congruence.
Qed.

(** X18.  When [create_reward_signal] returns an instance, the name is one
    of [extrinsic], [gail], [curiosity], [check_config] of the registered
    class accepted the entry, and the instance is what the constructor of
    that class returned. *)
Theorem returned_instance_comes_from_registered_class
    (Policy Config RewardSignal : Type)
    (check_config :
       reward_signal_factory.reward_signal_class -> Config -> result unit)
    (construct :
       reward_signal_factory.reward_signal_class -> Policy -> Config
       -> result RewardSignal)
    (policy : Policy) (name : string) (config_entry : Config)
    (log : list (reward_signal_factory.call Policy Config))
    (inst : RewardSignal) :
  reward_signal_factory.create_reward_signal Policy Config RewardSignal
    check_config construct policy name config_entry = (log, Ok inst) ->
  exists rcls,
    reward_signal_factory.NAME_TO_CLASS !! name = Some rcls /\
    (name = "extrinsic" \/ name = "gail" \/ name = "curiosity") /\
    check_config rcls config_entry = Ok tt /\
    construct rcls policy config_entry = Ok inst /\
    log = [reward_signal_factory.CallCheckConfig Policy Config rcls config_entry;
           reward_signal_factory.CallConstructor Policy Config rcls policy
             config_entry].
Proof.
  intros Hcreate.
  pose proof (create_reward_signal_cases Policy Config RewardSignal check_config
                construct policy name config_entry) as H.
  cbv zeta in H.
  destruct (reward_signal_factory.NAME_TO_CLASS !! name) as [rcls|] eqn:Hcls.
  2:{ rewrite H in Hcreate. discriminate. }
  exists rcls. split; [reflexivity|]. split.
  { destruct (decide (name = "extrinsic")) as [|H1]; [auto|].
    destruct (decide (name = "gail")) as [|H2]; [auto|].
    destruct (decide (name = "curiosity")) as [|H3]; [auto|].
    exfalso. assert (reward_signal_factory.NAME_TO_CLASS !! name = None)
      by (apply registry_keys; auto).
    congruence. }
  destruct (check_config rcls config_entry) as [[]|e].
  2:{ rewrite H in Hcreate. discriminate. }
  split; [reflexivity|].
  destruct (construct rcls policy config_entry) as [inst'|e].
  - rewrite H in Hcreate. injection Hcreate as <- <-. auto.
  - destruct e; rewrite H in Hcreate; discriminate.
Qed.

(** ** [PPOModel.__init__], step by step *)

Section init_facts.
Variable Brain : Type.
Variable vector_action_space_type : Brain -> string.
Variable LearningModel_init :
  option Z -> bool -> bool -> Brain -> Z -> list string -> result LearningModel.
Variables create_cc_actor_critic create_dc_actor_critic :
  LearningModel -> Z -> Z -> result LearningModel.
Variables (brain : Brain) (lr : R) (h_size : Z) (epsilon beta max_step : R).
Variables (normalize use_recurrent : bool) (num_layers : Z).
Variables (m_size : option Z) (seed : Z) (stream_names : option (list string)).

(** What [__init__] returns, read backwards: the base class was initialised
    with the stream names, the head builder of the action space was run with
    the clamped layer count, and [create_losses] was run on the result. *)
Lemma PPOModel_init_Ok (M : PPOModel) :
  PPOModel_init Brain vector_action_space_type LearningModel_init
    create_cc_actor_critic create_dc_actor_critic brain lr h_size epsilon beta
    max_step normalize use_recurrent num_layers m_size seed stream_names = Ok M ->
  let names := default [] stream_names in
  let layers := if (num_layers <? 1)%Z then 1%Z else num_layers in
  exists self0 self1,
    LearningModel_init m_size normalize use_recurrent brain seed names = Ok self0 /\
    (if String.eqb (vector_action_space_type brain) "continuous"
     then create_cc_actor_critic self0 h_size layers = Ok self1 /\
          base M = set_entropy self1
                     (Mul (OnesLike (Reshape1 (value self1))) (entropy self1))
     else create_dc_actor_critic self0 h_size layers = Ok self1 /\
          base M = self1) /\
    create_losses (base M) (log_probs (base M)) (old_log_probs (base M))
      (value_heads (base M)) (entropy (base M)) beta epsilon lr max_step names
    = Ok (losses M) /\
    last_reward M = TVariable 0 "last_reward" /\
    new_reward M = Placeholder float32 [] "new_reward" /\
    update_reward M = Assign (last_reward M) (new_reward M).
Proof.
  intros H names layers. unfold PPOModel_init in H.
  replace (match stream_names with Some n => n | None => [] end) with names in H
    by (unfold names; destruct stream_names; reflexivity).
  destruct (LearningModel_init _ _ _ _ _ names) as [self0|e];
    cbn [mbind result_bind] in H; [|discriminate].
  cbn [create_reward_encoder] in H. fold layers in H.
  exists self0.
  destruct (String.eqb _ _).
  - destruct (create_cc_actor_critic self0 h_size layers) as [self1|e];
      cbn [mbind result_bind] in H; [|discriminate].
    destruct (create_losses _ _ _ _ _ _ _ _ _ _) as [L|e] eqn:HL;
      cbn [mbind result_bind] in H; [|discriminate].
    injection H as <-. exists self1. cbn. auto 10.
  - destruct (create_dc_actor_critic self0 h_size layers) as [self1|e];
      cbn [mbind result_bind] in H; [|discriminate].
    destruct (create_losses _ _ _ _ _ _ _ _ _ _) as [L|e] eqn:HL;
      cbn [mbind result_bind] in H; [|discriminate].
    injection H as <-. exists self1. cbn. auto 10.
Qed.
End init_facts.

(** X19.  A layer count below 1 is clamped to 1: [__init__] with
    [num_layers < 1] does what it does with [num_layers = 1]. *)
Theorem layer_count_is_clamped (Brain : Type)
    (vector_action_space_type : Brain -> string)
    (LearningModel_init :
       option Z -> bool -> bool -> Brain -> Z -> list string -> result LearningModel)
    (create_cc_actor_critic create_dc_actor_critic :
       LearningModel -> Z -> Z -> result LearningModel)
    (brain : Brain) (lr : R) (h_size : Z) (epsilon beta max_step : R)
    (normalize use_recurrent : bool) (num_layers : Z) (m_size : option Z)
    (seed : Z) (stream_names : option (list string)) :
  (num_layers < 1)%Z ->
  PPOModel_init Brain vector_action_space_type LearningModel_init
    create_cc_actor_critic create_dc_actor_critic brain lr h_size epsilon beta
    max_step normalize use_recurrent num_layers m_size seed stream_names
  = PPOModel_init Brain vector_action_space_type LearningModel_init
      create_cc_actor_critic create_dc_actor_critic brain lr h_size epsilon beta
      max_step normalize use_recurrent 1 m_size seed stream_names.
Proof.
  intros Hlt. unfold PPOModel_init.
  replace (num_layers <? 1)%Z with true by (symmetry; apply Z.ltb_lt; exact Hlt).
  reflexivity.
Qed.

Lemma ones_times (h : R) (vs : list R) :
  map (fun x => (x * h)%R) (map (fun _ => 1%R) vs) = replicate (length vs) h.
Proof.
  induction vs as [|v vs IH]; simpl; [reflexivity|].
  rewrite IH, Rmult_1_l. reflexivity.
Qed.

Lemma masked_mean_constant (h : R) (ms : list Z) :
  binary_mask ms -> 1%Z ∈ ms ->
  spec.masked_mean (replicate (length ms) h) ms = Ok h.
Proof.
  intros Hbin Hvalid. unfold spec.masked_mean.
  assert (Hsum : sum_list (zip_with Rmult (map IZR ms) (replicate (length ms) h))
                 = (sum_list (map IZR ms) * h)%R).
  { clear. induction ms as [|m ms IH]; simpl; [lra|]. rewrite IH. lra. }
  assert (Hpos : (0 < sum_list (map IZR ms))%R).
  { clear h Hsum. induction Hbin as [|m ms Hm Hbin IH]; [inversion Hvalid|].
    simpl. pose proof (count_nonneg ms Hbin).
    destruct Hm as [-> | ->]; [|lra].
    apply elem_of_cons in Hvalid as [Heq|Hin]; [discriminate|].
    specialize (IH Hin). lra. }
  rewrite Hsum. destruct (Req_dec_T _ _) as [Hz|_]; [exfalso; lra|].
  f_equal. field. lra.
Qed.

(** X20.  For a continuous action space, [__init__] replaces the entropy
    by [ones_like(reshape(value, [-1])) * entropy]: with a scalar policy
    entropy [h] and a value column of [n] rows it evaluates to [n] copies of
    [h], and its masked mean, the entropy term of the loss, is [h] as soon as
    one timestep is valid. *)
Theorem continuous_entropy_is_broadcast (Brain : Type)
    (vector_action_space_type : Brain -> string)
    (LearningModel_init :
       option Z -> bool -> bool -> Brain -> Z -> list string -> result LearningModel)
    (create_cc_actor_critic create_dc_actor_critic :
       LearningModel -> Z -> Z -> result LearningModel)
    (brain : Brain) (lr : R) (h_size : Z) (epsilon beta max_step : R)
    (normalize use_recurrent : bool) (num_layers : Z) (m_size : option Z)
    (seed : Z) (stream_names : option (list string)) (M : PPOModel)
    (self0 self1 : LearningModel) (feed : feed_dict) (vs : list R) (h : R)
    (ms : list Z) :
  PPOModel_init Brain vector_action_space_type LearningModel_init
    create_cc_actor_critic create_dc_actor_critic brain lr h_size epsilon beta
    max_step normalize use_recurrent num_layers m_size seed stream_names = Ok M ->
  vector_action_space_type brain = "continuous" ->
  LearningModel_init m_size normalize use_recurrent brain seed
    (default [] stream_names) = Ok self0 ->
  create_cc_actor_critic self0 h_size
    (if (num_layers <? 1)%Z then 1%Z else num_layers) = Ok self1 ->
  eval feed (value self1) = Ok (Matrix (column vs)) ->
  eval feed (entropy self1) = Ok (Scalar h) ->
  eval feed (mask self1) = Ok (IntVector ms) ->
  binary_mask ms -> length vs = length ms -> 1%Z ∈ ms ->
  entropy (base M) = Mul (OnesLike (Reshape1 (value self1))) (entropy self1) /\
  eval feed (entropy (base M)) = Ok (Vector (replicate (length vs) h)) /\
  eval feed (ReduceMean (DynamicPartition (entropy (base M))
                           (mask (base M)) 2 1)) = Ok (Scalar h).
Proof.
  intros HM Hcont Hinit Hcc Hv Hh Hm Hbin Hlen Hvalid.
  destruct (PPOModel_init_Ok _ _ _ _ _ _ _ _ _ _ _ _ _ _ _ _ _ M HM)
    as (self0' & self1' & Hinit' & Hhead & _).
  rewrite Hinit in Hinit'. injection Hinit' as <-.
  rewrite Hcont in Hhead.
  replace (String.eqb "continuous" "continuous") with true in Hhead
    by reflexivity.
  destruct Hhead as [Hcc' Hbase].
  rewrite Hcc in Hcc'. injection Hcc' as <-.
  rewrite Hbase. cbn [entropy value mask set_entropy].
  assert (Hent : eval feed (Mul (OnesLike (Reshape1 (value self1))) (entropy self1))
                 = Ok (Vector (replicate (length vs) h))).
  { cbn [eval]. rewrite Hv, Hh. cbn [mbind result_bind tf.flatten tf.ones_like].
    rewrite concat_column. cbn [tf.pointwise mbind result_bind].
    rewrite elementwise_vector_scalar, ones_times. reflexivity. }
  split; [reflexivity|]. split; [exact Hent|].
  rewrite (eval_masked_mean_spec self1 feed _ (replicate (length vs) h) ms
             Hent Hm Hbin) by (rewrite length_replicate; exact Hlen).
  rewrite Hlen, masked_mean_constant by assumption. reflexivity.
Qed.

(** X21.  For an action space other than "continuous", [__init__] does not
    depend on the continuous head builder, and the attributes of the model
    are those the discrete head builder returned, entropy included. *)
Theorem discrete_model_uses_the_discrete_heads (Brain : Type)
    (vector_action_space_type : Brain -> string)
    (LearningModel_init :
       option Z -> bool -> bool -> Brain -> Z -> list string -> result LearningModel)
    (create_cc_actor_critic create_dc_actor_critic :
       LearningModel -> Z -> Z -> result LearningModel)
    (brain : Brain) (lr : R) (h_size : Z) (epsilon beta max_step : R)
    (normalize use_recurrent : bool) (num_layers : Z) (m_size : option Z)
    (seed : Z) (stream_names : option (list string)) :
  vector_action_space_type brain <> "continuous" ->
  (forall create_cc_actor_critic',
     PPOModel_init Brain vector_action_space_type LearningModel_init
       create_cc_actor_critic' create_dc_actor_critic brain lr h_size epsilon
       beta max_step normalize use_recurrent num_layers m_size seed stream_names
     = PPOModel_init Brain vector_action_space_type LearningModel_init
         create_cc_actor_critic create_dc_actor_critic brain lr h_size epsilon
         beta max_step normalize use_recurrent num_layers m_size seed
         stream_names) /\
  (forall M,
     PPOModel_init Brain vector_action_space_type LearningModel_init
       create_cc_actor_critic create_dc_actor_critic brain lr h_size epsilon
       beta max_step normalize use_recurrent num_layers m_size seed stream_names
     = Ok M ->
     exists self0,
       LearningModel_init m_size normalize use_recurrent brain seed
         (default [] stream_names) = Ok self0 /\
       create_dc_actor_critic self0 h_size
         (if (num_layers <? 1)%Z then 1%Z else num_layers) = Ok (base M)).
Proof.
  intros Hne.
  assert (Heqb : String.eqb (vector_action_space_type brain) "continuous" = false)
    by (apply String.eqb_neq; exact Hne).
  split.
  - intros cc'. unfold PPOModel_init. rewrite Heqb. reflexivity.
  - intros M HM.
    destruct (PPOModel_init_Ok _ _ _ _ _ _ _ _ _ _ _ _ _ _ _ _ _ M HM)
      as (self0 & self1 & Hinit & Hhead & _).
    rewrite Heqb in Hhead. destruct Hhead as [Hdc ->].
    exists self0. split; assumption.
Qed.

(** X22.  A model that [__init__] returns has as many value heads as stream
    names and one under every name, one returns placeholder and one old-value
    placeholder for every name, named after it and in the order of the names,
    and the learning-rate schedule as its learning rate. *)
Theorem constructed_model_has_a_head_for_every_stream (Brain : Type)
    (vector_action_space_type : Brain -> string)
    (LearningModel_init :
       option Z -> bool -> bool -> Brain -> Z -> list string -> result LearningModel)
    (create_cc_actor_critic create_dc_actor_critic :
       LearningModel -> Z -> Z -> result LearningModel)
    (brain : Brain) (lr : R) (h_size : Z) (epsilon beta max_step : R)
    (normalize use_recurrent : bool) (num_layers : Z) (m_size : option Z)
    (seed : Z) (stream_names : option (list string)) (M : PPOModel) :
  PPOModel_init Brain vector_action_space_type LearningModel_init
    create_cc_actor_critic create_dc_actor_critic brain lr h_size epsilon beta
    max_step normalize use_recurrent num_layers m_size seed stream_names = Ok M ->
  let names := default [] stream_names in
  size (value_heads (base M)) = length names /\
  (forall name, name ∈ names -> is_Some (value_heads (base M) !! name)) /\
  returns_holders (losses M)
    = map (fun name => Placeholder float32 [None] (name +:+ "_returns")) names /\
  old_values (losses M)
    = map (fun name => Placeholder float32 [None] (name +:+ "_value_estimate"))
          names /\
  learning_rate (losses M) = learning_rate_schedule (base M) lr max_step.
Proof.
  intros HM names.
  destruct (PPOModel_init_Ok _ _ _ _ _ _ _ _ _ _ _ _ _ _ _ _ _ M HM)
    as (self0 & self1 & _ & _ & HL & _).
  fold names in HL.
  apply create_losses_built in HL as (Hsize & heads & Hheads & Hb).
  destruct Hb as (Hrh & Hov & _ & Hlr & _).
  split; [exact Hsize|]. split; [|auto].
  intros name Hin. apply list_elem_of_lookup in Hin as [i Hi].
  destruct (Forall2_lookup_l _ _ _ _ _ Hheads Hi) as (head & _ & Hhead). eauto.
Qed.

(** ** Distinct placeholder names *)

Lemma reversed_suffix (s suffix : string) :
  rev (String.list_ascii_of_string (s +:+ suffix))
  = rev (String.list_ascii_of_string suffix)
    ++ rev (String.list_ascii_of_string s).
Proof. rewrite list_ascii_of_append. apply rev_app_distr. Qed.

Lemma returns_is_not_value_estimate (s t : string) :
  format_returns s <> format_value_estimate t.
Proof.
  unfold format_returns, format_value_estimate. intros H.
  apply (f_equal (fun x => rev (String.list_ascii_of_string x))) in H.
  rewrite !reversed_suffix in H. simpl in H. discriminate.
Qed.

Lemma returns_is_not_advantages (s : string) : format_returns s <> "advantages".
Proof.
  unfold format_returns. intros H.
  apply (f_equal (fun x => rev (String.list_ascii_of_string x))) in H.
  rewrite reversed_suffix in H. simpl in H. discriminate.
Qed.

Lemma value_estimate_is_not_advantages (s : string) :
  format_value_estimate s <> "advantages".
Proof.
  unfold format_value_estimate. intros H.
  apply (f_equal (fun x => rev (String.list_ascii_of_string x))) in H.
  rewrite reversed_suffix in H. simpl in H. discriminate.
Qed.

Lemma placeholder_names_NoDup (names : list string) :
  NoDup names ->
  NoDup (map format_returns names ++ map format_value_estimate names
         ++ ["advantages"]).
Proof.
  intros Hnd.
  assert (Hr : NoDup (map format_returns names)).
  { apply NoDup_fmap_2; [|exact Hnd]. intros s t. apply append_suffix_inj. }
  assert (Hv : NoDup (map format_value_estimate names)).
  { apply NoDup_fmap_2; [|exact Hnd]. intros s t. apply append_suffix_inj. }
  apply NoDup_app. split; [exact Hr|]. split.
  - intros x Hx Hin. apply list_elem_of_fmap in Hx as (s & -> & _).
    apply elem_of_app in Hin as [Hin|Hin].
    + apply list_elem_of_fmap in Hin as (t & Heq & _).
      exact (returns_is_not_value_estimate s t Heq).
    + apply list_elem_of_singleton in Hin.
      exact (returns_is_not_advantages s Hin).
  - apply NoDup_app. split; [exact Hv|]. split; [|apply NoDup_singleton].
    intros x Hx Hin. apply list_elem_of_fmap in Hx as (s & -> & _).
    apply list_elem_of_singleton in Hin.
    exact (value_estimate_is_not_advantages s Hin).
Qed.

(** X23.  For distinct stream names, the placeholders [create_losses]
    creates have distinct names: no two returns or old-value placeholders
    share a name, and none is named "advantages". *)
Theorem placeholders_have_distinct_names (self : LearningModel)
    (probs old_probs : tensor) (value_streams : gmap string tensor)
    (ent : tensor) (beta epsilon lr max_step : R) (stream_names : list string)
    (L : Losses) :
  create_losses self probs old_probs value_streams ent beta epsilon lr max_step
    stream_names = Ok L ->
  NoDup stream_names ->
  exists returns_names old_value_names,
    returns_holders L = map (Placeholder float32 [None]) returns_names /\
    old_values L = map (Placeholder float32 [None]) old_value_names /\
    advantage L = Placeholder float32 [None; Some 1%nat] "advantages" /\
    NoDup (returns_names ++ old_value_names ++ ["advantages"]).
Proof.
  intros HL Hnd.
  apply create_losses_built in HL as (_ & heads & _ & Hb).
  destruct Hb as (Hrh & Hov & Hadv & _).
  exists (map format_returns stream_names),
         (map format_value_estimate stream_names).
  rewrite Hrh, Hov, !map_map. repeat split; try assumption.
  apply placeholder_names_NoDup. exact Hnd.
Qed.

(** ** The further properties on the example *)

Lemma example_create_losses_for (probs old_probs : tensor) :
  exists L,
    create_losses example.self probs old_probs (value_heads example.self)
      (entropy example.self) example.beta example.epsilon example.lr
      example.max_step example.stream_names = Ok L.
Proof.
  destruct (create_losses_total example.self probs old_probs
      (value_heads example.self) (entropy example.self) example.beta
      example.epsilon example.lr example.max_step example.stream_names
      [Placeholder float32 [None; Some 1%nat] "extrinsic_value";
       Placeholder float32 [None; Some 1%nat] "curiosity_value"])
    as (L & HL & _).
  - reflexivity.
  - exact example_names_valid.
  - repeat constructor.
  - exists L. exact HL.
Qed.

Lemma example_batch_shaped1 : batch_shaped example.stream_names example.batch1.
Proof.
  unfold batch_shaped. repeat split; try reflexivity;
    simpl; destruct (decide _); reflexivity.
Qed.

Lemma example_holds_batch_padding :
  holds_batch example.self example.feed_padding (log_probs example.self)
    (old_log_probs example.self) (entropy example.self)
    (value_heads example.self) example.stream_names example.batch_padding.
Proof.
  unfold holds_batch. repeat split; try reflexivity;
    destruct (example_stream_names name H) as [-> | ->];
    vm_compute in H0; injection H0 as <-; reflexivity.
Qed.

Lemma example_batch_shaped_padding :
  batch_shaped example.stream_names example.batch_padding.
Proof.
  unfold batch_shaped. repeat split; try reflexivity;
    simpl; destruct (decide _); reflexivity.
Qed.

Lemma create_losses_returns_only_if_witness :
  exists L,
    create_losses example.self (log_probs example.self)
      (old_log_probs example.self) (value_heads example.self)
      (entropy example.self) example.beta example.epsilon example.lr
      example.max_step example.stream_names = Ok L /\
    size (value_heads example.self) = 2 /\
    forall name, name ∈ example.stream_names ->
      is_Some (value_heads example.self !! name) /\
      tflib.valid_op_name (name +:+ "_returns") = true /\
      tflib.valid_op_name (name +:+ "_value_estimate") = true /\
      stream_name_ok name = true.
Proof.
  eexists. split; [reflexivity|].
  apply (create_losses_returns_only_if example.self (log_probs example.self)
           (old_log_probs example.self) (value_heads example.self)
           (entropy example.self) example.beta example.epsilon example.lr
           example.max_step example.stream_names _ eq_refl).
Defined.

Lemma mismatched_lengths_raise_IndexError_witness :
  create_losses example.self (log_probs example.self)
    (old_log_probs example.self) (value_heads example.self)
    (entropy example.self) example.beta example.epsilon example.lr
    example.max_step ["extrinsic"] = Err IndexError.
Proof.
  apply (mismatched_lengths_raise_IndexError example.self
           (log_probs example.self) (old_log_probs example.self)
           (value_heads example.self) (entropy example.self) example.beta
           example.epsilon example.lr example.max_step ["extrinsic"]).
  left. split.
  - vm_compute. lia.
  - names_valid.
Defined.

Lemma missing_first_head_raises_KeyError_witness :
  create_losses example.self (log_probs example.self)
    (old_log_probs example.self) (value_heads example.self)
    (entropy example.self) example.beta example.epsilon example.lr
    example.max_step ["gail"; "extrinsic"] = Err (KeyError "gail").
Proof.
  apply (missing_first_head_raises_KeyError example.self
           (log_probs example.self) (old_log_probs example.self)
           (value_heads example.self) (entropy example.self) example.beta
           example.epsilon example.lr example.max_step
           ["gail"; "extrinsic"] "gail").
  - vm_compute. lia.
  - replace (size (value_heads example.self)) with 2 by reflexivity.
    cbn [take]. names_valid.
  - reflexivity.
  - reflexivity.
Defined.

Lemma invalid_stream_name_raises_ValueError_witness :
  create_losses example.self (log_probs example.self)
    (old_log_probs example.self) (value_heads example.self)
    (entropy example.self) example.beta example.epsilon example.lr
    example.max_step ["extrinsic"; "my reward"] = Err ValueError.
Proof.
  apply (invalid_stream_name_raises_ValueError example.self
           (log_probs example.self) (old_log_probs example.self)
           (value_heads example.self) (entropy example.self) example.beta
           example.epsilon example.lr example.max_step
           ["extrinsic"; "my reward"] 1 "my reward").
  - vm_compute. lia.
  - reflexivity.
  - reflexivity.
  - intros j n Hj Hn. destruct j as [|j]; [|lia].
    injection Hn as <-. reflexivity.
Defined.

Lemma no_streams_no_value_loss_witness :
  exists L,
    create_losses example.self (log_probs example.self)
      (old_log_probs example.self) ∅ (entropy example.self) example.beta
      example.epsilon example.lr example.max_step [] = Ok L /\
    eval example.feed (value_loss L) = Err NonReal.
Proof.
  assert (exists L,
    create_losses example.self (log_probs example.self)
      (old_log_probs example.self) ∅ (entropy example.self) example.beta
      example.epsilon example.lr example.max_step [] = Ok L) as [L HL]
    by (eexists; reflexivity).
  exists L. split; [exact HL|].
  apply (no_streams_no_value_loss example.self (log_probs example.self)
           (old_log_probs example.self) ∅ (entropy example.self) example.beta
           example.epsilon example.lr example.max_step L example.feed HL).
Defined.

Lemma no_valid_timestep_no_loss_witness :
  exists L,
    create_losses example.self (log_probs example.self)
      (old_log_probs example.self) (value_heads example.self)
      (entropy example.self) example.beta example.epsilon example.lr
      example.max_step example.stream_names = Ok L /\
    eval example.feed_padding (loss L) = Err NonReal.
Proof.
  destruct example_create_losses as [L HL]. exists L. split; [exact HL|].
  apply (no_valid_timestep_no_loss example.self example.feed_padding
           (log_probs example.self) (old_log_probs example.self)
           (value_heads example.self) (entropy example.self) example.beta
           example.epsilon example.lr example.max_step example.stream_names L
           example.batch_padding example.epsilon HL).
  - exact example_holds_batch_padding.
  - exact example_batch_shaped_padding.
  - repeat constructor.
  - apply example_schedules. reflexivity.
Defined.

Lemma value_loss_is_nonnegative_witness :
  exists L v,
    create_losses example.self (log_probs example.self)
      (old_log_probs example.self) (value_heads example.self)
      (entropy example.self) example.beta example.epsilon example.lr
      example.max_step example.stream_names = Ok L /\
    eval example.feed (value_loss L) = Ok (Scalar v) /\ (0 <= v)%R.
Proof.
  destruct example_create_losses as [L HL].
  destruct (value_loss_is_nonnegative example.self example.feed
              (log_probs example.self) (old_log_probs example.self)
              (value_heads example.self) (entropy example.self) example.beta
              example.epsilon example.lr example.max_step example.stream_names L
              example.batch1 example.epsilon (Scalar 1) HL)
    as (v & Hv & Hpos).
  - exact example_holds_batch1.
  - exact example_batch_shaped1.
  - exact example_binary_mask.
  - exact example_decay_epsilon.
  - exact (example_value_loss_eval L HL).
  - exists L, v. rewrite <- Hv.
    split; [exact HL|]. split; [exact (example_value_loss_eval L HL)|exact Hpos].
Defined.

Lemma example_head_sum :
  eval example.feed
    (ReduceSum1 (Placeholder float32 [None; Some 1%nat] "extrinsic_value"))
  = Ok (Vector [(1 + 0)%R; (5 + 0)%R]).
Proof. reflexivity. Qed.

Lemma value_loss_without_clipping_witness :
  eval example.feed
    (stream_value_loss example.self (returns_placeholder "extrinsic")
       (ReduceSum1 (Placeholder float32 [None; Some 1%nat] "extrinsic_value"))
       (Placeholder float32 [None; Some 1%nat] "extrinsic_value")
       (decay_epsilon example.self example.epsilon example.max_step))
  = Scalar <$> spec.masked_mean
      (zip_with (fun ret v => ((ret - v) ^ 2)%R) [2%R; 7%R]
         (map sum_list [[1%R]; [5%R]])) [1%Z; 0%Z].
Proof.
  apply (value_loss_without_clipping example.self example.feed
           (returns_placeholder "extrinsic")
           (ReduceSum1 (Placeholder float32 [None; Some 1%nat] "extrinsic_value"))
           (Placeholder float32 [None; Some 1%nat] "extrinsic_value")
           (decay_epsilon example.self example.epsilon example.max_step)
           [2%R; 7%R] [(1 + 0)%R; (5 + 0)%R] [[1%R]; [5%R]] [1%Z; 0%Z]
           example.epsilon); try reflexivity.
  - exact example_decay_epsilon.
  - exact example_binary_mask.
  - unfold example.epsilon. simpl.
    constructor; [lra|]. constructor; [lra|]. constructor.
Defined.

Lemma policy_loss_of_unchanged_policy_witness :
  exists L,
    create_losses example.self (old_log_probs example.self)
      (old_log_probs example.self) (value_heads example.self)
      (entropy example.self) example.beta example.epsilon example.lr
      example.max_step example.stream_names = Ok L /\
    eval example.feed (policy_loss L)
    = Scalar <$> (a ← spec.masked_mean [1%R; 2%R] [1%Z; 0%Z]; Ok (- a)%R).
Proof.
  destruct (example_create_losses_for (old_log_probs example.self)
              (old_log_probs example.self)) as [L HL].
  exists L. split; [exact HL|].
  apply (policy_loss_of_unchanged_policy example.self example.feed
           (old_log_probs example.self) (old_log_probs example.self)
           (value_heads example.self) (entropy example.self) example.beta
           example.epsilon example.lr example.max_step example.stream_names L
           [0%R; 0%R] [1%R; 2%R] [1%Z; 0%Z] example.epsilon HL);
    try reflexivity.
  - exact example_decay_epsilon.
  - exact example_binary_mask.
  - unfold example.epsilon. lra.
Defined.

Lemma policy_loss_at_least_unclipped_witness :
  (- (spec.ratio 0 0 * 1) <= -1)%R.
Proof.
  destruct example_create_losses as [L HL].
  apply (policy_loss_at_least_unclipped example.self example.feed
           (log_probs example.self) (old_log_probs example.self)
           (value_heads example.self) (entropy example.self) example.beta
           example.epsilon example.lr example.max_step example.stream_names L
           [0%R; 1%R] [0%R; 0%R] [1%R; 2%R] [1%Z; 0%Z] example.epsilon
           (-1) (spec.ratio 0 0 * 1) HL); try reflexivity.
  - exact example_decay_epsilon.
  - exact example_binary_mask.
  - exact (example_policy_loss_eval L HL).
  - cbn [spec.zip_with3]. apply masked_mean_first.
Defined.

Lemma policy_loss_at_least_capped_witness :
  (- surrogate_cap example.epsilon 1 <= -1)%R.
Proof.
  destruct example_create_losses as [L HL].
  apply (policy_loss_at_least_capped example.self example.feed
           (log_probs example.self) (old_log_probs example.self)
           (value_heads example.self) (entropy example.self) example.beta
           example.epsilon example.lr example.max_step example.stream_names L
           [0%R; 1%R] [0%R; 0%R] [1%R; 2%R] [1%Z; 0%Z] example.epsilon
           (-1) (surrogate_cap example.epsilon 1) HL); try reflexivity.
  - exact example_decay_epsilon.
  - exact example_binary_mask.
  - unfold example.epsilon. lra.
  - exact (example_policy_loss_eval L HL).
  - cbn [map]. apply masked_mean_first.
Defined.

Lemma example_stream_loss_eval :
  eval example.feed
    (stream_value_loss example.self (returns_placeholder "extrinsic")
       (old_value_placeholder "extrinsic")
       (Placeholder float32 [None; Some 1%nat] "extrinsic_value")
       (decay_epsilon example.self example.epsilon example.max_step))
  = Ok (Scalar ((2 - (1 + 0)) ^ 2)).
Proof.
  rewrite (eval_stream_value_loss example.self example.feed _ _ _ _
             [2%R; 7%R] [1%R; 4%R] [[1%R]; [5%R]] [1%Z; 0%Z] example.epsilon);
    try reflexivity.
  - rewrite mean_select_masked_mean; [|reflexivity|exact example_binary_mask].
    cbn [map sum_list foldr spec.zip_with3]. rewrite masked_mean_first.
    replace (1 + 0)%R with 1%R by lra. rewrite example_value_error.
    reflexivity.
  - exact example_decay_epsilon.
  - exact example_binary_mask.
Qed.

Lemma value_loss_at_least_squared_error_witness :
  (0 <= (2 - (1 + 0)) ^ 2 <= (2 - (1 + 0)) ^ 2)%R.
Proof.
  apply (value_loss_at_least_squared_error example.self example.feed
           (returns_placeholder "extrinsic") (old_value_placeholder "extrinsic")
           (Placeholder float32 [None; Some 1%nat] "extrinsic_value")
           (decay_epsilon example.self example.epsilon example.max_step)
           [2%R; 7%R] [1%R; 4%R] [[1%R]; [5%R]] [1%Z; 0%Z] example.epsilon);
    try reflexivity.
  - exact example_decay_epsilon.
  - exact example_binary_mask.
  - exact example_stream_loss_eval.
  - cbn [map sum_list foldr zip_with]. apply masked_mean_first.
Defined.

Lemma schedules_stay_at_floor_witness :
  eval example.feed_end
    (decay_epsilon example.self example.epsilon example.max_step)
  = Ok (Scalar 0.1).
Proof.
  apply (schedules_stay_at_floor example.self example.feed_end example.lr
           example.epsilon example.beta example.max_step 5000000).
  - unfold example.max_step. lra.
  - reflexivity.
  - unfold example.max_step. lra.
Defined.

Lemma schedules_of_zero_steps_witness :
  eval example.feed (decay_epsilon example.self example.epsilon 0) = Err NonReal.
Proof.
  apply (schedules_of_zero_steps example.self example.feed example.lr
           example.epsilon example.beta 0).
  reflexivity.
Defined.

Lemma clipped_estimate_within_configured_radius_witness :
  exists e clipped,
    eval example.feed
      (decay_epsilon example.self example.epsilon example.max_step)
    = Ok (Scalar e) /\
    (Rmin example.epsilon 0.1 <= e <= Rmax example.epsilon 0.1)%R /\
    eval example.feed
      (clipped_value_estimate (old_value_placeholder "extrinsic")
         (Placeholder float32 [None; Some 1%nat] "extrinsic_value")
         (decay_epsilon example.self example.epsilon example.max_step))
    = Ok (Vector clipped) /\
    forall i c v_old, clipped !! i = Some c -> [1%R; 4%R] !! i = Some v_old ->
      (Rabs (c - v_old) <= Rmax example.epsilon 0.1)%R.
Proof.
  apply (clipped_estimate_within_configured_radius example.self example.feed
           (old_value_placeholder "extrinsic")
           (Placeholder float32 [None; Some 1%nat] "extrinsic_value")
           example.epsilon example.max_step 0 [1%R; 4%R] [[1%R]; [5%R]]);
    try reflexivity.
  - unfold example.max_step. lra.
  - unfold example.epsilon. lra.
Defined.

Lemma registered_signal_is_constructed_witness :
  reward_signal_factory.create_reward_signal unit (list string)
    reward_signal_factory.reward_signal_class example.check_config
    example.construct tt "extrinsic" ["strength"; "gamma"]
  = ([reward_signal_factory.CallCheckConfig unit (list string)
        reward_signal_factory.ExtrinsicSignal ["strength"; "gamma"];
      reward_signal_factory.CallConstructor unit (list string)
        reward_signal_factory.ExtrinsicSignal tt ["strength"; "gamma"]],
     Ok reward_signal_factory.ExtrinsicSignal).
Proof.
  apply (registered_signal_is_constructed unit (list string)
           reward_signal_factory.reward_signal_class example.check_config
           example.construct tt "extrinsic" ["strength"; "gamma"]
           reward_signal_factory.ExtrinsicSignal
           reward_signal_factory.ExtrinsicSignal); reflexivity.
Defined.

Lemma check_config_failure_is_not_translated_witness :
  reward_signal_factory.create_reward_signal unit (list string)
    reward_signal_factory.reward_signal_class example.strict_check_config
    example.construct tt "curiosity" ["strength"]
  = ([reward_signal_factory.CallCheckConfig unit (list string)
        reward_signal_factory.CuriositySignal ["strength"]],
     Err (UnityTrainerException "The required hyperparameter was not defined")).
Proof.
  apply (check_config_failure_is_not_translated unit (list string)
           reward_signal_factory.reward_signal_class example.strict_check_config
           example.construct tt "curiosity" ["strength"]
           reward_signal_factory.CuriositySignal); reflexivity.
Defined.

Lemma other_constructor_failures_propagate_witness :
  reward_signal_factory.create_reward_signal unit (list string)
    reward_signal_factory.reward_signal_class example.check_config
    example.failing_construct tt "gail" ["strength"; "gamma"]
  = ([reward_signal_factory.CallCheckConfig unit (list string)
        reward_signal_factory.GAILSignal ["strength"; "gamma"];
      reward_signal_factory.CallConstructor unit (list string)
        reward_signal_factory.GAILSignal tt ["strength"; "gamma"]],
     Err (OtherException "demonstration file not found")).
Proof.
  apply (other_constructor_failures_propagate unit (list string)
           reward_signal_factory.reward_signal_class example.check_config
           example.failing_construct tt "gail" ["strength"; "gamma"]
           reward_signal_factory.GAILSignal); try reflexivity.
  discriminate.
Defined.

Lemma returned_instance_comes_from_registered_class_witness :
  exists rcls,
    reward_signal_factory.NAME_TO_CLASS !! "extrinsic" = Some rcls /\
    example.construct rcls tt ["strength"; "gamma"]
    = Ok reward_signal_factory.ExtrinsicSignal.
Proof.
  destruct (returned_instance_comes_from_registered_class unit (list string)
              reward_signal_factory.reward_signal_class example.check_config
              example.construct tt "extrinsic" ["strength"; "gamma"]
              [reward_signal_factory.CallCheckConfig unit (list string)
                 reward_signal_factory.ExtrinsicSignal ["strength"; "gamma"];
               reward_signal_factory.CallConstructor unit (list string)
                 reward_signal_factory.ExtrinsicSignal tt ["strength"; "gamma"]]
              reward_signal_factory.ExtrinsicSignal)
    as (rcls & Hcls & _ & _ & Hctor & _).
  - reflexivity.
  - exists rcls. split; assumption.
Defined.

Lemma layer_count_is_clamped_witness :
  PPOModel_init string (fun brain => brain) example.LearningModel_init
    example.create_cc_actor_critic example.create_actor_critic "discrete"
    example.lr 128 example.epsilon example.beta example.max_step false false
    0 None 0 (Some example.stream_names)
  = PPOModel_init string (fun brain => brain) example.LearningModel_init
      example.create_cc_actor_critic example.create_actor_critic "discrete"
      example.lr 128 example.epsilon example.beta example.max_step false false
      1 None 0 (Some example.stream_names).
Proof.
  apply (layer_count_is_clamped string (fun brain => brain)
           example.LearningModel_init example.create_cc_actor_critic
           example.create_actor_critic "discrete" example.lr 128
           example.epsilon example.beta example.max_step false false 0 None 0
           (Some example.stream_names)).
  lia.
Defined.

Lemma continuous_entropy_is_broadcast_witness :
  exists M,
    PPOModel_init string (fun brain => brain) example.LearningModel_init
      example.create_cc_actor_critic example.create_actor_critic "continuous"
      example.lr 128 example.epsilon example.beta example.max_step false false
      2 None 0 (Some example.stream_names) = Ok M /\
    eval example.feed_continuous
      (ReduceMean (DynamicPartition (entropy (base M)) (mask (base M)) 2 1))
    = Ok (Scalar 2).
Proof.
  assert (exists M,
    PPOModel_init string (fun brain => brain) example.LearningModel_init
      example.create_cc_actor_critic example.create_actor_critic "continuous"
      example.lr 128 example.epsilon example.beta example.max_step false false
      2 None 0 (Some example.stream_names) = Ok M) as [M HM]
    by (eexists; reflexivity).
  exists M. split; [exact HM|].
  eapply (continuous_entropy_is_broadcast string (fun brain => brain)
            example.LearningModel_init example.create_cc_actor_critic
            example.create_actor_critic "continuous" example.lr 128
            example.epsilon example.beta example.max_step false false 2 None 0
            (Some example.stream_names) M _ _ example.feed_continuous
            [3%R; 4%R] 2 [1%Z; 0%Z] HM); try reflexivity.
  - exact example_binary_mask.
  - left.
Defined.

Lemma discrete_model_uses_the_discrete_heads_witness :
  PPOModel_init string (fun brain => brain) example.LearningModel_init
    example.create_cc_actor_critic example.create_actor_critic "discrete"
    example.lr 128 example.epsilon example.beta example.max_step false false
    2 None 0 (Some example.stream_names)
  = PPOModel_init string (fun brain => brain) example.LearningModel_init
      example.create_actor_critic example.create_actor_critic "discrete"
      example.lr 128 example.epsilon example.beta example.max_step false false
      2 None 0 (Some example.stream_names).
Proof.
  apply (discrete_model_uses_the_discrete_heads string (fun brain => brain)
           example.LearningModel_init example.create_actor_critic
           example.create_actor_critic "discrete" example.lr 128
           example.epsilon example.beta example.max_step false false 2 None 0
           (Some example.stream_names)).
  discriminate.
Defined.

Lemma constructed_model_has_a_head_for_every_stream_witness :
  exists M,
    PPOModel_init string (fun brain => brain) example.LearningModel_init
      example.create_cc_actor_critic example.create_actor_critic "discrete"
      example.lr 128 example.epsilon example.beta example.max_step false false
      2 None 0 (Some example.stream_names) = Ok M /\
    size (value_heads (base M)) = 2.
Proof.
  assert (exists M,
    PPOModel_init string (fun brain => brain) example.LearningModel_init
      example.create_cc_actor_critic example.create_actor_critic "discrete"
      example.lr 128 example.epsilon example.beta example.max_step false false
      2 None 0 (Some example.stream_names) = Ok M) as [M HM]
    by (eexists; reflexivity).
  exists M. split; [exact HM|].
  apply (constructed_model_has_a_head_for_every_stream string
           (fun brain => brain) example.LearningModel_init
           example.create_cc_actor_critic example.create_actor_critic
           "discrete" example.lr 128 example.epsilon example.beta
           example.max_step false false 2 None 0 (Some example.stream_names) M
           HM).
Defined.

Lemma placeholders_have_distinct_names_witness :
  exists L returns_names old_value_names,
    create_losses example.self (log_probs example.self)
      (old_log_probs example.self) (value_heads example.self)
      (entropy example.self) example.beta example.epsilon example.lr
      example.max_step example.stream_names = Ok L /\
    returns_holders L = map (Placeholder float32 [None]) returns_names /\
    NoDup (returns_names ++ old_value_names ++ ["advantages"]).
Proof.
  destruct example_create_losses as [L HL].
  destruct (placeholders_have_distinct_names example.self
              (log_probs example.self) (old_log_probs example.self)
              (value_heads example.self) (entropy example.self) example.beta
              example.epsilon example.lr example.max_step example.stream_names
              L HL) as (rn & vn & Hr & _ & _ & Hnd).
  - apply (bool_decide_unpack _). vm_compute. exact I.
  - exists L, rn, vn. auto.
Defined.
